(** * Synthetic stealer-log generators: a shallow embedding

    The development follows [src/atomic/atomic-generator.py] (the Atomic
    generator, whose classes the Lumma, RedLine and StealC scripts repeat),
    the seed derivation of [src/vidar/vidar-generator.py] and functions of
    [src/lumma/lumma-generator.py].

    Conventions.
    - A Python [str] is a Rocq [string]: the sequence of its UTF-8 bytes
      (what [str.encode()] yields).  Concatenation, [join], [replace] and
      [startswith] commute with the encoding; [lower] and [strip] are
      modelled on ASCII.
    - A value loaded by [json.load] is a [pyval]; JSON numbers are integers
      (configurations with fractional numbers are outside the model).
    - Python's own libraries ([random], [datetime], the format
      mini-language) are the fields of the class [PyRuntime], each with the
      range law its documentation states; [hashlib.md5] is written out from
      RFC 1321 and checked on the RFC's test vectors.
    - A raised exception is the [Raise] outcome; state changed before the
      raise is kept, as in Python.

    Where the model is narrower than Python.
    - The text of an exception in a log record is the name of its class.
    - [getattr] knows the thirteen fields of the [Persona] dataclass.
    - The weights of [random.choices] are integers.
    - A path names the file or directory of that exact spelling, and only
      one kind of error, [OSError], comes from the file system.
    - [str.lower] and [str.strip] act on ASCII.
    - The roster is taken as [csv.DictReader] has read it, every row with a
      cell for each column; text printed to standard output is not
      recorded. *)

From Stdlib Require Import ZArith Ascii String List Lia Bool DecimalString.
From stdpp Require Import gmap strings list.
Import ListNotations.

#[local] Set Warnings "-register-all".

Local Open Scope string_scope.
Local Open Scope Z_scope.
Local Open Scope list_scope.

(** ** hashlib.md5 (RFC 1321) *)

Module MD5.

Definition mask32 (x : Z) : Z := Z.land x 4294967295.

Definition add32 (x y : Z) : Z := mask32 (x + y).

Definition not32 (x : Z) : Z := Z.lxor x 4294967295.

Definition rotl32 (x c : Z) : Z :=
  mask32 (Z.lor (Z.shiftl x c) (Z.shiftr x (32 - c))).

(** Per-round shift amounts. *)
Definition S_table : list Z :=
  [7; 12; 17; 22; 7; 12; 17; 22; 7; 12; 17; 22; 7; 12; 17; 22;
   5;  9; 14; 20; 5;  9; 14; 20; 5;  9; 14; 20; 5;  9; 14; 20;
   4; 11; 16; 23; 4; 11; 16; 23; 4; 11; 16; 23; 4; 11; 16; 23;
   6; 10; 15; 21; 6; 10; 15; 21; 6; 10; 15; 21; 6; 10; 15; 21].

(** [K_table[i] = floor(2^32 * |sin(i + 1)|)]. *)
Definition K_table : list Z :=
  [3614090360; 3905402710; 606105819; 3250441966; 4118548399; 1200080426;
   2821735955; 4249261313; 1770035416; 2336552879; 4294925233; 2304563134;
   1804603682; 4254626195; 2792965006; 1236535329; 4129170786; 3225465664;
   643717713; 3921069994; 3593408605; 38016083; 3634488961; 3889429448;
   568446438; 3275163606; 4107603335; 1163531501; 2850285829; 4243563512;
   1735328473; 2368359562; 4294588738; 2272392833; 1839030562; 4259657740;
   2763975236; 1272893353; 4139469664; 3200236656; 681279174; 3936430074;
   3572445317; 76029189; 3654602809; 3873151461; 530742520; 3299628645;
   4096336452; 1126891415; 2878612391; 4237533241; 1700485571; 2399980690;
   4293915773; 2240044497; 1873313359; 4264355552; 2734768916; 1309151649;
   4149444226; 3174756917; 718787259; 3951481745].

Definition bytes_of_string (s : string) : list Z :=
  map (fun c => Z.of_N (N_of_ascii c)) (list_ascii_of_string s).

(** Little-endian bytes of the low [8 * n] bits of [x]. *)
Fixpoint le_bytes (n : nat) (x : Z) : list Z :=
  match n with
  | O => []
  | S n' => Z.land x 255 :: le_bytes n' (Z.shiftr x 8)
  end.

Definition pad (msg : list Z) : list Z :=
  let len := Z.of_nat (List.length msg) in
  msg ++ [128] ++ repeat 0 (Z.to_nat ((55 - len) mod 64)) ++ le_bytes 8 (8 * len).

Definition word_le (b0 b1 b2 b3 : Z) : Z :=
  b0 + Z.shiftl b1 8 + Z.shiftl b2 16 + Z.shiftl b3 24.

Fixpoint words_of_bytes (bs : list Z) : list Z :=
  match bs with
  | b0 :: b1 :: b2 :: b3 :: rest => word_le b0 b1 b2 b3 :: words_of_bytes rest
  | _ => []
  end.

Record state := State { sa : Z; sb : Z; sc : Z; sd : Z }.

Definition init : state :=
  State 1732584193 4023233417 2562383102 271733878.

Definition step (M : list Z) (st : state) (i : nat) : state :=
  let '(State A B C D) := st in
  let iz := Z.of_nat i in
  let '(F, g) :=
    if iz <? 16 then (Z.lor (Z.land B C) (Z.land (not32 B) D), iz)
    else if iz <? 32 then
      (Z.lor (Z.land D B) (Z.land (not32 D) C), (5 * iz + 1) mod 16)
    else if iz <? 48 then (Z.lxor (Z.lxor B C) D, (3 * iz + 5) mod 16)
    else (Z.lxor C (Z.lor B (not32 D)), (7 * iz) mod 16) in
  let F' := mask32 (F + A + nth i K_table 0 + nth (Z.to_nat g) M 0) in
  State D (add32 B (rotl32 F' (nth i S_table 0))) B C.

Definition compress (st : state) (M : list Z) : state :=
  let '(State A B C D) := fold_left (step M) (seq 0 64) st in
  State (add32 (sa st) A) (add32 (sb st) B) (add32 (sc st) C)
    (add32 (sd st) D).

(** The words of the padded message, sixteen at a time. *)
Fixpoint blocks (fuel : nat) (ws : list Z) : list (list Z) :=
  match fuel, ws with
  | S fuel', _ :: _ => firstn 16 ws :: blocks fuel' (skipn 16 ws)
  | _, _ => []
  end.

Definition digest (msg : list Z) : list Z :=
  let ws := words_of_bytes (pad msg) in
  let st := fold_left compress (blocks (List.length ws) ws) init in
  le_bytes 4 (sa st) ++ le_bytes 4 (sb st) ++ le_bytes 4 (sc st)
    ++ le_bytes 4 (sd st).

Definition hex_digit (d : Z) : ascii :=
  ascii_of_N (Z.to_N (if d <? 10 then 48 + d else 87 + d)).

Fixpoint hex_of_bytes (bs : list Z) : string :=
  match bs with
  | [] => EmptyString
  | b :: rest =>
      String (hex_digit (Z.shiftr b 4))
        (String (hex_digit (Z.land b 15)) (hex_of_bytes rest))
  end.

(** [hashlib.md5(data).hexdigest()] *)
Definition hexdigest (data : string) : string :=
  hex_of_bytes (digest (bytes_of_string data)).

End MD5.

(** ** Built-in string and integer helpers *)

(** [s[:n]] for [n >= 0] *)
Fixpoint str_take (n : nat) (s : string) : string :=
  match n, s with
  | S n', String c rest => String c (str_take n' rest)
  | _, _ => EmptyString
  end.

Definition hex_value (c : ascii) : option Z :=
  let n := Z.of_N (N_of_ascii c) in
  if (48 <=? n) && (n <=? 57) then Some (n - 48)
  else if (97 <=? n) && (n <=? 102) then Some (n - 87)
  else if (65 <=? n) && (n <=? 70) then Some (n - 55)
  else None.

Fixpoint int_base16_acc (acc : Z) (s : string) : option Z :=
  match s with
  | EmptyString => Some acc
  | String c rest =>
      match hex_value c with
      | Some d => int_base16_acc (16 * acc + d) rest
      | None => None
      end
  end.

(** [int(s, 16)] on a non-empty string of hexadecimal digits; [None]
    stands for the [ValueError] of any other string. *)
Definition int_base16 (s : string) : option Z :=
  match s with
  | EmptyString => None
  | _ => int_base16_acc 0 s
  end.

(** ** Seed derivation *)

(** [BaseGenerator.get_persona_seed] of the Atomic generator (the Lumma,
    RedLine and StealC copies are identical):
    [int(hashlib.md5(f"{persona_id}_{suffix}".encode()).hexdigest()[:8], 16)] *)
Definition get_persona_seed (persona_id suffix : string) : Z :=
  let seed_string := persona_id +:+ "_" +:+ suffix in
  default 0 (int_base16 (str_take 8 (MD5.hexdigest seed_string))).

Module Vidar.

(** [VidarLogGenerator.get_persona_seed]:
    [int(hashlib.md5(f"{persona_id}{suffix}".encode()).hexdigest()[:8], 16)] *)
Definition get_persona_seed (persona_id suffix : string) : Z :=
  default 0 (int_base16 (str_take 8 (MD5.hexdigest (persona_id +:+ suffix)))).

End Vidar.

(** ** Values loaded by [json.load] *)

Inductive pyval :=
| PNone
| PBool (b : bool)
| PInt (z : Z)
| PStr (s : string)
| PList (l : list pyval)
| PDict (d : list (string * pyval)).

(** ** Exceptions, outcomes and the log *)

Inductive exn :=
| TypeError | ValueError | IndexError | KeyError | AttributeError
| OverflowError | OSError.

Inductive outcome (A : Type) :=
| Ok (a : A)
| Raise (e : exn).

Arguments Ok {A} a.
Arguments Raise {A} e.

Definition is_ok {A} (o : outcome A) : bool :=
  match o with Ok _ => true | Raise _ => false end.

Definition exn_name (e : exn) : string :=
  match e with
  | TypeError => "TypeError"
  | ValueError => "ValueError"
  | IndexError => "IndexError"
  | KeyError => "KeyError"
  | AttributeError => "AttributeError"
  | OverflowError => "OverflowError"
  | OSError => "OSError"
  end.

Inductive level := INFO | WARNING | ERROR.

(** A record handed to [logger]; the text of an exception is rendered by
    the name of its class. *)
Definition logrec : Type := level * string.

(** ** Computations: state, exceptions, log *)

Definition St (S A : Type) : Type := S -> outcome A * S * list logrec.

Definition ret {S A} (a : A) : St S A := fun s => (Ok a, s, []).

Definition bind {S A B} (m : St S A) (k : A -> St S B) : St S B :=
  fun s =>
    match m s with
    | (Ok a, s1, l1) => let '(r, s2, l2) := k a s1 in (r, s2, l1 ++ l2)
    | (Raise e, s1, l1) => (Raise e, s1, l1)
    end.

Definition raise {S A} (e : exn) : St S A := fun s => (Raise e, s, []).

(** [try: m  except Exception as e: h e] *)
Definition try_except {S A} (m : St S A) (h : exn -> St S A) : St S A :=
  fun s =>
    match m s with
    | (Ok a, s1, l1) => (Ok a, s1, l1)
    | (Raise e, s1, l1) => let '(r, s2, l2) := h e s1 in (r, s2, l1 ++ l2)
    end.

Definition lift_outcome {S A} (o : outcome A) : St S A :=
  fun s => (o, s, []).

Definition logger {S} (lvl : level) (msg : string) : St S unit :=
  fun s => (Ok tt, s, [(lvl, msg)]).

Definition get_state {S} : St S S := fun s => (Ok s, s, []).

Definition put_state {S} (s' : S) : St S unit := fun _ => (Ok tt, s', []).

Notation "'let*' x ':=' m 'in' k" := (bind m (fun x => k))
  (at level 10, x name, m at level 100, k at level 200, only parsing).

(** [for x in xs: acc = f acc x] *)
Fixpoint foldM {S A B} (f : B -> A -> St S B) (acc : B) (xs : list A)
  : St S B :=
  match xs with
  | [] => ret acc
  | x :: rest => let* acc' := f acc x in foldM f acc' rest
  end.

(** [[f(x) for x in xs]], and a [for] loop appending [f(x)] to a list *)
Fixpoint mapM {S A B} (f : A -> St S B) (xs : list A) : St S (list B) :=
  match xs with
  | [] => ret []
  | x :: rest => let* y := f x in let* ys := mapM f rest in ret (y :: ys)
  end.

(** [for _ in range(n): out.append(body)] *)
Fixpoint repeatM {S A} (n : nat) (body : St S A) : St S (list A) :=
  match n with
  | O => ret []
  | S n' => let* y := body in let* ys := repeatM n' body in ret (y :: ys)
  end.

(** ** Built-in operations on values *)

Definition string_of_Z (z : Z) : string :=
  DecimalString.NilZero.string_of_int (Z.to_int z).

(** The text of one line feed *)
Definition newline : string := String (ascii_of_N 10) "".

(** [sep.join(parts)] for a list of [str] *)
Fixpoint join (sep : string) (parts : list string) : string :=
  match parts with
  | [] => ""
  | [p] => p
  | p :: rest => p +:+ sep +:+ join sep rest
  end.

Fixpoint str_contains_char (c : ascii) (s : string) : bool :=
  match s with
  | EmptyString => false
  | String c' rest => if Ascii.eqb c c' then true else str_contains_char c rest
  end.

Definition hex2 (n : Z) : string :=
  String (MD5.hex_digit (Z.shiftr n 4))
    (String (MD5.hex_digit (Z.land n 15)) EmptyString).

Fixpoint repr_escape (q : ascii) (s : string) : string :=
  match s with
  | EmptyString => ""
  | String c rest =>
      let n := Z.of_N (N_of_ascii c) in
      (if Ascii.eqb c "\"%char then "\\"
       else if Ascii.eqb c q then String "\"%char (String q EmptyString)
       else if n =? 10 then "\n"
       else if n =? 13 then "\r"
       else if n =? 9 then "\t"
       else if (n <? 32) || (n =? 127) then "\x" +:+ hex2 n
       else String c EmptyString) +:+ repr_escape q rest
  end.

(** [repr(s)] for a [str]: single quotes unless the text has a single
    quote and no double quote. *)
Definition repr_str (s : string) : string :=
  let double_quote := ascii_of_N 34 in
  let q := if str_contains_char "'"%char s
              && negb (str_contains_char double_quote s)
           then double_quote else "'"%char in
  String q (repr_escape q s) +:+ String q EmptyString.

Fixpoint py_repr (v : pyval) : string :=
  match v with
  | PNone => "None"
  | PBool true => "True"
  | PBool false => "False"
  | PInt z => string_of_Z z
  | PStr s => repr_str s
  | PList l => "[" +:+ join ", " (map py_repr l) +:+ "]"
  | PDict d =>
      "{" +:+ join ", "
                (map (fun kv => match kv with
                                | (k, x) => repr_str k +:+ ": " +:+ py_repr x
                                end) d) +:+ "}"
  end.

(** [str(v)] *)
Definition py_str (v : pyval) : string :=
  match v with
  | PStr s => s
  | _ => py_repr v
  end.

(** Truth value of [v] in [if v] and [if not v] *)
Definition py_truthy (v : pyval) : bool :=
  match v with
  | PNone => false
  | PBool b => b
  | PInt z => negb (z =? 0)
  | PStr s => negb (String.eqb s "")
  | PList l => match l with [] => false | _ => true end
  | PDict d => match d with [] => false | _ => true end
  end.

Definition is_none (v : pyval) : bool :=
  match v with PNone => true | _ => false end.

(** [operator.index(v)]: an [int], or a [bool] read as 0 or 1 *)
Definition as_int (v : pyval) : outcome Z :=
  match v with
  | PInt z => Ok z
  | PBool b => Ok (if b then 1 else 0)
  | _ => Raise TypeError
  end.

(** [k == v] for a hashable scalar [k] *)
Definition scalar_eq (k v : pyval) : bool :=
  match k, v with
  | PNone, PNone => true
  | PStr a, PStr b => String.eqb a b
  | (PInt _ | PBool _), (PInt _ | PBool _) =>
      match as_int k, as_int v with
      | Ok a, Ok b => a =? b
      | _, _ => false
      end
  | _, _ => false
  end.

(** [v == 'text'] *)
Definition eq_str (v : pyval) (s : string) : bool := scalar_eq (PStr s) v.

Fixpoint dict_lookup (d : list (string * pyval)) (k : string) : option pyval :=
  match d with
  | [] => None
  | (k', v) :: rest => if String.eqb k k' then Some v else dict_lookup rest k
  end.

(** [d.get(key)] on a [dict] loaded from JSON (its keys are [str]):
    an unhashable key raises, any other key that is absent gives [None]. *)
Definition dict_get (d : list (string * pyval)) (key : pyval) : outcome pyval :=
  match key with
  | PStr k => Ok (default PNone (dict_lookup d k))
  | PList _ | PDict _ => Raise TypeError
  | _ => Ok PNone
  end.

(** [v.get(k, dflt)] with a [str] key: only a [dict] has the method. *)
Definition py_get (v : pyval) (k : string) (dflt : pyval) : outcome pyval :=
  match v with
  | PDict d => Ok (default dflt (dict_lookup d k))
  | _ => Raise AttributeError
  end.

(** [v[k]] with a [str] key *)
Definition getitem (v : pyval) (k : string) : outcome pyval :=
  match v with
  | PDict d =>
      match dict_lookup d k with
      | Some x => Ok x
      | None => Raise KeyError
      end
  | _ => Raise TypeError
  end.

Definition chars_of (s : string) : list pyval :=
  map (fun c => PStr (String c EmptyString)) (list_ascii_of_string s).

(** The items [for x in v] visits *)
Definition py_iter (v : pyval) : outcome (list pyval) :=
  match v with
  | PList l => Ok l
  | PStr s => Ok (chars_of s)
  | PDict d => Ok (map (fun kv => PStr (fst kv)) d)
  | _ => Raise TypeError
  end.

(** [len(v)] *)
Definition py_len (v : pyval) : outcome Z :=
  match v with
  | PList l => Ok (Z.of_nat (List.length l))
  | PStr s => Ok (Z.of_nat (String.length s))
  | PDict d => Ok (Z.of_nat (List.length d))
  | _ => Raise TypeError
  end.

(** [v[i]] with an [int] index (negative indices count from the end) *)
Definition getitem_int (v : pyval) (i : Z) : outcome pyval :=
  let pick (items : list pyval) :=
    let n := Z.of_nat (List.length items) in
    let j := if i <? 0 then i + n else i in
    if (0 <=? j) && (j <? n) then
      match nth_error items (Z.to_nat j) with
      | Some x => Ok x
      | None => Raise IndexError
      end
    else Raise IndexError in
  match v with
  | PList l => pick l
  | PStr s => pick (chars_of s)
  | PDict _ => Raise KeyError
  | _ => Raise TypeError
  end.

(** [sep.join(items)]: every item must be a [str] *)
Fixpoint strs_of (items : list pyval) : outcome (list string) :=
  match items with
  | [] => Ok []
  | PStr s :: rest =>
      match strs_of rest with
      | Ok ss => Ok (s :: ss)
      | Raise e => Raise e
      end
  | _ :: _ => Raise TypeError
  end.

Definition py_join (sep : string) (items : list pyval) : outcome string :=
  match strs_of items with
  | Ok ss => Ok (join sep ss)
  | Raise e => Raise e
  end.

(** ** Methods of [str] *)

(** [s.startswith(p)] *)
Fixpoint startswith (p s : string) : bool :=
  match p, s with
  | EmptyString, _ => true
  | String a p', String b s' => Ascii.eqb a b && startswith p' s'
  | String _ _, EmptyString => false
  end.

(** Scan of [str.replace] for a non-empty [old]: [skip] characters of a
    match just replaced remain to be passed over. *)
Fixpoint replace_from (old new : string) (skip : nat) (s : string) : string :=
  match s with
  | EmptyString => ""
  | String c rest =>
      match skip with
      | S k => replace_from old new k rest
      | O =>
          if startswith old s
          then new +:+ replace_from old new (Nat.pred (String.length old)) rest
          else String c (replace_from old new 0 rest)
      end
  end.

(** [s.replace("", new)] puts [new] before every character and at the
    end. *)
Fixpoint intersperse_str (new s : string) : string :=
  match s with
  | EmptyString => new
  | String c rest => new +:+ String c (intersperse_str new rest)
  end.

(** [s.replace(old, new)] *)
Definition str_replace (old new s : string) : string :=
  match old with
  | EmptyString => intersperse_str new s
  | _ => replace_from old new 0 s
  end.

(** [s.lower()] on ASCII letters *)
Definition lower_char (c : ascii) : ascii :=
  let n := N_of_ascii c in
  if ((65 <=? n) && (n <=? 90))%N then ascii_of_N (n + 32) else c.

Fixpoint str_lower (s : string) : string :=
  match s with
  | EmptyString => ""
  | String c rest => String (lower_char c) (str_lower rest)
  end.

(** [s.split(sep)] for a one-character separator *)
Fixpoint split_char (sep : ascii) (s : string) : list string :=
  match s with
  | EmptyString => [""]
  | String c rest =>
      if Ascii.eqb c sep then "" :: split_char sep rest
      else
        match split_char sep rest with
        | [] => [String c ""]
        | first :: others => String c first :: others
        end
  end.

Definition is_space (c : ascii) : bool :=
  let n := N_of_ascii c in
  (((9 <=? n) && (n <=? 13)) || ((28 <=? n) && (n <=? 32)))%N.

Fixpoint lstrip (s : string) : string :=
  match s with
  | EmptyString => ""
  | String c rest => if is_space c then lstrip rest else s
  end.

Fixpoint rstrip (s : string) : string :=
  match s with
  | EmptyString => ""
  | String c rest =>
      match rstrip rest with
      | EmptyString => if is_space c then "" else String c ""
      | r => String c r
      end
  end.

(** [s.strip()] *)
Definition strip (s : string) : string := rstrip (lstrip s).

(** [sub in s] for two [str] *)
Fixpoint str_contains (sub s : string) : bool :=
  startswith sub s
  || match s with
     | EmptyString => false
     | String _ rest => str_contains sub rest
     end.

(** [s * n] *)
Fixpoint str_repeat (n : nat) (s : string) : string :=
  match n with
  | O => ""
  | S n' => s +:+ str_repeat n' s
  end.

(** [k in v] for a [str] *)
Definition py_in (k : string) (v : pyval) : outcome bool :=
  match v with
  | PDict d => Ok (bool_decide (is_Some (dict_lookup d k)))
  | PList l => Ok (existsb (scalar_eq (PStr k)) l)
  | PStr s => Ok (str_contains k s)
  | _ => Raise TypeError
  end.

(** [a + b] *)
Definition py_add (a b : pyval) : outcome pyval :=
  match a, b with
  | PList x, PList y => Ok (PList (x ++ y))
  | PStr x, PStr y => Ok (PStr (x +:+ y))
  | (PInt _ | PBool _), (PInt _ | PBool _) =>
      match as_int a, as_int b with
      | Ok x, Ok y => Ok (PInt (x + y))
      | _, _ => Raise TypeError
      end
  | _, _ => Raise TypeError
  end.

(** [v * n] for an [int] literal [n] *)
Definition py_mul (v : pyval) (n : Z) : outcome pyval :=
  match v with
  | PStr s => Ok (PStr (str_repeat (Z.to_nat n) s))
  | PList l => Ok (PList (List.concat (repeat l (Z.to_nat n))))
  | PInt _ | PBool _ =>
      match as_int v with
      | Ok z => Ok (PInt (z * n))
      | Raise e => Raise e
      end
  | _ => Raise TypeError
  end.

(** ** Persona *)

Record Persona := mkPersona {
  persona_id : string;
  first_name : string;
  last_name : string;
  email_personal : string;
  country : string;
  city : string;
  os : string;
  device_type : string;
  income_level : string;
  primary_browser : string;
  secondary_browser : string;
  password_habits : string;
  persona_archetype : string
}.

(** [getattr(persona, name)] on the fields of the dataclass *)
Definition getattr (p : Persona) (name : pyval) : outcome pyval :=
  match name with
  | PStr n =>
      match
        dict_lookup
          [("persona_id", PStr (persona_id p));
           ("first_name", PStr (first_name p));
           ("last_name", PStr (last_name p));
           ("email_personal", PStr (email_personal p));
           ("country", PStr (country p));
           ("city", PStr (city p));
           ("os", PStr (os p));
           ("device_type", PStr (device_type p));
           ("income_level", PStr (income_level p));
           ("primary_browser", PStr (primary_browser p));
           ("secondary_browser", PStr (secondary_browser p));
           ("password_habits", PStr (password_habits p));
           ("persona_archetype", PStr (persona_archetype p))] n
      with
      | Some v => Ok v
      | None => Raise AttributeError
      end
  | _ => Raise TypeError
  end.

(** ** ConfigurationManager *)

Section ConfigurationManager.
Context {S : Type}.

(** [self.configs]: configuration name to the loaded JSON document *)
Variable configs : gmap string pyval.

(** [keys[:keys.index(key) + 1]] *)
Fixpoint keys_upto (key : pyval) (keys : list pyval) : list pyval :=
  match keys with
  | [] => []
  | k :: rest => if scalar_eq key k then [k] else k :: keys_upto key rest
  end.

(** The loop [for key in keys] of [get], with [value] so far. *)
Fixpoint get_loop (config_name : string) (all_keys : list pyval)
    (value : pyval) (keys : list pyval) (dflt : pyval) : St S pyval :=
  match keys with
  | [] => ret value
  | key :: rest =>
      match value with
      | PDict d =>
          let* value' := lift_outcome (dict_get d key) in
          if is_none value' then
            let* path := lift_outcome (py_join "." (keys_upto key all_keys)) in
            let* _ := logger WARNING
                        ("Key path '" +:+ config_name +:+ "." +:+ path
                         +:+ "' not found") in
            ret dflt
          else get_loop config_name all_keys value' rest dflt
      | _ =>
          let* _ := logger WARNING
                      ("Cannot access key '" +:+ py_str key
                       +:+ "' in non-dict value") in
          ret dflt
      end
  end.

(** [ConfigurationManager.get(config_name, *keys, default=dflt)] *)
Definition get (config_name : string) (keys : list pyval) (dflt : pyval)
  : St S pyval :=
  try_except
    (let value := default PNone (configs !! config_name) in
     if is_none value then
       let* _ := logger WARNING
                   ("Configuration '" +:+ config_name +:+ "' not found") in
       ret dflt
     else get_loop config_name keys value keys dflt)
    (fun e =>
       let* _ := logger ERROR
                   ("Error accessing config " +:+ config_name +:+ "."
                    +:+ join "." (map py_str keys) +:+ ": " +:+ exn_name e) in
       ret dflt).

(** [get] with the keys written as string literals *)
Definition get_s (config_name : string) (keys : list string) (dflt : pyval)
  : St S pyval :=
  get config_name (map PStr keys) dflt.

(** ** TemplateRenderer *)

(** One pass of the loop [for key, value in kwargs.items()] *)
Definition render_step (template : pyval) (kv : string * pyval)
  : St S pyval :=
  match template with
  | PStr t =>
      ret (PStr (str_replace ("{" +:+ fst kv +:+ "}") (py_str (snd kv)) t))
  | _ => raise AttributeError
  end.

(** [TemplateRenderer.render(template_name, **kwargs)] *)
Definition render (template_name : string) (kwargs : list (string * pyval))
  : St S pyval :=
  let* template := get_s "templates" [template_name] (PStr "") in
  if negb (py_truthy template) then
    let* _ := logger WARNING
                ("Template '" +:+ template_name +:+ "' not found") in
    ret (PStr "")
  else foldM render_step template kwargs.

End ConfigurationManager.


(** ** The Python runtime: [random], [datetime], [format]

    [random.random()] is the numerator of a fraction over [2^53];
    a naive [datetime] is a count of microseconds. *)

Class PyRuntime := {
  rng : Type;
  (** [random.seed(a)] for an [int] *)
  rng_seed : Z -> rng;
  (** [random.seed(x)] for the [float] of numerator [x] *)
  rng_seed_float : Z -> rng;
  (** [random.random()] *)
  rng_random : rng -> Z * rng;
  rng_random_range : forall s, 0 <= fst (rng_random s) < 2 ^ 53;
  (** [Random._randbelow(n)], behind [randint], [choice] *)
  rng_randbelow : Z -> rng -> Z * rng;
  rng_randbelow_range :
    forall n s, 0 < n -> 0 <= fst (rng_randbelow n s) < n;
  (** [floor(random() * n)], the index draw of [choices] without weights *)
  rng_randfloor : Z -> rng -> Z * rng;
  rng_randfloor_range :
    forall n s, 0 < n -> 0 <= fst (rng_randfloor n s) < n;
  (** [bisect(cum_weights, random() * total, 0, n - 1)] of weighted
      [choices] *)
  rng_bisect : list Z -> rng -> Z * rng;
  rng_bisect_range :
    forall cum s, cum <> [] ->
      0 <= fst (rng_bisect cum s) < Z.of_nat (List.length cum);
  (** the positions [random.sample(population, k)] selects among [n] *)
  rng_sample : Z -> Z -> rng -> list Z * rng;
  rng_sample_spec :
    forall n k s, 0 <= k <= n ->
      List.length (fst (rng_sample n k s)) = Z.to_nat k
      /\ NoDup (fst (rng_sample n k s))
      /\ Forall (fun i => 0 <= i < n) (fst (rng_sample n k s));
  (** [format(value, spec)] for an [int] *)
  format_int : Z -> string -> outcome string;
  (** [dt + timedelta(days=n)] *)
  dt_add_days : Z -> Z -> outcome Z;
  (** [int(dt.timestamp())] *)
  dt_timestamp : Z -> outcome Z;
  (** [dt.strftime(fmt)] *)
  dt_strftime : Z -> string -> string
}.

Section Runtime.
Context {RT : PyRuntime}.

(** What a generator reads besides its arguments: the state of the global
    [random] generator and the clock ([e_clock n] is the [n]-th reading of
    [datetime.now()]). *)
Record Ent := mkEnt {
  e_rng : rng;
  e_clock : nat -> Z;
  e_ticks : nat
}.

Definition G (A : Type) : Type := St Ent A.

Definition with_rng {A} (f : rng -> A * rng) : G A :=
  fun e =>
    let '(a, r) := f (e_rng e) in
    (Ok a, mkEnt r (e_clock e) (e_ticks e), []).

(** [random.seed(z)] *)
Definition random_seed (z : Z) : G unit :=
  fun e => (Ok tt, mkEnt (rng_seed z) (e_clock e) (e_ticks e), []).

(** [random.seed(x)] for a [float] *)
Definition random_seed_float (x : Z) : G unit :=
  fun e => (Ok tt, mkEnt (rng_seed_float x) (e_clock e) (e_ticks e), []).

(** [random.random()] *)
Definition random_random : G Z := with_rng rng_random.

(** [datetime.now()] *)
Definition datetime_now : G Z :=
  fun e =>
    (Ok (e_clock e (e_ticks e)), mkEnt (e_rng e) (e_clock e) (S (e_ticks e)),
     []).

(** [random.randint(a, b)] *)
Definition randint (a b : pyval) : G Z :=
  let* lo := lift_outcome (as_int a) in
  let* hi := lift_outcome (as_int b) in
  if hi <? lo then raise ValueError
  else
    let* r := with_rng (rng_randbelow (hi - lo + 1)) in
    ret (lo + r).

(** [random.choice(seq)] *)
Definition choice (seq : pyval) : G pyval :=
  let* n := lift_outcome (py_len seq) in
  if n =? 0 then raise IndexError
  else
    let* i := with_rng (rng_randbelow n) in
    lift_outcome (getitem_int seq i).

(** [range(k)] as a repetition count: [k] must be an [int] *)
Definition count_of (k : pyval) : outcome nat :=
  match as_int k with
  | Ok z => Ok (Z.to_nat z)
  | Raise e => Raise e
  end.

(** [random.choices(population, k=k)] *)
Definition choices (population k : pyval) : G (list pyval) :=
  let* n := lift_outcome (py_len population) in
  let* times := lift_outcome (count_of k) in
  repeatM times
    (let* i := with_rng (rng_randfloor n) in
     lift_outcome (getitem_int population i)).

Fixpoint ints_of (items : list pyval) : outcome (list Z) :=
  match items with
  | [] => Ok []
  | x :: rest =>
      match as_int x, ints_of rest with
      | Ok z, Ok zs => Ok (z :: zs)
      | Raise e, _ => Raise e
      | _, Raise e => Raise e
      end
  end.

(** [itertools.accumulate] *)
Fixpoint accumulate (acc : Z) (ws : list Z) : list Z :=
  match ws with
  | [] => []
  | w :: rest => (acc + w) :: accumulate (acc + w) rest
  end.

(** [random.choices(population, weights=weights)[0]]; the weights are
    numbers (a list with another kind of item raises [TypeError]). *)
Definition choices_weighted1 (population weights : pyval) : G pyval :=
  let* n := lift_outcome (py_len population) in
  let* items := lift_outcome (py_iter weights) in
  let* ws := lift_outcome (ints_of items) in
  let cum_weights := accumulate 0 ws in
  if negb (Z.of_nat (List.length cum_weights) =? n) then raise ValueError
  else
    match last cum_weights with
    | None => raise IndexError
    | Some total =>
        if total <=? 0 then raise ValueError
        else
          let* i := with_rng (rng_bisect cum_weights) in
          lift_outcome (getitem_int population i)
    end.

(** ** Generators of the Atomic log *)

Section Generators.

(** [self.config] *)
Variable configs : gmap string pyval.

Abbreviation cfg := (get_s configs).

(** [''.join(items)] *)
Definition join_values (sep : string) (items : list pyval) : G string :=
  lift_outcome (py_join sep items).

Definition item (v : pyval) (k : string) : G pyval :=
  lift_outcome (getitem v k).

(** *** HardwareGenerator *)

(** [HardwareGenerator._generate_serial_number] *)
Definition _generate_serial_number : G string :=
  let* length := cfg "main" ["generator_settings"; "serial_number_length"]
                   (PInt 10) in
  let* chars := cfg "charsets" ["serial_number"]
                  (PStr "ABCDEFGHIJKLMNOPQRSTUVWXYZ0123456789") in
  let* picked := choices chars length in
  join_values "" picked.

(** [HardwareGenerator._generate_hardware_uuid] *)
Definition _generate_hardware_uuid : G string :=
  let* ranges := cfg "ranges" ["hardware_uuid"] PNone in
  let* range_configs := lift_outcome (py_iter ranges) in
  let* parts :=
    mapM (fun range_config =>
            let* lo := item range_config "min" in
            let* hi := item range_config "max" in
            let* value := randint lo hi in
            let* width := item range_config "format" in
            lift_outcome (format_int value ("0" +:+ py_str width +:+ "X")))
         range_configs in
  ret (join "-" parts).

(** [HardwareGenerator.generate] *)
Definition HardwareGenerator_generate (persona : Persona)
  : G (list (string * pyval)) :=
  let* _ := random_seed (get_persona_seed (persona_id persona) "hardware") in
  let* hardware_config0 :=
    cfg "hardware" [device_type persona; income_level persona] PNone in
  let* hardware_config :=
    if negb (py_truthy hardware_config0)
    then cfg "hardware" ["Personal_Laptop"; "Medium"] PNone
    else ret hardware_config0 in
  let* model_name := item hardware_config "model" in
  let* identifiers := item hardware_config "identifier" in
  let* model_id := choice identifiers in
  let* chips := item hardware_config "chip" in
  let* chip := choice chips in
  let* coress := item hardware_config "cores" in
  let* cores := choice coress in
  let* memories := item hardware_config "memory" in
  let* memory := choice memories in
  let* display_res := item hardware_config "display" in
  let* serial_num := _generate_serial_number in
  let* hardware_uuid := _generate_hardware_uuid in
  ret [("model_name", model_name); ("model_id", model_id); ("chip", chip);
       ("cores", cores); ("memory", memory); ("display_res", display_res);
       ("serial_num", PStr serial_num); ("hardware_uuid", PStr hardware_uuid)].

(** *** UserInfoGenerator *)

(** [UserInfoGenerator._generate_ip_address] *)
Definition _generate_ip_address (country : string) : G string :=
  let* ip_ranges := cfg "network" ["country_ip_ranges"] PNone in
  let* fallback := lift_outcome (py_get ip_ranges "default" PNone) in
  let* ip_prefix := lift_outcome (py_get ip_ranges country fallback) in
  let* ip_suffix := randint (PInt 1) (PInt 254) in
  ret (py_str ip_prefix +:+ "." +:+ string_of_Z ip_suffix).

(** [UserInfoGenerator._get_os_info] *)
Definition _get_os_info (os_name : string) : G pyval :=
  let* versions := cfg "network" ["macos_versions"] PNone in
  let* fallback := lift_outcome (py_get versions "default" PNone) in
  lift_outcome (py_get versions os_name fallback).

(** [UserInfoGenerator.generate] *)
Definition UserInfoGenerator_generate (persona : Persona) : G pyval :=
  let* _ := random_seed (get_persona_seed (persona_id persona) "userinfo") in
  let* hardware := HardwareGenerator_generate persona in
  let* ip_address := _generate_ip_address (country persona) in
  let* os_info := _get_os_info (os persona) in
  let* stealer_name := cfg "main" ["stealer_info"; "name"] PNone in
  let* ip_suffix := randint (PInt 100000000) (PInt 999999999) in
  let* product_name := item os_info "product" in
  let* product_version := item os_info "version" in
  let* build_version := item os_info "build" in
  let* firmware_version := cfg "constants" ["firmware_version"] PNone in
  let* os_loader_version := cfg "constants" ["os_loader_version"] PNone in
  let* provisioning_udid := cfg "constants" ["provisioning_udid"] PNone in
  let* metal_support := cfg "constants" ["metal_support"] PNone in
  render configs "user_info"
    ([("stealer_name", stealer_name); ("country", PStr (country persona));
      ("ip", PStr ip_address); ("ip_suffix", PInt ip_suffix);
      ("city", PStr (city persona)); ("product_name", product_name);
      ("product_version", product_version);
      ("build_version", build_version)]
     ++ hardware
     ++ [("firmware_version", firmware_version);
         ("os_loader_version", os_loader_version);
         ("provisioning_udid", provisioning_udid);
         ("metal_support", metal_support)]).

(** *** PasswordGenerator *)

(** [PasswordGenerator._get_sites_for_persona] *)
Definition _get_sites_for_persona (persona : Persona) : G pyval :=
  let* persona_sites :=
    cfg "websites" ["persona_websites"; persona_archetype persona]
      (PList []) in
  let* common_sites := cfg "websites" ["common_websites"] (PList []) in
  lift_outcome (py_add persona_sites common_sites).

(** [PasswordGenerator._get_passwords_for_habit] (and its copy in
    [KeychainGenerator]) *)
Definition _get_passwords_for_habit (habit : string) : G pyval :=
  cfg "passwords" [habit] (PList [PStr "DefaultPass123!"]).

(** [PasswordGenerator._generate_login] *)
Definition _generate_login (persona : Persona) : G string :=
  let* login_types :=
    cfg "main" ["login_types"]
      (PList [PStr "empty"; PStr "email"; PStr "username"]) in
  let* weights :=
    cfg "main" ["login_weights"] (PList [PInt 1; PInt 1; PInt 1]) in
  let* login_type := choices_weighted1 login_types weights in
  if eq_str login_type "empty" then ret ""
  else if eq_str login_type "email" then ret (email_personal persona)
  else
    let* n := randint (PInt 100) (PInt 999) in
    ret (str_lower (first_name persona) +:+ string_of_Z n).

(** [PasswordGenerator._select_password] *)
Definition _select_password (habit : string) (available_passwords : pyval)
  : G pyval :=
  if String.eqb habit "Reuses_Passwords"
  then lift_outcome (getitem_int available_passwords 0)
  else choice available_passwords.

(** One pass of the loop of [PasswordGenerator.generate]: the triple
    [(site, login, password)] of the entry. *)
Definition password_record (persona : Persona)
    (all_sites available_passwords : pyval) : G (pyval * string * pyval) :=
  let* site := choice all_sites in
  let* login := _generate_login persona in
  let* password :=
    _select_password (password_habits persona) available_passwords in
  ret (site, login, password).

Definition password_entry (r : pyval * string * pyval) : string :=
  let '(site, login, password) := r in
  "URL: " +:+ py_str site +:+ newline +:+ "LOGIN: " +:+ login +:+ newline
  +:+ "PASSWORD: " +:+ py_str password.

(** The records of [PasswordGenerator.generate], before they are joined *)
Definition password_records (persona : Persona)
  : G (list (pyval * string * pyval)) :=
  let* _ := random_seed (get_persona_seed (persona_id persona) "passwords") in
  let* all_sites := _get_sites_for_persona persona in
  let* available_passwords :=
    _get_passwords_for_habit (password_habits persona) in
  let* min_passwords :=
    cfg "main" ["generator_settings"; "min_passwords"] PNone in
  let* max_passwords :=
    cfg "main" ["generator_settings"; "max_passwords"] PNone in
  let* num_passwords := randint min_passwords max_passwords in
  repeatM (Z.to_nat num_passwords)
    (password_record persona all_sites available_passwords).

(** [PasswordGenerator.generate] *)
Definition PasswordGenerator_generate (persona : Persona) : G string :=
  let* records := password_records persona in
  ret (join newline (map password_entry records)).

(** [PasswordGenerator.generate_brute] *)
Definition generate_brute (passwords_content : string) : string :=
  join newline
    (List.filter (fun password => negb (String.eqb password ""))
       (map (fun line => strip (str_replace "PASSWORD: " "" line))
          (List.filter (startswith "PASSWORD: ")
             (split_char (ascii_of_N 10) passwords_content)))).


(** *** CookieGenerator *)

(** [d[k] = v] on an insertion-ordered [dict] *)
Fixpoint dict_set {A} (d : list (string * A)) (k : string) (v : A)
  : list (string * A) :=
  match d with
  | [] => [(k, v)]
  | (k', v') :: rest =>
      if String.eqb k k' then (k, v) :: rest else (k', v') :: dict_set rest k v
  end.

(** [CookieGenerator._get_browsers_for_persona] *)
Definition _get_browsers_for_persona (persona : Persona) : G (list pyval) :=
  let* browser_profiles := cfg "browsers" ["profiles"] PNone in
  let* has_primary :=
    lift_outcome (py_in (primary_browser persona) browser_profiles) in
  let* browsers1 :=
    if has_primary : bool then
      let* profile := item browser_profiles (primary_browser persona) in
      let* b := item profile "primary" in
      ret [b]
    else ret [] in
  let* has_secondary :=
    lift_outcome (py_in (secondary_browser persona) browser_profiles) in
  if has_secondary : bool then
    let* profile := item browser_profiles (secondary_browser persona) in
    let* b := item profile "secondary" in
    ret (browsers1 ++ [b])
  else ret browsers1.

(** [CookieGenerator._generate_expiration] *)
Definition _generate_expiration : G Z :=
  let* min_days := cfg "main" ["cookie_expiration"; "min_days"] (PInt 30) in
  let* max_days := cfg "main" ["cookie_expiration"; "max_days"] (PInt 365) in
  let* days_ahead := randint min_days max_days in
  let* now := datetime_now in
  let* expiration_date := lift_outcome (dt_add_days now days_ahead) in
  lift_outcome (dt_timestamp expiration_date).

(** [CookieGenerator._generate_cookie_value] *)
Definition _generate_cookie_value : G string :=
  let* length :=
    cfg "main" ["generator_settings"; "cookie_value_length"] (PInt 120) in
  let* chars :=
    cfg "charsets" ["cookie_value"]
      (PStr "ABCDEFGHIJKLMNOPQRSTUVWXYZabcdefghijklmnopqrstuvwxyz0123456789-_")
  in
  let* picked := choices chars length in
  join_values "" picked.

Definition tab : string := String (ascii_of_N 9) "".

(** One pass of the loop of [_generate_cookies_for_browser] *)
Definition cookie_line (domains names : pyval) : G string :=
  let* domain := choice domains in
  let* expiration := _generate_expiration in
  let* cookie_name := choice names in
  let* cookie_value := _generate_cookie_value in
  ret (py_str domain +:+ tab +:+ "TRUE" +:+ tab +:+ "/" +:+ tab +:+ "TRUE"
       +:+ tab +:+ string_of_Z expiration +:+ tab +:+ py_str cookie_name
       +:+ tab +:+ cookie_value).

(** [CookieGenerator._generate_cookies_for_browser] *)
Definition _generate_cookies_for_browser : G (list string) :=
  let* min_cookies :=
    cfg "main" ["generator_settings"; "min_cookies"] (PInt 5) in
  let* max_cookies :=
    cfg "main" ["generator_settings"; "max_cookies"] (PInt 12) in
  let* num_cookies := randint min_cookies max_cookies in
  let* domains := cfg "websites" ["cookie_domains"]
                    (PList [PStr ".example.com"]) in
  let* names := cfg "websites" ["cookie_names"] (PList [PStr "SESSION_ID"]) in
  repeatM (Z.to_nat num_cookies) (cookie_line domains names).

(** [CookieGenerator.generate]: file name to content *)
Definition CookieGenerator_generate (persona : Persona)
  : G (list (string * string)) :=
  let* _ := random_seed (get_persona_seed (persona_id persona) "cookies") in
  let* browsers := _get_browsers_for_persona persona in
  foldM (fun cookie_files browser =>
           let* cookies := _generate_cookies_for_browser in
           ret (dict_set cookie_files (py_str browser +:+ ".txt")
                  (join newline cookies)))
        [] browsers.

(** *** AutofillGenerator *)

(** [AutofillGenerator._generate_phone_number] *)
Definition _generate_phone_number : G string :=
  let* ranges := cfg "ranges" ["phone_number"] PNone in
  let range_of name :=
    let* r1 := item ranges name in
    let* lo := item r1 "min" in
    let* r2 := item ranges name in
    let* hi := item r2 "max" in
    randint lo hi in
  let* area_code := range_of "area_code" in
  let* prefix := range_of "prefix" in
  let* suffix := range_of "suffix" in
  ret ("(" +:+ string_of_Z area_code +:+ ") " +:+ string_of_Z prefix +:+ "-"
       +:+ string_of_Z suffix).

(** [AutofillGenerator._generate_address] *)
Definition _generate_address : G string :=
  let* street_names :=
    cfg "network" ["autofill_street_names"]
      (PList [PStr "Oak St"; PStr "Main Ave"; PStr "Park Blvd";
              PStr "First St"; PStr "Maple Dr"]) in
  let* num_range :=
    cfg "ranges" ["street_number"]
      (PDict [("min", PInt 100); ("max", PInt 9999)]) in
  let* lo := lift_outcome (py_get num_range "min" (PInt 100)) in
  let* hi := lift_outcome (py_get num_range "max" (PInt 9999)) in
  let* street_num := randint lo hi in
  let* street_name := choice street_names in
  ret (string_of_Z street_num +:+ " " +:+ py_str street_name).

(** [AutofillGenerator._get_field_value] *)
Definition _get_field_value (field : pyval) (persona : Persona) : G pyval :=
  let* field_type := item field "type" in
  if eq_str field_type "persona_field" then
    let* source := item field "source" in
    lift_outcome (getattr persona source)
  else if eq_str field_type "generated" then
    let* g1 := item field "generator" in
    if eq_str g1 "phone" then
      let* phone := _generate_phone_number in ret (PStr phone)
    else
      let* g2 := item field "generator" in
      if eq_str g2 "address" then
        let* address := _generate_address in ret (PStr address)
      else ret (PStr "")
  else ret (PStr "").

(** [AutofillGenerator.generate] *)
Definition AutofillGenerator_generate (persona : Persona) : G string :=
  let* _ := random_seed (get_persona_seed (persona_id persona) "autofills") in
  let* separator_char :=
    cfg "main" ["generator_settings"; "password_separator"] (PStr "=") in
  let* separator := lift_outcome (py_mul separator_char 50) in
  let* fields := cfg "autofill" ["fields"] PNone in
  let* field_list := lift_outcome (py_iter fields) in
  let* autofills :=
    mapM (fun field =>
            let* value := _get_field_value field persona in
            let* name := item field "name" in
            render configs "autofill_entry"
              [("name", name); ("value", value); ("separator", separator)])
         field_list in
  join_values newline autofills.

(** *** KeychainGenerator *)

(** [random.sample(population, k)] *)
Definition sample (population : pyval) (k : Z) : G (list pyval) :=
  match population with
  | PList _ | PStr _ =>
      let* n := lift_outcome (py_len population) in
      if (k <? 0) || (n <? k) then raise ValueError
      else
        let* picked := with_rng (rng_sample n k) in
        mapM (fun i => lift_outcome (getitem_int population i)) picked
  | _ => raise TypeError
  end.

(** [KeychainGenerator._generate_password_for_type] *)
Definition _generate_password_for_type (password_type : pyval)
    (persona : Persona) : G pyval :=
  let* password_configs := cfg "keychain" ["password_types"] PNone in
  let* config :=
    match password_configs with
    | PDict d => lift_outcome (dict_get d password_type)
    | _ => raise AttributeError
    end in
  let* source := item config "source" in
  if eq_str source "charset" then
    let* charset := item config "charset" in
    let* chars := get configs "charsets" [charset] PNone in
    let* lo := item config "min_length" in
    let* hi := item config "max_length" in
    let* length := randint lo hi in
    let* picked := choices chars (PInt length) in
    let* text := join_values "" picked in
    ret (PStr text)
  else
    let* source2 := item config "source" in
    if eq_str source2 "persona" then
      let* passwords := _get_passwords_for_habit (password_habits persona) in
      choice passwords
    else ret (PStr "DefaultPassword").

(** [KeychainGenerator._generate_keychain_entry]; the second component is
    the password put into the entry. *)
Definition _generate_keychain_entry (persona : Persona) (service : pyval)
  : G (pyval * pyval) :=
  let* account0 := item service "account" in
  let account :=
    if eq_str account0 "{email_prefix}"
    then PStr (hd "" (split_char "@" (email_personal persona)))
    else account0 in
  let* date_ranges := cfg "ranges" ["keychain_dates"] PNone in
  let* c1 := item date_ranges "create" in
  let* create_min := item c1 "min" in
  let* c2 := item date_ranges "create" in
  let* create_max := item c2 "max" in
  let* create_days_ago := randint create_min create_max in
  let* m1 := item date_ranges "modify" in
  let* modify_min := item m1 "min" in
  let* m2 := item date_ranges "modify" in
  let* modify_max := item m2 "max" in
  let* modify_days_after := randint modify_min modify_max in
  let* now := datetime_now in
  let* create_date := lift_outcome (dt_add_days now (- create_days_ago)) in
  let* modified_date :=
    lift_outcome (dt_add_days create_date modify_days_after) in
  let* password_type := item service "password_type" in
  let* password := _generate_password_for_type password_type persona in
  let* print_name := item service "print_name" in
  let* service_name := item service "service" in
  let* entry :=
    render configs "keychain_entry"
      [("create_date", PStr (dt_strftime create_date "%Y-%m-%d %H:%M:%S"));
       ("modified_date",
        PStr (dt_strftime modified_date "%Y-%m-%d %H:%M:%S"));
       ("print_name", print_name); ("account", account);
       ("service", service_name); ("password", password)] in
  ret (entry, password).

(** [KeychainGenerator.generate], returning with the content the password
    values it put there: the macOS password, then one per entry. *)
Definition keychain_trace (persona : Persona) : G (string * list pyval) :=
  let* _ := random_seed (get_persona_seed (persona_id persona) "keychain") in
  let* passwords := _get_passwords_for_habit (password_habits persona) in
  let* macos_password := choice passwords in
  let keychain_content :=
    "MacOS Password:" +:+ py_str macos_password +:+ newline +:+ newline in
  let* min_entries :=
    cfg "main" ["generator_settings"; "min_keychain_entries"] PNone in
  let* max_entries :=
    cfg "main" ["generator_settings"; "max_keychain_entries"] PNone in
  let* num_entries := randint min_entries max_entries in
  let* services := cfg "keychain" ["services"] PNone in
  let* n := lift_outcome (py_len services) in
  let* selected_services := sample services (Z.min num_entries n) in
  foldM (fun acc service =>
           let* ep := _generate_keychain_entry persona service in
           match fst ep with
           | PStr entry => ret (fst acc +:+ entry, snd acc ++ [snd ep])
           | _ => raise TypeError
           end)
        (keychain_content, [macos_password]) selected_services.

(** [KeychainGenerator.generate] *)
Definition KeychainGenerator_generate (persona : Persona) : G string :=
  let* r := keychain_trace persona in
  ret (fst r).

(** *** GoogleTokenGenerator *)

(** The list [tokens] of [GoogleTokenGenerator.generate] *)
Definition google_tokens (persona : Persona) : G (list string) :=
  let* _ := random_seed (get_persona_seed (persona_id persona) "tokens") in
  let* min_tokens :=
    cfg "main" ["generator_settings"; "min_google_tokens"] PNone in
  let* max_tokens :=
    cfg "main" ["generator_settings"; "max_google_tokens"] PNone in
  let* num_tokens := randint min_tokens max_tokens in
  let* token_config := cfg "tokens" ["google"] PNone in
  repeatM (Z.to_nat num_tokens)
    (let* prefix := item token_config "prefix" in
     let* middle_range := item token_config "middle_range" in
     let* lo := item middle_range "min" in
     let* hi := item middle_range "max" in
     let* middle := randint lo hi in
     let* connector := item token_config "connector" in
     let* suffix_length :=
       cfg "main" ["generator_settings"; "token_suffix_length"] PNone in
     let* suffix_chars := cfg "charsets" ["token_suffix"] PNone in
     let* picked := choices suffix_chars suffix_length in
     let* suffix := join_values "" picked in
     ret (py_str prefix +:+ string_of_Z middle +:+ py_str connector
          +:+ suffix)).

(** [GoogleTokenGenerator.generate] *)
Definition GoogleTokenGenerator_generate (persona : Persona) : G string :=
  let* tokens := google_tokens persona in
  ret (join newline tokens).


End Generators.

(** ** The file system and the log writer *)

(** A path denotes the file or directory of that exact spelling (no
    normalisation of [.], [..] or doubled separators). *)
Record FS := mkFS {
  fs_files : gmap string string;
  fs_dirs : gset string
}.

Record World := mkWorld {
  w_ent : Ent;
  w_fs : FS
}.

Definition M (A : Type) : Type := St World A.

(** A generator run inside the log writer *)
Definition liftG {A} (g : G A) : M A :=
  fun w =>
    let '(r, e, l) := g (w_ent w) in
    (r, mkWorld e (w_fs w), l).

Fixpoint ends_with_slash (s : string) : bool :=
  match s with
  | EmptyString => false
  | String c EmptyString => Ascii.eqb c "/"
  | String _ rest => ends_with_slash rest
  end.

(** [os.path.join(a, b)] *)
Definition path_join (a b : string) : string :=
  if startswith "/" b then b
  else if String.eqb a "" || ends_with_slash a then a +:+ b
  else a +:+ "/" +:+ b.

(** The non-empty prefixes of [p] that end before a separator, shortest
    first, with [seen] the text already passed. *)
Fixpoint ancestors_from (seen p : string) : list string :=
  match p with
  | EmptyString => []
  | String c rest =>
      let here := if Ascii.eqb c "/" && negb (String.eqb seen "")
                  then [seen] else [] in
      here ++ ancestors_from (seen +:+ String c "") rest
  end.

(** [os.path.dirname(p)] *)
Definition dirname (p : string) : string :=
  match last (ancestors_from "" p) with
  | Some d => d
  | None => if startswith "/" p then "/" else ""
  end.

(** [os.makedirs(name, exist_ok=True)] *)
Definition makedirs (name : string) : M unit :=
  if String.eqb name "" then raise OSError
  else
    foldM (fun _ q =>
             let* w := get_state in
             if bool_decide (is_Some (fs_files (w_fs w) !! q))
             then raise OSError
             else
               put_state
                 (mkWorld (w_ent w)
                    (mkFS (fs_files (w_fs w)) ({[q]} ∪ fs_dirs (w_fs w)))))
          tt
          (ancestors_from "" name
           ++ (if ends_with_slash name then [] else [name])).

(** [open(filepath, 'w')]: the file is created or emptied *)
Definition open_w (filepath : string) : M unit :=
  let* w := get_state in
  let parent := dirname filepath in
  if String.eqb filepath "" || ends_with_slash filepath
     || bool_decide (filepath ∈ fs_dirs (w_fs w))
     || (negb (String.eqb parent "") && negb (String.eqb parent "/")
         && negb (bool_decide (parent ∈ fs_dirs (w_fs w))))
  then raise OSError
  else
    put_state
      (mkWorld (w_ent w)
         (mkFS (<[filepath := ""]> (fs_files (w_fs w))) (fs_dirs (w_fs w)))).

(** [f.write(content)] on the file just opened *)
Definition file_write (filepath : string) (content : pyval) : M unit :=
  match content with
  | PStr text =>
      let* w := get_state in
      put_state
        (mkWorld (w_ent w)
           (mkFS (<[filepath := text]> (fs_files (w_fs w)))
              (fs_dirs (w_fs w))))
  | _ => raise TypeError
  end.

(** [AtomicLogGenerator._write_file] *)
Definition _write_file (directory : string) (filename content : pyval)
  : M unit :=
  match filename with
  | PStr name =>
      let filepath := path_join directory name in
      let* _ := open_w filepath in
      file_write filepath content
  | _ => raise TypeError
  end.

(** ** AtomicLogGenerator *)

Section AtomicLogGenerator.

Variable configs : gmap string pyval.

Definition atomic_log_dir (persona : Persona) : string :=
  "Atomic_" +:+ persona_id persona +:+ "_" +:+ first_name persona +:+ "_"
  +:+ last_name persona.

(** [AtomicLogGenerator.generate_atomic_log] *)
Definition generate_atomic_log (persona : Persona) : M string :=
  let* _ := logger INFO
              ("Generating log for " +:+ persona_id persona +:+ " - "
               +:+ first_name persona +:+ " " +:+ last_name persona) in
  let log_dir := atomic_log_dir persona in
  let* _ := makedirs log_dir in
  let* file_structure := get_s configs "main" ["file_structure"] PNone in
  let name_of key := lift_outcome (getitem file_structure key) in
  try_except
    (let* user_info_filename := name_of "user_info_filename" in
     let* user_info := liftG (UserInfoGenerator_generate configs persona) in
     let* _ := _write_file log_dir user_info_filename user_info in
     let* passwords_content :=
       liftG (PasswordGenerator_generate configs persona) in
     let* passwords_filename := name_of "passwords_filename" in
     let* _ := _write_file log_dir passwords_filename
                 (PStr passwords_content) in
     let brute_content := generate_brute passwords_content in
     let* brute_filename := name_of "brute_filename" in
     let* _ := _write_file log_dir brute_filename (PStr brute_content) in
     let* autofills_filename := name_of "autofills_filename" in
     let* autofills := liftG (AutofillGenerator_generate configs persona) in
     let* _ := _write_file log_dir autofills_filename (PStr autofills) in
     let* google_tokens_filename := name_of "google_tokens_filename" in
     let* tokens := liftG (GoogleTokenGenerator_generate configs persona) in
     let* _ := _write_file log_dir google_tokens_filename (PStr tokens) in
     let* keychain_filename := name_of "keychain_filename" in
     let* keychain := liftG (KeychainGenerator_generate configs persona) in
     let* _ := _write_file log_dir keychain_filename (PStr keychain) in
     let* cookie_files := liftG (CookieGenerator_generate configs persona) in
     let* cookies_dir_name := name_of "cookies_dir" in
     let* cookies_dir :=
       match cookies_dir_name with
       | PStr d => ret (path_join log_dir d)
       | _ => raise TypeError
       end in
     let* _ := makedirs cookies_dir in
     let* _ :=
       foldM (fun _ kv =>
                _write_file cookies_dir (PStr (fst kv)) (PStr (snd kv)))
             tt cookie_files in
     let* _ := logger INFO ("✓ Generated log in " +:+ log_dir +:+ "/") in
     ret log_dir)
    (fun e =>
       let* _ := logger ERROR
                   ("Error generating log for " +:+ persona_id persona
                    +:+ ": " +:+ exn_name e) in
       raise e).

(** One pass of the loop of [generate_all_atomic_logs] *)
Definition generate_one (generated_logs : list string) (persona : Persona)
  : M (list string) :=
  try_except
    (let* log_dir := generate_atomic_log persona in
     ret (generated_logs ++ [log_dir]))
    (fun e =>
       let* _ := logger ERROR
                   ("Failed to generate log for " +:+ persona_id persona
                    +:+ ": " +:+ exn_name e) in
       ret generated_logs).

(** [AtomicLogGenerator.generate_all_atomic_logs], with [self.personas] *)
Definition generate_all_atomic_logs (personas : list Persona)
  : M (list string) :=
  let* _ := logger INFO "Starting Atomic stealer log generation..." in
  let* _ := logger INFO
              ("Processing "
               +:+ string_of_Z (Z.of_nat (List.length personas))
               +:+ " personas infected by Atomic") in
  let* _ := logger INFO (str_repeat 50 "-") in
  let* generated_logs := foldM generate_one [] personas in
  let* _ := logger INFO (str_repeat 50 "-") in
  let* _ := logger INFO
              ("Successfully generated "
               +:+ string_of_Z (Z.of_nat (List.length generated_logs))
               +:+ " Atomic stealer logs") in
  ret generated_logs.

End AtomicLogGenerator.

End Runtime.

(** ** The Lumma generator *)

Module Lumma.

Section Lumma.

Context {RT : PyRuntime}.

Variable configs : gmap string pyval.

(** The loop of Lumma's [ConfigurationManager.get]: a missing key returns
    the default without a warning. *)
Fixpoint get_loop {S} (value : pyval) (keys : list pyval) (dflt : pyval)
  : St S pyval :=
  match keys with
  | [] => ret value
  | key :: rest =>
      match value with
      | PDict d =>
          let* value' := lift_outcome (dict_get d key) in
          if is_none value' then ret dflt else get_loop value' rest dflt
      | _ =>
          let* _ := logger WARNING
                      ("Cannot access key '" +:+ py_str key
                       +:+ "' in non-dict value") in
          ret dflt
      end
  end.

(** Lumma's [ConfigurationManager.get] *)
Definition get {S} (config_name : string) (keys : list pyval) (dflt : pyval)
  : St S pyval :=
  try_except
    (let value := default PNone (configs !! config_name) in
     if is_none value then
       let* _ := logger WARNING
                   ("Configuration '" +:+ config_name +:+ "' not found") in
       ret dflt
     else get_loop value keys dflt)
    (fun e =>
       let* _ := logger ERROR
                   ("Error accessing config " +:+ config_name +:+ "."
                    +:+ join "." (map py_str keys) +:+ ": " +:+ exn_name e) in
       ret dflt).

Definition get_s {S} (config_name : string) (keys : list string)
    (dflt : pyval) : St S pyval :=
  get config_name (map PStr keys) dflt.

(** [v[1:-1]] *)
Definition slice_inner (v : pyval) : outcome pyval :=
  let inner {A} (l : list A) := removelast (tl l) in
  match v with
  | PList l => Ok (PList (inner l))
  | PStr s =>
      Ok (PStr (string_of_list_ascii (inner (list_ascii_of_string s))))
  | _ => Raise TypeError
  end.

(** [lines.extend(v)] *)
Definition extend (lines : list pyval) (v : pyval) : G (list pyval) :=
  let* items := lift_outcome (py_iter v) in
  ret (lines ++ items).

(** [random.random() > 0.5] *)
Definition random_above_half : G bool :=
  let* x := random_random in
  ret (2 ^ 52 <? x).

(** [HardwareGenerator.generate_hwid] *)
Definition generate_hwid : G string :=
  let* chars := get_s "charsets" ["hwid"]
                  (PStr "ABCDEFGHIJKLMNOPQRSTUVWXYZ0123456789") in
  let* length := get_s "main" ["generator_settings"; "hwid_length"]
                   (PInt 16) in
  let* picked := choices chars length in
  lift_outcome (py_join "" picked).

(** The root directory [generate_lumma_log] creates:
    [os.path.join(self.output_base_dir, f"Lumma_{persona.persona_id}_{hwid}")] *)
Definition lumma_log_dir (persona : Persona) : G string :=
  let* output_base_dir := get_s "main" ["output_directory"]
                            (PStr "lumma_logs") in
  let* hwid := generate_hwid in
  match output_base_dir with
  | PStr base =>
      ret (path_join base ("Lumma_" +:+ persona_id persona +:+ "_" +:+ hwid))
  | _ => raise TypeError
  end.

(** [SystemFilesGenerator.generate_debug_txt] *)
Definition generate_debug_txt : G string :=
  let* x := random_random in
  let* _ := random_seed_float x in
  let* codes := get_s "main" ["debug_codes"]
                  (PList [PStr "reg"; PStr "fin"]) in
  let* optional_codes := get_s "main" ["debug_optional_codes"] (PList []) in
  let* first := lift_outcome (getitem_int codes 0) in
  let lines := [first] in
  let* lines :=
    if py_truthy optional_codes then
      let* above := random_above_half in
      if above : bool then extend lines optional_codes else ret lines
    else ret lines in
  let* inner := lift_outcome (slice_inner codes) in
  let* lines := extend lines inner in
  let* res := randint (PInt 1000) (PInt 5000) in
  let* dat := randint (PInt 10000) (PInt 4000000) in
  let lines := lines ++ [PStr ("res - " +:+ string_of_Z res);
                         PStr ("dat - " +:+ string_of_Z dat)] in
  let* last1 := lift_outcome (getitem_int codes (-1)) in
  let lines := lines ++ [last1] in
  let* again := random_above_half in
  let* lines :=
    if again : bool then
      let lines' := lines ++ removelast (tl lines) in
      let* last2 := lift_outcome (getitem_int codes (-1)) in
      ret (lines' ++ [last2])
    else ret lines in
  lift_outcome (py_join newline lines).


(** [HardwareGenerator.generate_machine_id] *)
Definition generate_machine_id : G string :=
  let* parts :=
    mapM (fun i : Z =>
            let length := if i =? 0 then 8 else if i <? 4 then 4 else 12 in
            let* picked := choices (PStr "0123456789abcdef") (PInt length) in
            lift_outcome (py_join "" picked))
         [0; 1; 2; 3; 4] in
  ret (join "-" parts).

(** [BrowserDataGenerator._generate_uuid] *)
Definition _generate_uuid : G string :=
  let* parts :=
    mapM (fun length : Z =>
            let* picked := choices (PStr "0123456789abcdef") (PInt length) in
            lift_outcome (py_join "" picked))
         [8; 4; 4; 12] in
  ret (join "-" parts).

End Lumma.

End Lumma.

(** ** Observations of a run *)

Definition result {S A} (m : St S A) (s : S) : outcome A := fst (fst (m s)).

Definition final {S A} (m : St S A) (s : S) : S := snd (fst (m s)).

Definition logs {S A} (m : St S A) (s : S) : list logrec := snd (m s).

(** The first [n] draws below [bound] from a generator state: a prefix of
    the stream the state determines. *)
Fixpoint stream_prefix {RT : PyRuntime} (n : nat) (bound : Z) (r : rng)
  : list Z :=
  match n with
  | O => []
  | S n' =>
      let '(x, r') := rng_randbelow bound r in
      x :: stream_prefix n' bound r'
  end.

(** The value a configuration lookup yields, read off a run of [get] *)
Definition cfg_value (configs : gmap string pyval) (config_name : string)
    (keys : list string) (dflt : pyval) : pyval :=
  match result (get_s (S := unit) configs config_name keys dflt) tt with
  | Ok v => v
  | Raise _ => dflt
  end.

(** Following a key path through nested mappings, in the words of the
    specification: [None] when a key is absent or the value reached is
    not a mapping. *)
Fixpoint resolve (value : pyval) (keys : list pyval) : option pyval :=
  match keys with
  | [] => Some value
  | key :: rest =>
      match value, key with
      | PDict d, PStr k =>
          match dict_lookup d k with
          | Some v => resolve v rest
          | None => None
          end
      | _, _ => None
      end
  end.


(** ** Templates as the specification reads them *)

(** What the loop of [render] computes on the text of the template: the
    replacements one after the other, in the order of [kwargs]. *)
Definition render_text (kwargs : list (string * pyval)) (template : string)
  : string :=
  fold_left
    (fun t kv => str_replace ("{" +:+ fst kv +:+ "}") (py_str (snd kv)) t)
    kwargs template.

(** A template read as literal text and placeholders *)
Inductive token :=
| Lit (text : string)
| Hole (key : string).

Definition token_text (t : token) : string :=
  match t with
  | Lit text => text
  | Hole key => "{" +:+ key +:+ "}"
  end.

Fixpoint flatten (toks : list token) : string :=
  match toks with
  | [] => ""
  | t :: rest => token_text t +:+ flatten rest
  end.

Fixpoint kwargs_lookup (kwargs : list (string * pyval)) (k : string)
  : option pyval :=
  match kwargs with
  | [] => None
  | (k', v) :: rest => if String.eqb k k' then Some v else kwargs_lookup rest k
  end.

(** Simultaneous, non-recursive substitution: every placeholder of a
    supplied variable becomes the value, once; everything else stays. *)
Definition fill (kwargs : list (string * pyval)) (t : token) : token :=
  match t with
  | Lit text => Lit text
  | Hole key =>
      match kwargs_lookup kwargs key with
      | Some v => Lit (py_str v)
      | None => Hole key
      end
  end.

Definition substitute_simultaneously (kwargs : list (string * pyval))
    (toks : list token) : string :=
  flatten (map (fill kwargs) toks).

Fixpoint brace_free (s : string) : bool :=
  match s with
  | EmptyString => true
  | String c rest =>
      negb (Ascii.eqb c "{") && negb (Ascii.eqb c "}") && brace_free rest
  end.

Definition token_brace_free (t : token) : bool :=
  match t with
  | Lit text => brace_free text
  | Hole key => brace_free key
  end.


Fixpoint open_free (s : string) : bool :=
  match s with
  | EmptyString => true
  | String c rest => negb (Ascii.eqb c "{") && open_free rest
  end.

(** One replacement, token by token *)
Definition fill1 (k : string) (v : pyval) (t : token) : token :=
  match t with
  | Lit text => Lit text
  | Hole key => if String.eqb key k then Lit (py_str v) else Hole key
  end.

Definition kwargs_brace_free (kwargs : list (string * pyval)) : bool :=
  forallb (fun kv => brace_free (fst kv) && brace_free (py_str (snd kv)))
    kwargs.


(** ** Partial-correctness triples for computations *)

(** From a state satisfying [P], a run of [m] that returns a value [a]
    ends in a state satisfying [Q a]. *)
Definition hoare {S A} (P : S -> Prop) (m : St S A) (Q : A -> S -> Prop)
  : Prop :=
  forall s, P s -> forall a, result m s = Ok a -> Q a (final m s).

(** A computation that never changes the state *)
Definition stateless {S A} (m : St S A) : Prop := forall s, final m s = s.

(** A computation that never returns normally *)
Definition diverts {S A} (m : St S A) : Prop :=
  forall s, is_ok (result m s) = false.


(** ** The batch loop as a relation

    [batch_run configs w personas dirs fails w']: processing [personas] in
    order from world [w] ends in [w'], with [dirs] the directories of the
    personas whose log was generated and [fails] the personas whose
    generation raised, with the exception. *)
Inductive batch_run {RT : PyRuntime} (configs : gmap string pyval)
  : World -> list Persona -> list string -> list (string * exn) -> World
    -> Prop :=
| batch_done w : batch_run configs w [] [] [] w
| batch_generated w p ps d w1 l dirs fails w' :
    generate_atomic_log configs p w = (Ok d, w1, l) ->
    batch_run configs w1 ps dirs fails w' ->
    batch_run configs w (p :: ps) (d :: dirs) fails w'
| batch_failed w p ps e w1 l dirs fails w' :
    generate_atomic_log configs p w = (Raise e, w1, l) ->
    batch_run configs w1 ps dirs fails w' ->
    batch_run configs w (p :: ps) dirs ((persona_id p, e) :: fails) w'.

(** The record [generate_all_atomic_logs] logs for a failed persona *)
Definition failure_record (f : string * exn) : logrec :=
  (ERROR,
   "Failed to generate log for " +:+ fst f +:+ ": " +:+ exn_name (snd f)).


(** Two states in which [datetime.now()] will read the same times *)
Definition same_clock {RT : PyRuntime} (e1 e2 : Ent) : Prop :=
  e_clock e1 = e_clock e2 /\ e_ticks e1 = e_ticks e2.

(** The entries of [keychain.txt] after the macOS password *)
Definition keychain_entry_passwords (r : string * list pyval) : list pyval :=
  tl (snd r).


(** A computation that never reads the clock: from two states with the
    same generator state it gives the same result and the same log
    records, and leaves the same generator state. *)
Definition clock_blind {RT : PyRuntime} {A} (m : G A) : Prop :=
  forall e1 e2,
    e_rng e1 = e_rng e2 ->
    result m e1 = result m e2
    /\ logs m e1 = logs m e2
    /\ e_rng (final m e1) = e_rng (final m e2).


(** ** Reference points for the lookups *)

(** The value at a path of string keys through nested mappings.  A JSON
    [null] on the way, the document itself included, counts as absent:
    [get] tests [value is None] after every step. *)
Fixpoint path_value (value : pyval) (keys : list string) : option pyval :=
  if is_none value then None
  else
    match keys with
    | [] => Some value
    | k :: rest =>
        match value with
        | PDict d =>
            match dict_lookup d k with
            | Some v => path_value v rest
            | None => None
            end
        | _ => None
        end
    end.

(** ** Reference points for [Brute.txt] *)





(** ** Reference points for texts drawn character by character *)

(** Every item is a one-character text over the characters of [cs]. *)
Definition chars_from (cs : string) (picked : list pyval) : Prop :=
  Forall (fun p => exists c, p = PStr (String c "")
                             /\ In c (list_ascii_of_string cs)) picked.

(** A text of [k] characters, each a character of [cs] *)
Definition char_text (cs : string) (k : nat) (text : string) : Prop :=
  String.length text = k
  /\ Forall (fun c => In c (list_ascii_of_string cs))
       (list_ascii_of_string text).

(** ** Reference points for the file system *)

(** [f'] holds every file path and every directory of [f]. *)
Definition fs_extends (f f' : FS) : Prop :=
  (forall p, is_Some (fs_files f !! p) -> is_Some (fs_files f' !! p))
  /\ fs_dirs f ⊆ fs_dirs f'.

(** A computation that keeps every file path and every directory it finds,
    whether it returns or raises. *)
Definition keeps_paths {RT : PyRuntime} {A} (m : M A) : Prop :=
  forall w, fs_extends (w_fs w) (w_fs (final m w)).

(** The file that the entry [key] of [file_structure] names exists in
    [directory]. *)
Definition written {RT : PyRuntime} (file_structure : pyval)
    (directory key : string) (w : World) : Prop :=
  exists name,
    getitem file_structure key = Ok (PStr name)
    /\ is_Some (fs_files (w_fs w) !! path_join directory name).

(** ** The roster

    [load_atomic_personas] is modelled from the point where
    [csv.DictReader] has read the file: [fieldnames] is the header (a list
    of texts, or [None] for an empty file) and every row maps the column
    names to the cells of a line.  Every row has a cell for each column it
    names: on a line that is too short [DictReader] fills in [None], which
    the [Persona] of this model cannot hold.  What the function prints to
    standard output is not recorded. *)

Definition csv_row : Type := list (string * string).

(** [row.get(column)] *)
Fixpoint cell (row : csv_row) (column : string) : option string :=
  match row with
  | [] => None
  | (k, v) :: rest => if String.eqb column k then Some v else cell rest column
  end.

(** [row[column]] *)
Definition row_item (row : csv_row) (column : string) : outcome string :=
  match cell row column with
  | Some v => Ok v
  | None => Raise KeyError
  end.

Definition and_then {A B} (o : outcome A) (k : A -> outcome B) : outcome B :=
  match o with
  | Ok a => k a
  | Raise e => Raise e
  end.

(** [Persona.from_csv_row] *)
Definition from_csv_row (row : csv_row) : outcome Persona :=
  and_then (row_item row "PersonaID") (fun persona_id =>
  and_then (row_item row "FirstName") (fun first_name =>
  and_then (row_item row "LastName") (fun last_name =>
  and_then (row_item row "EmailPersonal") (fun email_personal =>
  and_then (row_item row "Country") (fun country =>
  and_then (row_item row "City") (fun city =>
  and_then (row_item row "OS") (fun os =>
  and_then (row_item row "DeviceType") (fun device_type =>
  and_then (row_item row "IncomeLevel") (fun income_level =>
  and_then (row_item row "PrimaryBrowser") (fun primary_browser =>
  and_then (row_item row "SecondaryBrowser") (fun secondary_browser =>
  and_then (row_item row "PasswordHabits") (fun password_habits =>
  and_then (row_item row "PersonaArchetype") (fun persona_archetype =>
  Ok (mkPersona persona_id first_name last_name email_personal country city
        os device_type income_level primary_browser secondary_browser
        password_habits persona_archetype)))))))))))))).

Section Roster.
Context {RT : PyRuntime}.

(** The column of [load_atomic_personas] that tells the infection *)
Definition infection_column (fieldnames : pyval) : M string :=
  let* has_infection := lift_outcome (py_in "Infection" fieldnames) in
  if negb has_infection then
    let* _ := logger WARNING
                ("No 'Infection' column found in CSV. "
                 +:+ "Looking for 'Stealer' or 'InfectedBy' column.") in
    let* found :=
      foldM (fun found col =>
               match found with
               | Some _ => ret found
               | None =>
                   let* has := lift_outcome (py_in col fieldnames) in
                   ret (if has : bool then Some col else None)
               end)
            None ["Stealer"; "InfectedBy"; "Malware"] in
    match found with
    | Some col => ret col
    | None => raise ValueError
    end
  else ret "Infection".

(** One pass of the loop [for row in reader] *)
Definition select_row (infection_column : string)
    (atomic_personas : list Persona) (row : csv_row) : M (list Persona) :=
  let infection_value :=
    str_lower (strip (default "" (cell row infection_column))) in
  if String.eqb infection_value "atomic" then
    if negb (str_contains "macOS" (default "" (cell row "OS"))) then
      let* persona_id := lift_outcome (row_item row "PersonaID") in
      let* _ := logger WARNING
                  ("Persona " +:+ persona_id
                   +:+ " marked for Atomic but has OS: "
                   +:+ default "None" (cell row "OS") +:+ ". Skipping.") in
      ret atomic_personas
    else
      let* persona := lift_outcome (from_csv_row row) in
      ret (atomic_personas ++ [persona])
  else ret atomic_personas.

(** [AtomicLogGenerator._log_selected_personas]: the file it leaves *)
Definition _log_selected_personas (personas : list Persona) : M unit :=
  let filepath := "atomic_infected_personas.txt" in
  let* _ := open_w filepath in
  file_write filepath
    (PStr
       ("PersonaIDs infected by Atomic (from Infection column):" +:+ newline
        +:+ join "," (map persona_id personas)
        +:+ newline +:+ newline +:+ "Details:" +:+ newline
        +:+ String.concat ""
              (map (fun p =>
                      persona_id p +:+ ": " +:+ first_name p +:+ " "
                      +:+ last_name p +:+ " - " +:+ os p +:+ " ("
                      +:+ persona_archetype p +:+ ")" +:+ newline)
                 personas)
        +:+ newline +:+ newline +:+ "Total: "
        +:+ string_of_Z (Z.of_nat (List.length personas))
        +:+ " personas" +:+ newline)).

(** [AtomicLogGenerator.load_atomic_personas], on the header and the rows
    read from the CSV file *)
Definition load_atomic_personas (fieldnames : pyval) (rows : list csv_row)
  : M (list Persona) :=
  try_except
    (let* column := infection_column fieldnames in
     let* atomic_personas := foldM (select_row column) [] rows in
     let* _ := logger INFO
                 ("Found "
                  +:+ string_of_Z (Z.of_nat (List.length atomic_personas))
                  +:+ " personas infected by Atomic") in
     let* _ :=
       match atomic_personas with
       | [] =>
           logger WARNING
             ("No personas found with Atomic infection. "
              +:+ "Check the 'Infection' column in your CSV.")
       | _ :: _ => ret tt
       end in
     let* _ := _log_selected_personas atomic_personas in
     ret atomic_personas)
    (fun e =>
       let* _ := logger ERROR ("Error loading personas: " +:+ exn_name e) in
       raise e).

End Roster.


(** ** A runtime to run the generators on: a linear congruential generator
    and a clock in UTC *)

Module Lcg.

Definition next (s : Z) : Z := (s * 1103515245 + 12345) mod 2147483648.

Definition randbelow (n : Z) (s : Z) : Z * Z := (next s mod n, next s).

Definition random (s : Z) : Z * Z := (next s * 4194304, next s).

Definition bisect (cum : list Z) (s : Z) : Z * Z :=
  (next s mod Z.of_nat (List.length cum), next s).

Definition sample (n k : Z) (s : Z) : list Z * Z :=
  (map Z.of_nat (seq 0 (Z.to_nat k)), next s).

Lemma next_range s : 0 <= next s < 2147483648.
Proof. unfold next. apply Z.mod_pos_bound. lia. Qed.

Lemma random_range s : 0 <= fst (random s) < 2 ^ 53.
Proof.
  unfold random. cbn [fst]. pose proof (next_range s).
  change (2 ^ 53) with (2147483648 * 4194304). nia.
Qed.

Lemma randbelow_range n s : 0 < n -> 0 <= fst (randbelow n s) < n.
Proof. intros Hn. unfold randbelow. cbn [fst]. now apply Z.mod_pos_bound. Qed.

Lemma bisect_range cum s :
  cum <> [] -> 0 <= fst (bisect cum s) < Z.of_nat (List.length cum).
Proof.
  intros Hne. unfold bisect. cbn [fst]. apply Z.mod_pos_bound.
  destruct cum; [congruence | cbn [List.length]; lia].
Qed.

Lemma sample_spec n k s :
  0 <= k <= n ->
  List.length (fst (sample n k s)) = Z.to_nat k
  /\ NoDup (fst (sample n k s))
  /\ Forall (fun i => 0 <= i < n) (fst (sample n k s)).
Proof.
  intros Hk. unfold sample. cbn [fst]. repeat split.
  - now rewrite length_map, length_seq.
  - apply NoDup_fmap_2; [intros a b; apply Nat2Z.inj | apply NoDup_seq].
  - apply Forall_forall. intros i Hi. apply list_elem_of_fmap in Hi.
    destruct Hi as [j [-> Hj]]. apply elem_of_seq in Hj. lia.
Qed.

(** Upper-case hexadecimal digits of a non-negative number *)
Fixpoint hex_upper_digits (fuel : nat) (z : Z) (acc : string) : string :=
  match fuel with
  | O => acc
  | S fuel' =>
      let d := z mod 16 in
      let c := ascii_of_N (Z.to_N (if d <? 10 then 48 + d else 55 + d)) in
      if z / 16 =? 0 then String c acc
      else hex_upper_digits fuel' (z / 16) (String c acc)
  end.

Definition hex_upper (z : Z) : string :=
  hex_upper_digits (S (Z.to_nat (Z.log2 z))) z "".

(** The decimal number a text starts with, and the rest of the text *)
Fixpoint leading_number (acc : Z) (s : string) : Z * string :=
  match s with
  | EmptyString => (acc, "")
  | String c rest =>
      let n := Z.of_N (N_of_ascii c) in
      if (48 <=? n) && (n <=? 57) then leading_number (10 * acc + (n - 48)) rest
      else (acc, s)
  end.

(** [format(z, spec)] for the specifiers [0<width>X]: upper-case
    hexadecimal, padded with zeros after the sign; any other specifier is
    refused. *)
Definition format_hex (z : Z) (spec : string) : outcome string :=
  match spec with
  | String "0" rest =>
      let '(width, tail) := leading_number 0 rest in
      if String.eqb tail "X" then
        let sign := if z <? 0 then "-" else "" in
        let body := hex_upper (Z.abs z) in
        let used := Z.of_nat (String.length sign + String.length body) in
        Ok (sign +:+ str_repeat (Z.to_nat (width - used)) "0" +:+ body)
      else Raise ValueError
  | _ => Raise ValueError
  end.

Definition two_digits (z : Z) : string :=
  (if z <? 10 then "0" else "") +:+ string_of_Z z.

(** [dt.strftime("%Y-%m-%d %H:%M:%S")] in UTC, by the civil calendar;
    another format is returned as it is. *)
Definition strftime (dt : Z) (fmt : string) : string :=
  if String.eqb fmt "%Y-%m-%d %H:%M:%S" then
    let seconds := dt / 1000000 in
    let days := seconds / 86400 + 719468 in
    let second_of_day := seconds mod 86400 in
    let era := days / 146097 in
    let doe := days - era * 146097 in
    let yoe := (doe - doe / 1460 + doe / 36524 - doe / 146096) / 365 in
    let doy := doe - (365 * yoe + yoe / 4 - yoe / 100) in
    let mp := (5 * doy + 2) / 153 in
    let day := doy - (153 * mp + 2) / 5 + 1 in
    let month := if mp <? 10 then mp + 3 else mp - 9 in
    let year := yoe + era * 400 + (if month <=? 2 then 1 else 0) in
    string_of_Z year +:+ "-" +:+ two_digits month +:+ "-" +:+ two_digits day
    +:+ " " +:+ two_digits (second_of_day / 3600) +:+ ":"
    +:+ two_digits (second_of_day mod 3600 / 60) +:+ ":"
    +:+ two_digits (second_of_day mod 60)
  else fmt.

(** The runtime: a day has 86400 seconds, the time zone is UTC. *)
Definition runtime : PyRuntime := {|
  rng := Z;
  rng_seed := fun z => z;
  rng_seed_float := fun x => x;
  rng_random := random;
  rng_random_range := random_range;
  rng_randbelow := randbelow;
  rng_randbelow_range := randbelow_range;
  rng_randfloor := randbelow;
  rng_randfloor_range := randbelow_range;
  rng_bisect := bisect;
  rng_bisect_range := bisect_range;
  rng_sample := sample;
  rng_sample_spec := sample_spec;
  format_int := format_hex;
  dt_add_days := fun dt n => Ok (dt + n * 86400000000);
  dt_timestamp := fun dt => Ok (dt / 1000000);
  dt_strftime := strftime
|}.

End Lcg.


(** ** Configurations and personas used in examples *)

Definition store_x : gmap string pyval :=
  {["x" := PDict [("present", PDict [("leaf", PInt 1)])]]}.

Definition greeting_store : gmap string pyval :=
  {["templates" :=
      PDict [("greeting", PStr "Hello {name}, {title}!"); ("nested", PStr "{a}")]]}.


(** A configuration bundle for the Atomic generator: the password pool of
    the specification's scenario, one keychain service whose password is
    drawn from a character set, and a browser profile that lacks its
    [primary] entry. *)
Definition atomic_store : gmap string pyval :=
  list_to_map
    [("main",
      PDict
        [("generator_settings",
          PDict [("min_passwords", PInt 2); ("max_passwords", PInt 3);
                 ("min_cookies", PInt 1); ("max_cookies", PInt 2);
                 ("cookie_value_length", PInt 4);
                 ("min_keychain_entries", PInt 2);
                 ("max_keychain_entries", PInt 3);
                 ("min_google_tokens", PInt 1);
                 ("max_google_tokens", PInt 1);
                 ("token_suffix_length", PInt 3)]);
         ("stealer_info", PDict [("name", PStr "Atomic")]);
         ("file_structure",
          PDict [("user_info_filename", PStr "UserInformation.txt");
                 ("passwords_filename", PStr "Passwords.txt");
                 ("brute_filename", PStr "Brute.txt");
                 ("autofills_filename", PStr "Autofills.txt");
                 ("google_tokens_filename", PStr "GoogleTokens.txt");
                 ("keychain_filename", PStr "keychain.txt");
                 ("cookies_dir", PStr "Cookies")])]);
     ("passwords",
      PDict [("Reuses_Passwords", PList [PStr "Secret1!"; PStr "Secret2!"])]);
     ("websites", PDict [("common_websites", PList [PStr "https://a.example"])]);
     ("templates",
      PDict [("user_info", PStr "Stealer: {stealer_name} IP: {ip} {model_name}");
             ("autofill_entry", PStr "{name}={value}");
             ("keychain_entry",
              PStr "[{service}] {account}:{password} ({create_date});")]);
     ("hardware",
      PDict [("Personal_Laptop",
              PDict [("Medium",
                      PDict [("model", PStr "MacBook");
                             ("identifier", PList [PStr "Mac14,2"]);
                             ("chip", PList [PStr "M2"]);
                             ("cores", PList [PInt 8]);
                             ("memory", PList [PStr "16 GB"]);
                             ("display", PStr "2560x1664")])])]);
     ("ranges",
      PDict [("hardware_uuid",
              PList [PDict [("min", PInt 0); ("max", PInt 255);
                            ("format", PInt 8)]]);
             ("phone_number",
              PDict [("area_code", PDict [("min", PInt 200); ("max", PInt 999)]);
                     ("prefix", PDict [("min", PInt 200); ("max", PInt 999)]);
                     ("suffix", PDict [("min", PInt 1000); ("max", PInt 9999)])]);
             ("keychain_dates",
              PDict [("create", PDict [("min", PInt 1); ("max", PInt 5)]);
                     ("modify", PDict [("min", PInt 0); ("max", PInt 1)])])]);
     ("network",
      PDict [("country_ip_ranges", PDict [("default", PStr "10.0.0")]);
             ("macos_versions",
              PDict [("default",
                      PDict [("product", PStr "macOS");
                             ("version", PStr "14.0");
                             ("build", PStr "23A344")])])]);
     ("constants", PDict []);
     ("autofill",
      PDict [("fields",
              PList [PDict [("name", PStr "email");
                            ("type", PStr "persona_field");
                            ("source", PStr "email_personal")];
                     PDict [("name", PStr "phone"); ("type", PStr "generated");
                            ("generator", PStr "phone")]])]);
     ("keychain",
      PDict [("services",
              PList [PDict [("account", PStr "{email_prefix}");
                            ("password_type", PStr "wifi");
                            ("print_name", PStr "Home network");
                            ("service", PStr "AirPort")]]);
             ("password_types",
              PDict [("wifi",
                      PDict [("source", PStr "charset");
                             ("charset", PStr "wifi_chars");
                             ("min_length", PInt 3);
                             ("max_length", PInt 3)])])]);
     ("tokens",
      PDict [("google",
              PDict [("prefix", PStr "ya29.");
                     ("middle_range", PDict [("min", PInt 1); ("max", PInt 9)]);
                     ("connector", PStr "-")])]);
     ("charsets", PDict [("token_suffix", PStr "abc"); ("wifi_chars", PStr "x")]);
     ("browsers",
      PDict [("profiles",
              PDict [("Chrome",
                      PDict [("primary", PStr "Chrome_Default");
                             ("secondary", PStr "Chrome_Profile1")]);
                     ("Broken", PDict [])])])].

Definition alice : Persona :=
  mkPersona "P1" "Alice" "Doe" "alice@example.fake" "US" "Boston" "macOS 14"
    "Personal_Laptop" "Medium" "Chrome" "Safari" "Reuses_Passwords" "Student".

(** A persona whose browser profile is the one without [primary] *)
Definition mallory : Persona :=
  mkPersona "P2" "Mallory" "Roe" "mallory@example.fake" "US" "Austin"
    "macOS 13" "Personal_Laptop" "Medium" "Broken" "Safari" "Good_Hygiene"
    "Gamer".

Definition carol : Persona :=
  mkPersona "P3" "Carol" "Poe" "carol@example.fake" "US" "Denver" "macOS 14"
    "Personal_Laptop" "Medium" "Chrome" "Chrome" "Reuses_Passwords" "Student".

(** A clock that advances one minute per reading *)
Definition minute_clock (start : Z) (n : nat) : Z :=
  start + 60000000 * Z.of_nat n.

Definition ent0 : Ent (RT := Lcg.runtime) :=
  mkEnt (RT := Lcg.runtime) 7 (minute_clock 1700000000000000) 0.

Definition world0 : World (RT := Lcg.runtime) :=
  mkWorld (RT := Lcg.runtime) ent0 (mkFS ∅ ∅).


Definition ent_rng (r : Z) : Ent (RT := Lcg.runtime) :=
  mkEnt (RT := Lcg.runtime) r (minute_clock 1700000000000000) 0.

Definition ent_clock (start : Z) : Ent (RT := Lcg.runtime) :=
  mkEnt (RT := Lcg.runtime) 7 (minute_clock start) 0.

(** A store whose template entry is a list, not text *)
Definition list_template_store : gmap string pyval :=
  {["templates" := PDict [("banner", PList [PStr "a"; PStr "b"])]]}.

(** A persona with a device type no hardware profile is configured for *)
Definition gamer : Persona :=
  mkPersona "P1" "Gina" "Low" "gina@example.fake" "US" "Reno" "macOS 14"
    "Gaming_Rig" "High" "Chrome" "Safari" "Mixed" "Gamer".





(** * Properties *)

#[local] Arguments String.append !s1 s2 : simpl nomatch.

(** ** hashlib.md5 on the RFC's test vectors *)

Example md5_empty : MD5.hexdigest "" = "d41d8cd98f00b204e9800998ecf8427e".
Proof. vm_compute. reflexivity. Qed.

Example md5_a : MD5.hexdigest "a" = "0cc175b9c0f1b6a831c399e269772661".
Proof. vm_compute. reflexivity. Qed.

Example md5_abc : MD5.hexdigest "abc" = "900150983cd24fb0d6963f7d28e17f72".
Proof. vm_compute. reflexivity. Qed.

Example md5_two_blocks :
  MD5.hexdigest
    "xxxxxxxxxxxxxxxxxxxxxxxxxxxxxxxxxxxxxxxxxxxxxxxxxxxxxxxxxxxxxxxxxxxxxx"
  = "7d56c0f83fd1e320d60ea2f13dfdeedd".
Proof. vm_compute. reflexivity. Qed.

Example seed_P1_hardware : get_persona_seed "P1" "hardware" = 2123911162.
Proof. vm_compute. reflexivity. Qed.

(** ** Built-in operations on examples *)

Example string_of_Z_examples :
  string_of_Z 0 = "0" /\ string_of_Z 254 = "254" /\ string_of_Z (-12) = "-12".
Proof. repeat split. Qed.

Example str_replace_examples :
  str_replace "{a}" "x" "{a}-{a}b" = "x-xb"
  /\ str_replace "aa" "b" "aaa" = "ba"
  /\ str_replace "" "-" "ab" = "-a-b-"
  /\ str_replace "{k}" "v" "no placeholder" = "no placeholder".
Proof. repeat split. Qed.

Example py_repr_example :
  py_str (PList [PStr "a"; PInt 1; PNone; PBool true; PDict [("k", PStr "it's")]])
  = String.concat ""
      ["['a', 1, None, True, {'k': "; String (ascii_of_N 34) "it's";
       String (ascii_of_N 34) "}]"].
Proof. reflexivity. Qed.

Example split_strip_examples :
  split_char "@" "alice@example.fake" = ["alice"; "example.fake"]
  /\ split_char "," "" = [""]
  /\ strip "  padded " = "padded"
  /\ str_lower "Alice" = "alice".
Proof. repeat split. Qed.

Example path_examples :
  path_join "Atomic_P1" "Cookies" = "Atomic_P1/Cookies"
  /\ path_join "Atomic_P1" "/etc/x" = "/etc/x"
  /\ path_join "" "file" = "file"
  /\ dirname "Atomic_P1/Cookies/Chrome.txt" = "Atomic_P1/Cookies"
  /\ dirname "file" = ""
  /\ ancestors_from "" "a/b/c" = ["a"; "a/b"].
Proof. repeat split. Qed.

Example generate_brute_example :
  generate_brute
    (join newline ["URL: u"; "LOGIN: l"; "PASSWORD: Secret1!"; "URL: v";
                   "LOGIN: "; "PASSWORD: "])
  = "Secret1!".
Proof. reflexivity. Qed.

Example lcg_runtime_examples :
  Lcg.format_hex 255 "08X" = Ok "000000FF"
  /\ Lcg.format_hex (-255) "04X" = Ok "-0FF"
  /\ Lcg.format_hex 0 "0X" = Ok "0"
  /\ Lcg.format_hex 255 "x" = Raise ValueError
  /\ Lcg.strftime 1700000000000000 "%Y-%m-%d %H:%M:%S" = "2023-11-14 22:13:20"
  /\ Lcg.strftime 951782400000000 "%Y-%m-%d %H:%M:%S" = "2000-02-29 00:00:00".
Proof. repeat split. Qed.
(** ** The seed is a 32-bit number *)

Lemma hex_value_digit d : 0 <= d < 16 -> hex_value (MD5.hex_digit d) = Some d.
Proof.
  intros Hd.
  assert (Hcases : In d [0; 1; 2; 3; 4; 5; 6; 7; 8; 9; 10; 11; 12; 13; 14; 15]).
  { cbn. lia. }
  cbn in Hcases.
  repeat (destruct Hcases as [<- | Hcases]; [vm_compute; reflexivity |]).
  contradiction.
Qed.

Lemma byte_nibbles x :
  0 <= Z.shiftr (Z.land x 255) 4 < 16 /\ 0 <= Z.land (Z.land x 255) 15 < 16.
Proof.
  change 255 with (Z.ones 8). change 15 with (Z.ones 4).
  rewrite !Z.land_ones by lia. rewrite Z.shiftr_div_pow2 by lia.
  pose proof (Z.mod_pos_bound x (2 ^ 8) ltac:(lia)).
  pose proof (Z.mod_pos_bound (x mod 2 ^ 8) (2 ^ 4) ltac:(lia)).
  split; [| lia].
  change (2 ^ 8) with 256 in *. change (2 ^ 4) with 16 in *.
  split; [apply Z.div_pos; lia | apply Z.div_lt_upper_bound; lia].
Qed.

Lemma int_base16_two acc x rest :
  int_base16_acc acc
    (String (MD5.hex_digit (Z.shiftr (Z.land x 255) 4))
       (String (MD5.hex_digit (Z.land (Z.land x 255) 15)) rest))
  = int_base16_acc
      (16 * (16 * acc + Z.shiftr (Z.land x 255) 4) + Z.land (Z.land x 255) 15)
      rest.
Proof.
  destruct (byte_nibbles x) as [Hhi Hlo].
  cbn [int_base16_acc]. rewrite (hex_value_digit _ Hhi).
  now rewrite (hex_value_digit _ Hlo).
Qed.

Lemma seed_of_digest_word a rest :
  exists z,
    int_base16 (str_take 8 (MD5.hex_of_bytes (MD5.le_bytes 4 a ++ rest)))
    = Some z
    /\ 0 <= z < 2 ^ 32.
Proof.
  cbn [MD5.le_bytes app MD5.hex_of_bytes str_take].
  unfold int_base16. rewrite !int_base16_two. cbn [int_base16_acc].
  eexists; split; [reflexivity |].
  pose proof (byte_nibbles a) as [? ?].
  pose proof (byte_nibbles (Z.shiftr a 8)) as [? ?].
  pose proof (byte_nibbles (Z.shiftr (Z.shiftr a 8) 8)) as [? ?].
  pose proof (byte_nibbles (Z.shiftr (Z.shiftr (Z.shiftr a 8) 8) 8)) as [? ?].
  change (2 ^ 32) with 4294967296. lia.
Qed.

Lemma hexdigest_seed data :
  exists z,
    int_base16 (str_take 8 (MD5.hexdigest data)) = Some z /\ 0 <= z < 2 ^ 32.
Proof.
  unfold MD5.hexdigest, MD5.digest. cbv zeta. apply seed_of_digest_word.
Qed.

Lemma get_persona_seed_range persona_id suffix :
  0 <= get_persona_seed persona_id suffix < 2 ^ 32.
Proof.
  unfold get_persona_seed. cbv zeta.
  destruct (hexdigest_seed (persona_id +:+ "_" +:+ suffix)) as [z [-> Hz]].
  exact Hz.
Qed.

Lemma vidar_get_persona_seed_range persona_id suffix :
  0 <= Vidar.get_persona_seed persona_id suffix < 2 ^ 32.
Proof.
  unfold Vidar.get_persona_seed.
  destruct (hexdigest_seed (persona_id +:+ suffix)) as [z [-> Hz]].
  exact Hz.
Qed.

(** ** Seeding erases the history of the generator *)

Section Seeding.
Context {RT : PyRuntime}.

Lemma random_seed_run z (e : Ent) :
  random_seed z e = (Ok tt, mkEnt (rng_seed z) (e_clock e) (e_ticks e), []).
Proof. reflexivity. Qed.

(** C1: [get_persona_seed] is a function of the persona id and the purpose
    alone, a 32-bit number; whatever the generator state, the clock and
    the position in the run were before, [random.seed] of it leaves the
    generator in one and the same state, so every stream drawn afterwards
    is the same.  The Vidar variant behaves alike. *)
Theorem get_persona_seed_deterministic (persona_id purpose : string)
    (e1 e2 : Ent) (n : nat) (bound : Z) :
  let seed := get_persona_seed persona_id purpose in
  let vseed := Vidar.get_persona_seed persona_id purpose in
  0 <= seed < 2 ^ 32
  /\ 0 <= vseed < 2 ^ 32
  /\ e_rng (final (random_seed seed) e1) = rng_seed seed
  /\ e_rng (final (random_seed seed) e1) = e_rng (final (random_seed seed) e2)
  /\ stream_prefix n bound (e_rng (final (random_seed seed) e1))
     = stream_prefix n bound (e_rng (final (random_seed seed) e2))
  /\ stream_prefix n bound (e_rng (final (random_seed vseed) e1))
     = stream_prefix n bound (e_rng (final (random_seed vseed) e2)).
Proof.
  intros seed vseed.
  split; [apply get_persona_seed_range |].
  split; [apply vidar_get_persona_seed_range |].
  repeat split.
Qed.

End Seeding.

(** ** Vidar: concatenation without a separator *)

Lemma vidar_seed_concat p1 s1 p2 s2 :
  p1 +:+ s1 = p2 +:+ s2 ->
  Vidar.get_persona_seed p1 s1 = Vidar.get_persona_seed p2 s2.
Proof. unfold Vidar.get_persona_seed. now intros ->. Qed.

(** C10: the Vidar seed derivation joins persona id and suffix with no
    separator, so the distinct pairs ("P1", "2cookies") and
    ("P12", "cookies") derive one seed and, after [random.seed], one
    generator state and one stream; the derivation with the underscore
    keeps these two pairs apart. *)
Theorem vidar_seed_collision :
  ("P1", "2cookies") <> ("P12", "cookies")
  /\ Vidar.get_persona_seed "P1" "2cookies"
     = Vidar.get_persona_seed "P12" "cookies"
  /\ Vidar.get_persona_seed "P1" "2cookies" = 264945295
  /\ (forall (RT : PyRuntime) (n : nat) (bound : Z),
        stream_prefix n bound
          (rng_seed (Vidar.get_persona_seed "P1" "2cookies"))
        = stream_prefix n bound
            (rng_seed (Vidar.get_persona_seed "P12" "cookies")))
  /\ get_persona_seed "P1" "2cookies" <> get_persona_seed "P12" "cookies".
Proof.
  split; [congruence |].
  assert (Heq : Vidar.get_persona_seed "P1" "2cookies"
                = Vidar.get_persona_seed "P12" "cookies")
    by (apply vidar_seed_concat; reflexivity).
  split; [exact Heq |].
  split; [vm_compute; reflexivity |].
  split; [intros RT n bound; now rewrite Heq |].
  vm_compute. congruence.
Qed.
(** ** Runs of the basic computations *)

Section RunFacts.
Context {S : Type}.

Lemma result_bind_ok {A B} (m : St S A) (k : A -> St S B) s a s1 l1 :
  m s = (Ok a, s1, l1) -> result (bind m k) s = result (k a) s1.
Proof.
  intros Hm. unfold result, bind. rewrite Hm.
  now destruct (k a s1) as [[r s2] l2].
Qed.

Lemma final_bind_ok {A B} (m : St S A) (k : A -> St S B) s a s1 l1 :
  m s = (Ok a, s1, l1) -> final (bind m k) s = final (k a) s1.
Proof.
  intros Hm. unfold final, bind. rewrite Hm.
  now destruct (k a s1) as [[r s2] l2].
Qed.

Lemma bind_run_ok {A B} (m : St S A) (k : A -> St S B) s a s1 l1 :
  m s = (Ok a, s1, l1) ->
  bind m k s = (result (k a) s1, final (k a) s1, l1 ++ logs (k a) s1).
Proof.
  intros Hm. unfold result, final, logs, bind. rewrite Hm.
  now destruct (k a s1) as [[r s2] l2].
Qed.

Lemma bind_run_raise {A B} (m : St S A) (k : A -> St S B) s e s1 l1 :
  m s = (Raise e, s1, l1) -> bind m k s = (Raise e, s1, l1).
Proof. intros Hm. unfold bind. now rewrite Hm. Qed.

Lemma run_eta {A} (m : St S A) s : m s = (result m s, final m s, logs m s).
Proof. unfold result, final, logs. now destruct (m s) as [[r s1] l]. Qed.

End RunFacts.

(** ** ConfigurationManager.get *)

Section GetFacts.
Context {S : Type}.
Variable configs : gmap string pyval.

(** The loop leaves the state alone and does not look at it. *)
Lemma get_loop_uniform config_name all_keys keys :
  forall value dflt (s : S),
    get_loop config_name all_keys value keys dflt s
    = (result (get_loop (S := unit) config_name all_keys value keys dflt) tt,
       s,
       logs (get_loop (S := unit) config_name all_keys value keys dflt) tt).
Proof.
  induction keys as [| key rest IH]; intros value dflt s; [reflexivity |].
  destruct value; try reflexivity.
  cbn [get_loop]. unfold result, logs, bind, lift_outcome.
  destruct (dict_get d key) as [value' | e]; [| reflexivity].
  destruct (is_none value').
  - destruct (py_join "." (keys_upto key all_keys)); reflexivity.
  - rewrite (IH value' dflt s). unfold result, logs.
    destruct (get_loop config_name all_keys value' rest dflt tt)
      as [[r u] l]. reflexivity.
Qed.

Lemma get_uniform config_name keys dflt (s : S) :
  get configs config_name keys dflt s
  = (result (get (S := unit) configs config_name keys dflt) tt, s,
     logs (get (S := unit) configs config_name keys dflt) tt).
Proof.
  unfold get, result, logs, try_except.
  destruct (is_none (default PNone (configs !! config_name))); [reflexivity |].
  rewrite (get_loop_uniform _ _ _ _ _ s). unfold result, logs.
  destruct (get_loop config_name keys _ keys dflt tt) as [[[v | e] u] l];
    reflexivity.
Qed.

(** [get] never raises. *)
Lemma get_loop_total config_name all_keys keys :
  forall value dflt (s : S),
    (exists v, result (get_loop config_name all_keys value keys dflt) s = Ok v)
    \/ (exists e,
          result (get_loop config_name all_keys value keys dflt) s = Raise e).
Proof.
  intros value dflt s.
  destruct (result (get_loop config_name all_keys value keys dflt) s); eauto.
Qed.

Lemma get_ok config_name keys dflt (s : S) :
  exists v, result (get configs config_name keys dflt) s = Ok v.
Proof.
  unfold get, result, try_except.
  destruct (is_none (default PNone (configs !! config_name)));
    [eexists; reflexivity |].
  destruct (get_loop config_name keys _ keys dflt s) as [[[v | e] s1] l1];
    eexists; reflexivity.
Qed.

Lemma get_final config_name keys dflt (s : S) :
  final (get configs config_name keys dflt) s = s.
Proof. unfold final. now rewrite get_uniform. Qed.

(** A path that does not resolve yields the default or an exception the
    handler of [get] turns into the default. *)
Lemma get_loop_missing config_name all_keys keys :
  forall value dflt (s : S),
    resolve value keys = None ->
    result (get_loop config_name all_keys value keys dflt) s = Ok dflt
    \/ exists e,
         result (get_loop config_name all_keys value keys dflt) s = Raise e.
Proof.
  induction keys as [| key rest IH]; intros value dflt s Hres;
    [discriminate |].
  destruct value; try (left; reflexivity).
  cbn [get_loop]. unfold result, bind, lift_outcome.
  destruct key as [| b | z | k | l | d']; cbn [dict_get];
    try (right; eexists; reflexivity);
    try (cbn [is_none];
         destruct (py_join "." (keys_upto _ all_keys));
         [left | right; eexists]; reflexivity).
  cbn [resolve] in Hres.
  destruct (dict_lookup d k) as [v |] eqn:Hk.
  - change (default PNone (Some v)) with v.
    destruct (is_none v) eqn:Hv.
    + destruct (py_join "." (keys_upto (PStr k) all_keys));
        [left | right; eexists]; reflexivity.
    + destruct (IH v dflt s Hres) as [Hok | [e He]]; unfold result in *.
      * left. destruct (get_loop _ _ v rest dflt s) as [[r s1] l1].
        cbn in *. now subst.
      * right. exists e.
        destruct (get_loop _ _ v rest dflt s) as [[r s1] l1].
        cbn in *. now subst.
  - change (default PNone None) with PNone. cbn [is_none].
    destruct (py_join "." (keys_upto (PStr k) all_keys));
      [left | right; eexists]; reflexivity.
Qed.

(** C4: with a default [D] supplied, [get] never raises, leaves the state
    alone, and returns [D] whenever the domain was not loaded or the key
    path does not resolve (a key is absent, or the value reached is not a
    mapping). *)
Theorem get_returns_default_on_missing_path (config_name : string)
    (keys : list pyval) (D : pyval) (s : S) :
  (exists v, result (get configs config_name keys D) s = Ok v)
  /\ final (get configs config_name keys D) s = s
  /\ (configs !! config_name = None
      \/ (exists value,
            configs !! config_name = Some value
            /\ resolve value keys = None) ->
      result (get configs config_name keys D) s = Ok D).
Proof.
  split; [apply get_ok |]. split; [apply get_final |].
  intros [Habsent | [value [Hload Hres]]].
  - unfold get, result, try_except. now rewrite Habsent.
  - unfold get, result, try_except. rewrite Hload.
    change (default PNone (Some value)) with value.
    destruct (is_none value) eqn:Hnone; [reflexivity |].
    destruct (get_loop_missing config_name keys keys value D s Hres)
      as [Hok | [e He]]; unfold result in *;
      destruct (get_loop _ _ value keys D s) as [[r s1] l1];
      cbn in *; subst; reflexivity.
Qed.

(** C5, as the code has it: a lookup in a domain that was never loaded,
    with no default given, returns [None] after a warning; nothing is
    raised. *)
Theorem get_unloaded_domain_returns_none (config_name : string)
    (keys : list pyval) (s : S) :
  configs !! config_name = None ->
  get configs config_name keys PNone s
  = (Ok PNone, s,
     [(WARNING, "Configuration '" +:+ config_name +:+ "' not found")]).
Proof. intros Habsent. unfold get, try_except. now rewrite Habsent. Qed.

End GetFacts.

Lemma get_returns_default_on_missing_path_witness :
  (store_x !! "x" = Some (PDict [("present", PDict [("leaf", PInt 1)])])
   /\ resolve (PDict [("present", PDict [("leaf", PInt 1)])])
        [PStr "missing"; PStr "path"] = None)
  /\ result (get (S := unit) store_x "x" [PStr "missing"; PStr "path"]
               (PStr "D")) tt = Ok (PStr "D").
Proof.
  split; [split; reflexivity |].
  apply (get_returns_default_on_missing_path store_x "x"
           [PStr "missing"; PStr "path"] (PStr "D") tt).
  right. eexists. split; reflexivity.
Defined.

Lemma get_unloaded_domain_returns_none_witness :
  store_x !! "hardware" = None
  /\ get (S := unit) store_x "hardware" [PStr "model"] PNone tt
     = (Ok PNone, tt, [(WARNING, "Configuration 'hardware' not found")]).
Proof.
  split; [reflexivity |].
  apply (get_unloaded_domain_returns_none store_x "hardware" [PStr "model"] tt).
  reflexivity.
Defined.

(** C5 as stated fails: no exception comes out of the lookup. *)
Lemma get_unloaded_domain_does_not_raise :
  ~ (exists e,
       result (get (S := unit) store_x "hardware" [PStr "model"] PNone) tt
       = Raise e).
Proof. intros [e He]. vm_compute in He. discriminate. Qed.

Example get_found :
  result (get (S := unit) store_x "x" [PStr "present"; PStr "leaf"] (PStr "D"))
    tt = Ok (PInt 1).
Proof. reflexivity. Qed.

Example get_int_key :
  get (S := unit) store_x "x" [PInt 0] (PStr "D") tt
  = (Ok (PStr "D"), tt, [(ERROR, "Error accessing config x.0: TypeError")]).
Proof. reflexivity. Qed.
(** ** str.replace on templates *)



Lemma append_assoc3 (a b c : string) : (a +:+ b) +:+ c = a +:+ (b +:+ c).
Proof. induction a as [| x a IH]; cbn; [reflexivity | now rewrite IH]. Qed.

Lemma startswith_append p rest : startswith p (p +:+ rest) = true.
Proof.
  induction p as [| c p IH]; cbn; [reflexivity |].
  now rewrite Ascii.eqb_refl, IH.
Qed.

(** Passing over the rest of a match *)
Lemma replace_from_skip old new x rest :
  replace_from old new (String.length x) (x +:+ rest)
  = replace_from old new 0 rest.
Proof. induction x as [| c x IH]; cbn; [now destruct rest | exact IH]. Qed.

Lemma replace_from_match c old' new rest :
  replace_from (String c old') new 0 (String c old' +:+ rest)
  = new +:+ replace_from (String c old') new 0 rest.
Proof.
  cbn [append replace_from].
  change (String c (old' +:+ rest)) with (String c old' +:+ rest).
  rewrite startswith_append. cbn [String.length Nat.pred].
  now rewrite replace_from_skip.
Qed.

(** Text without an opening brace holds no start of a placeholder. *)
Lemma replace_from_open_free k new lit rest :
  open_free lit = true ->
  replace_from (String "{" k) new 0 (lit +:+ rest)
  = lit +:+ replace_from (String "{" k) new 0 rest.
Proof.
  induction lit as [| c lit IH]; intros Hfree; [reflexivity |].
  cbn [open_free] in Hfree. apply andb_true_iff in Hfree as [Hc Hlit].
  cbn [append replace_from startswith].
  rewrite Ascii.eqb_sym. apply negb_true_iff in Hc. rewrite Hc. cbn [andb].
  f_equal. now apply IH.
Qed.

Lemma brace_free_open_free s : brace_free s = true -> open_free s = true.
Proof.
  induction s as [| c s IH]; cbn; [reflexivity |].
  intros H. apply andb_true_iff in H as [H1 H3].
  apply andb_true_iff in H1 as [H1 H2]. now rewrite H1, IH.
Qed.

Lemma open_free_append a b :
  open_free a = true -> open_free b = true -> open_free (a +:+ b) = true.
Proof.
  induction a as [| c a IH]; cbn; [easy |].
  intros Ha Hb. apply andb_true_iff in Ha as [Hc Ha]. now rewrite Hc, IH.
Qed.

(** Two placeholders with brace-free keys match only when the keys are
    equal. *)
Lemma startswith_key k k' rest :
  brace_free k = true -> brace_free k' = true ->
  startswith (k +:+ "}") (k' +:+ "}" +:+ rest) = true -> k = k'.
Proof.
  revert k'. induction k as [| c k IH]; intros k' Hk Hk' Hs.
  - destruct k' as [| c' k']; [reflexivity |].
    cbn [append startswith brace_free] in Hs, Hk'.
    apply andb_true_iff in Hs as [Hs _].
    apply Ascii.eqb_eq in Hs. subst c'.
    rewrite Ascii.eqb_refl in Hk'. cbn [negb] in Hk'.
    rewrite andb_false_r in Hk'. discriminate.
  - destruct k' as [| c' k'].
    + cbn [append startswith brace_free] in Hs, Hk.
      apply andb_true_iff in Hs as [Hs _].
      apply Ascii.eqb_eq in Hs. subst c.
      rewrite Ascii.eqb_refl in Hk. cbn [negb] in Hk.
      rewrite andb_false_r in Hk. discriminate.
    + cbn [append startswith brace_free] in Hs, Hk, Hk'.
      apply andb_true_iff in Hs as [Hc Hs].
      apply Ascii.eqb_eq in Hc. subst c'.
      apply andb_true_iff in Hk as [_ Hk].
      apply andb_true_iff in Hk' as [_ Hk'].
      f_equal. now apply IH.
Qed.

Lemma replace_from_other_hole k k' new rest :
  brace_free k = true -> brace_free k' = true -> k <> k' ->
  replace_from (String "{" (k +:+ "}")) new 0
    (String "{" (k' +:+ "}" +:+ rest))
  = String "{" (k' +:+ "}" +:+ replace_from (String "{" (k +:+ "}")) new 0 rest).
Proof.
  intros Hk Hk' Hne.
  cbn [replace_from startswith]. rewrite Ascii.eqb_refl. cbn [andb].
  destruct (startswith (k +:+ "}") (k' +:+ "}" +:+ rest)) eqn:Hs.
  - exfalso. apply Hne. now apply (startswith_key k k' rest).
  - f_equal. rewrite <- append_assoc3.
    rewrite replace_from_open_free; [now rewrite append_assoc3 |].
    apply open_free_append; [now apply brace_free_open_free | reflexivity].
Qed.

Lemma hole_text key rest :
  token_text (Hole key) +:+ rest = String "{" (key +:+ "}" +:+ rest).
Proof. cbn [token_text append]. now rewrite append_assoc3. Qed.

Lemma replace_flatten k v toks :
  brace_free k = true ->
  forallb token_brace_free toks = true ->
  str_replace ("{" +:+ k +:+ "}") (py_str v) (flatten toks)
  = flatten (map (fill1 k v) toks).
Proof.
  intros Hk.
  change (str_replace ("{" +:+ k +:+ "}") (py_str v))
    with (replace_from (String "{" (k +:+ "}")) (py_str v) 0).
  induction toks as [| t toks IH]; intros Htoks; [reflexivity |].
  cbn [forallb] in Htoks. apply andb_true_iff in Htoks as [Ht Htoks].
  cbn [flatten map]. destruct t as [text | key]; cbn [fill1].
  - cbn [token_text].
    rewrite replace_from_open_free by now apply brace_free_open_free.
    f_equal. now apply IH.
  - cbn [token_brace_free] in Ht. destruct (String.eqb key k) eqn:Hkey.
    + apply String.eqb_eq in Hkey. subst key.
      rewrite hole_text, <- (append_assoc3 k "}" (flatten toks)).
      change (String "{" ((k +:+ "}") +:+ flatten toks))
        with (String "{" (k +:+ "}") +:+ flatten toks).
      rewrite replace_from_match. cbn [token_text]. f_equal. now apply IH.
    + apply String.eqb_neq in Hkey. rewrite !hole_text.
      rewrite replace_from_other_hole by (try assumption; congruence).
      now rewrite IH.
Qed.

Lemma fill1_brace_free k v toks :
  brace_free (py_str v) = true ->
  forallb token_brace_free toks = true ->
  forallb token_brace_free (map (fill1 k v) toks) = true.
Proof.
  intros Hv. induction toks as [| t toks IH]; [reflexivity |].
  cbn. intros H. apply andb_true_iff in H as [Ht Htoks].
  rewrite IH by assumption. rewrite andb_true_r.
  destruct t as [text | key]; cbn; [assumption |].
  destruct (String.eqb key k); assumption.
Qed.

Lemma fill_fill1 k v kwargs t :
  fill kwargs (fill1 k v t) = fill ((k, v) :: kwargs) t.
Proof.
  destruct t as [text | key]; [reflexivity |].
  cbn. destruct (String.eqb key k); reflexivity.
Qed.

Lemma render_text_tokens kwargs :
  forall toks,
    kwargs_brace_free kwargs = true ->
    forallb token_brace_free toks = true ->
    render_text kwargs (flatten toks) = substitute_simultaneously kwargs toks.
Proof.
  unfold substitute_simultaneously.
  induction kwargs as [| [k v] kwargs IH]; intros toks Hkw Htoks.
  - cbn. f_equal. induction toks as [| t toks IHt]; [reflexivity |].
    cbn. rewrite <- IHt; [now destruct t |].
    cbn in Htoks. now apply andb_true_iff in Htoks as [_ ?].
  - cbn in Hkw. apply andb_true_iff in Hkw as [Hkv Hkw].
    apply andb_true_iff in Hkv as [Hk Hv].
    unfold render_text. cbn [fold_left fst snd].
    rewrite replace_flatten by assumption.
    fold (render_text kwargs (flatten (map (fill1 k v) toks))).
    rewrite IH by (try assumption; now apply fill1_brace_free).
    f_equal. rewrite map_map. apply map_ext. intros t. apply fill_fill1.
Qed.
(** ** TemplateRenderer.render *)

Section RenderFacts.
Context {S : Type}.
Variable configs : gmap string pyval.

Lemma render_loop_run kwargs :
  forall t (s : S),
    foldM render_step (PStr t) kwargs s
    = (Ok (PStr (render_text kwargs t)), s, []).
Proof.
  induction kwargs as [| kv kwargs IH]; intros t s; [reflexivity |].
  cbn [foldM]. unfold bind. cbn [render_step ret].
  rewrite IH. reflexivity.
Qed.

Lemma render_text_empty kwargs : render_text kwargs "" = "".
Proof. induction kwargs as [| kv kwargs IH]; [reflexivity | exact IH]. Qed.

Lemma get_template_run d template_name t (s : S) :
  configs !! "templates" = Some (PDict d) ->
  dict_lookup d template_name = Some (PStr t) ->
  get_s configs "templates" [template_name] (PStr "") s = (Ok (PStr t), s, []).
Proof.
  intros Hload Hfind. unfold get_s, get, try_except. rewrite Hload.
  cbn [map default from_option id is_none get_loop dict_get].
  unfold bind, lift_outcome. rewrite Hfind. reflexivity.
Qed.

(** C7, as the code has it: on a template string, [render] never raises
    and returns the text after the replacements of [{key}] by the value,
    made one after the other in the order the variables are supplied
    (an absent or empty template gives the empty text).  When the
    template is literal text and placeholders whose names, like the names
    and values supplied, hold no brace, this is the simultaneous
    substitution: a placeholder of a supplied variable becomes the value,
    every other placeholder and all other text stay as they are. *)
Theorem render_sequential_substitution (d : list (string * pyval))
    (template_name t : string) (kwargs : list (string * pyval)) (s : S) :
  configs !! "templates" = Some (PDict d) ->
  dict_lookup d template_name = Some (PStr t) ->
  result (render configs template_name kwargs) s
  = Ok (PStr (render_text kwargs t))
  /\ final (render configs template_name kwargs) s = s
  /\ (forall toks,
        t = flatten toks ->
        kwargs_brace_free kwargs = true ->
        forallb token_brace_free toks = true ->
        render_text kwargs t = substitute_simultaneously kwargs toks).
Proof.
  intros Hload Hfind.
  assert (Hrun : exists l,
             render configs template_name kwargs s
             = (Ok (PStr (render_text kwargs t)), s, l)).
  { unfold render.
    rewrite (bind_run_ok _ _ _ _ _ _ (get_template_run d _ t s Hload Hfind)).
    destruct t as [| c t'].
    - rewrite render_text_empty. eexists. reflexivity.
    - cbn [py_truthy String.eqb negb]. unfold result, final, logs.
      rewrite render_loop_run. eexists. reflexivity. }
  destruct Hrun as [l Hrun]. unfold result, final. rewrite Hrun.
  repeat split. intros toks -> Hkw Htoks. now apply render_text_tokens.
Qed.

End RenderFacts.

Lemma render_sequential_substitution_witness :
  (greeting_store !! "templates"
   = Some (PDict [("greeting", PStr "Hello {name}, {title}!");
                  ("nested", PStr "{a}")])
   /\ "Hello {name}, {title}!"
      = flatten [Lit "Hello "; Hole "name"; Lit ", "; Hole "title"; Lit "!"])
  /\ result (render (S := unit) greeting_store "greeting" [("name", PStr "Ann")])
       tt = Ok (PStr "Hello Ann, {title}!")
  /\ render_text [("name", PStr "Ann")] "Hello {name}, {title}!"
     = substitute_simultaneously [("name", PStr "Ann")]
         [Lit "Hello "; Hole "name"; Lit ", "; Hole "title"; Lit "!"].
Proof.
  split; [split; reflexivity |].
  destruct (render_sequential_substitution (S := unit) greeting_store
              [("greeting", PStr "Hello {name}, {title}!");
               ("nested", PStr "{a}")]
              "greeting" "Hello {name}, {title}!" [("name", PStr "Ann")] tt
              eq_refl eq_refl) as [Hres [_ Htok]].
  split; [exact Hres |].
  apply Htok; reflexivity.
Defined.

(** C7 as stated fails: a value that holds the placeholder of a later
    variable is itself expanded, where simultaneous substitution would
    leave it. *)
Lemma render_is_not_simultaneous :
  result (render (S := unit) greeting_store "nested"
            [("a", PStr "{b}"); ("b", PStr "X")]) tt = Ok (PStr "X")
  /\ substitute_simultaneously [("a", PStr "{b}"); ("b", PStr "X")] [Hole "a"]
     = "{b}"
  /\ result (render (S := unit) greeting_store "nested"
               [("a", PStr "{b}"); ("b", PStr "X")]) tt
     <> Ok (PStr (substitute_simultaneously
                    [("a", PStr "{b}"); ("b", PStr "X")] [Hole "a"])).
Proof.
  split; [reflexivity |]. split; [reflexivity |].
  vm_compute. congruence.
Qed.
(** ** Rules for triples *)

Section HoareRules.
Context {S : Type}.

Lemma bind_ok_inv {A B} (m : St S A) (k : A -> St S B) s b :
  result (bind m k) s = Ok b ->
  exists a, result m s = Ok a /\ result (k a) (final m s) = Ok b
            /\ final (bind m k) s = final (k a) (final m s).
Proof.
  unfold result, final, bind.
  destruct (m s) as [[[a | e] s1] l1]; cbn [fst snd]; [| discriminate].
  destruct (k a s1) as [[r s2] l2] eqn:Hk; cbn [fst snd]. intros ->.
  exists a. rewrite Hk. auto.
Qed.

Lemma hoare_ret {A} (P : S -> Prop) (a : A) (Q : A -> S -> Prop) :
  (forall s, P s -> Q a s) -> hoare P (ret a) Q.
Proof. intros H s Hs a' Ha. injection Ha as <-. now apply H. Qed.

Lemma hoare_raise {A} (P : S -> Prop) e (Q : A -> S -> Prop) :
  hoare P (raise e) Q.
Proof. intros s _ a Ha. discriminate. Qed.

Lemma hoare_bind {A B} (P : S -> Prop) (m : St S A) (R : A -> S -> Prop)
    (k : A -> St S B) (Q : B -> S -> Prop) :
  hoare P m R -> (forall a, hoare (R a) (k a) Q) -> hoare P (bind m k) Q.
Proof.
  intros Hm Hk s Hs b Hb.
  destruct (bind_ok_inv m k s b Hb) as [a [Ha [Hka Hfin]]].
  rewrite Hfin. apply (Hk a); [now apply Hm | exact Hka].
Qed.

Lemma hoare_conseq {A} (P P' : S -> Prop) (m : St S A)
    (Q Q' : A -> S -> Prop) :
  (forall s, P s -> P' s) -> hoare P' m Q' ->
  (forall a s, Q' a s -> Q a s) -> hoare P m Q.
Proof. intros HP Hm HQ s Hs a Ha. apply HQ, Hm; auto. Qed.

Lemma hoare_lift_outcome {A} (P : S -> Prop) (o : outcome A)
    (Q : A -> S -> Prop) :
  (forall a s, o = Ok a -> P s -> Q a s) -> hoare P (lift_outcome o) Q.
Proof. intros H s Hs a Ha. cbn in Ha. now apply H. Qed.

Lemma hoare_logger (P : S -> Prop) lvl msg :
  hoare P (logger lvl msg) (fun _ s => P s).
Proof. intros s Hs a _. exact Hs. Qed.

Lemma hoare_stateless {A} (P : S -> Prop) (m : St S A) :
  stateless m -> hoare P m (fun _ s => P s).
Proof. intros Hm s Hs a _. now rewrite Hm. Qed.

Lemma hoare_diverts {A} (P : S -> Prop) (m : St S A) (Q : A -> S -> Prop) :
  diverts m -> hoare P m Q.
Proof. intros Hm s _ a Ha. specialize (Hm s). now rewrite Ha in Hm. Qed.

Lemma hoare_and {A} (P : S -> Prop) (m : St S A) (Q1 Q2 : A -> S -> Prop) :
  hoare P m Q1 -> hoare P m Q2 -> hoare P m (fun a s => Q1 a s /\ Q2 a s).
Proof. intros H1 H2 s Hs a Ha. split; [apply H1 | apply H2]; auto. Qed.

Lemma stateless_ret {A} (a : A) : stateless (S := S) (ret a).
Proof. intros s. reflexivity. Qed.

Lemma stateless_raise {A} e : stateless (S := S) (A := A) (raise e).
Proof. intros s. reflexivity. Qed.

Lemma stateless_lift_outcome {A} (o : outcome A) :
  stateless (S := S) (lift_outcome o).
Proof. intros s. reflexivity. Qed.

Lemma stateless_logger lvl msg : stateless (S := S) (logger lvl msg).
Proof. intros s. reflexivity. Qed.

Lemma stateless_bind {A B} (m : St S A) (k : A -> St S B) :
  stateless m -> (forall a, stateless (k a)) -> stateless (bind m k).
Proof.
  intros Hm Hk s. specialize (Hm s). unfold final, bind in *.
  destruct (m s) as [[[a | e] s1] l1]; cbn [fst snd] in *; subst.
  - specialize (Hk a s). unfold final in Hk.
    now destruct (k a s) as [[r s2] l2].
  - reflexivity.
Qed.

Lemma stateless_get configs config_name keys dflt :
  stateless (S := S) (get configs config_name keys dflt).
Proof. intros s. apply get_final. Qed.

Lemma stateless_get_s configs config_name keys dflt :
  stateless (S := S) (get_s configs config_name keys dflt).
Proof. apply stateless_get. Qed.

Lemma get_s_run configs config_name keys dflt (s : S) :
  result (get_s configs config_name keys dflt) s
  = Ok (cfg_value configs config_name keys dflt).
Proof.
  unfold cfg_value, get_s, result. rewrite get_uniform. cbn [fst].
  destruct (get_ok (S := unit) configs config_name (map PStr keys) dflt tt)
    as [v Hv].
  unfold result in Hv. now rewrite Hv.
Qed.

(** A lookup returns the configured value and keeps the state. *)
Lemma hoare_get_s (P : S -> Prop) configs config_name keys dflt :
  hoare P (get_s configs config_name keys dflt)
    (fun v s => v = cfg_value configs config_name keys dflt /\ P s).
Proof.
  intros s Hs v Hv. rewrite get_s_run in Hv. injection Hv as <-.
  now rewrite stateless_get_s.
Qed.

Lemma repeatM_hoare {A} (I : S -> Prop) (body : St S A) (Pa : A -> Prop) n :
  hoare I body (fun a s => Pa a /\ I s) ->
  hoare I (repeatM n body)
    (fun l s => Forall Pa l /\ List.length l = n /\ I s).
Proof.
  intros Hbody. induction n as [| n IH].
  - apply hoare_ret. intros s Hs. repeat split; [constructor | exact Hs].
  - cbn [repeatM]. intros s Hs r Hr.
    apply bind_ok_inv in Hr as [a [Ha [Hr Hfin]]]. rewrite Hfin.
    destruct (Hbody s Hs a Ha) as [HPa HI].
    apply bind_ok_inv in Hr as [l [Hl [Hr Hfin']]]. rewrite Hfin'.
    destruct (IH _ HI l Hl) as [Hall [Hlen HI']].
    injection Hr as <-. cbn [final ret fst snd List.length].
    repeat split; [now constructor | now rewrite Hlen | exact HI'].
Qed.

Lemma mapM_length {A B} (f : A -> St S B) (xs : list A) :
  hoare (fun _ => True) (mapM f xs)
    (fun l _ => List.length l = List.length xs).
Proof.
  induction xs as [| x xs IH].
  - apply hoare_ret. reflexivity.
  - cbn [mapM]. intros s Hs r Hr.
    apply bind_ok_inv in Hr as [a [Ha [Hr Hfin]]].
    apply bind_ok_inv in Hr as [l [Hl [Hr Hfin']]].
    injection Hr as <-. cbn [List.length]. f_equal. exact (IH _ I l Hl).
Qed.

End HoareRules.
(** ** The log writer *)

Section LogWriter.
Context {RT : PyRuntime}.
Variable configs : gmap string pyval.

Lemma hoare_true {S A} (P : S -> Prop) (m : St S A) :
  hoare P m (fun _ _ => True).
Proof. intros s _ a _. exact I. Qed.

Lemma hoare_try_except {S A} (P : S -> Prop) (m : St S A)
    (h : exn -> St S A) (Q : A -> S -> Prop) :
  hoare P m Q -> (forall e, diverts (h e)) -> hoare P (try_except m h) Q.
Proof.
  intros Hm Hh s Hs a Ha. specialize (Hm s Hs a).
  unfold result, final, try_except in *.
  destruct (m s) as [[[a' | e] s1] l1]; cbn [fst snd] in *.
  - now apply Hm.
  - specialize (Hh e s1). unfold result in Hh.
    destruct (h e s1) as [[r s2] l2]. cbn [fst snd] in *.
    subst r. discriminate.
Qed.

Lemma diverts_log_raise {S A} lvl msg e :
  diverts (S := S) (A := A) (bind (logger lvl msg) (fun _ => raise e)).
Proof. intros s. reflexivity. Qed.

Ltac skip_binds :=
  repeat (eapply hoare_bind; [apply hoare_true | intros ?; cbv beta]).

(** A generated log lies in the directory named after the persona. *)
Lemma generate_atomic_log_returns_dir persona :
  hoare (fun _ => True) (generate_atomic_log configs persona)
    (fun d _ => d = atomic_log_dir persona).
Proof.
  unfold generate_atomic_log. cbv zeta.
  skip_binds.
  apply hoare_try_except; [| intros e; apply diverts_log_raise].
  skip_binds.
  apply hoare_ret. reflexivity.
Qed.

Lemma generate_atomic_log_dir persona w d w1 l :
  generate_atomic_log configs persona w = (Ok d, w1, l) ->
  d = atomic_log_dir persona.
Proof.
  intros Hrun.
  apply (generate_atomic_log_returns_dir persona w I d).
  unfold result. now rewrite Hrun.
Qed.

Lemma generate_one_run acc persona w :
  generate_one configs acc persona w
  = match generate_atomic_log configs persona w with
    | (Ok d, w1, l1) => (Ok (acc ++ [d]), w1, l1 ++ [])
    | (Raise e, w1, l1) =>
        (Ok acc, w1, l1 ++ [failure_record (persona_id persona, e)] ++ [])
    end.
Proof.
  unfold generate_one, try_except, bind.
  destruct (generate_atomic_log configs persona w) as [[[d | e] w1] l1];
    reflexivity.
Qed.

Lemma batch_loop_run personas :
  forall acc w,
    exists dirs fails w' l,
      foldM (generate_one configs) acc personas w = (Ok (acc ++ dirs), w', l)
      /\ batch_run configs w personas dirs fails w'
      /\ (List.length dirs + List.length fails = List.length personas)%nat
      /\ sublist dirs (map atomic_log_dir personas)
      /\ Forall (fun f => In (failure_record f) l) fails.
Proof.
  induction personas as [| p ps IH]; intros acc w.
  - exists [], [], w, []. cbn [foldM ret]. rewrite app_nil_r.
    repeat split; constructor.
  - cbn [foldM]. unfold bind. rewrite generate_one_run.
    destruct (generate_atomic_log configs p w) as [[[d | e] w1] l1] eqn:Hgen.
    + destruct (IH (acc ++ [d]) w1)
        as [dirs [fails [w' [l [Hrun [Hbatch [Hlen [Hsub Hlog]]]]]]]].
      exists (d :: dirs), fails, w', ((l1 ++ []) ++ l).
      rewrite Hrun, <- app_assoc. cbn [app]. repeat split.
      * econstructor; eassumption.
      * cbn [List.length]. lia.
      * cbn [map]. rewrite (generate_atomic_log_dir p w d w1 l1 Hgen).
        now constructor.
      * eapply List.Forall_impl; [| exact Hlog]. intros f Hf.
        apply in_or_app. now right.
    + destruct (IH acc w1)
        as [dirs [fails [w' [l [Hrun [Hbatch [Hlen [Hsub Hlog]]]]]]]].
      exists dirs, ((persona_id p, e) :: fails), w',
        ((l1 ++ [failure_record (persona_id p, e)] ++ []) ++ l).
      rewrite Hrun. repeat split.
      * econstructor; eassumption.
      * cbn [List.length]. lia.
      * cbn [map]. now constructor.
      * constructor.
        -- apply in_or_app. left. apply in_or_app. right. now left.
        -- eapply List.Forall_impl; [| exact Hlog]. intros f Hf.
           apply in_or_app. now right.
Qed.

(** C9: the batch loop never raises.  It processes the personas in roster
    order, each from the world the previous one left; a persona whose
    generation raises is logged as a failure and the loop goes on; the
    list returned holds exactly the directories of the personas whose
    generation succeeded, in roster order. *)
Theorem generate_all_atomic_logs_fail_soft (personas : list Persona)
    (w : World) :
  exists dirs fails w' l,
    generate_all_atomic_logs configs personas w = (Ok dirs, w', l)
    /\ batch_run configs w personas dirs fails w'
    /\ (List.length dirs + List.length fails = List.length personas)%nat
    /\ sublist dirs (map atomic_log_dir personas)
    /\ Forall (fun f => In (failure_record f) l) fails.
Proof.
  destruct (batch_loop_run personas [] w)
    as [dirs [fails [w' [l [Hrun [Hbatch [Hlen [Hsub Hlog]]]]]]]].
  exists dirs, fails, w'. eexists. split.
  { unfold generate_all_atomic_logs, bind, logger, ret.
    rewrite Hrun. cbn [app]. reflexivity. }
  repeat split; try assumption.
  eapply List.Forall_impl; [| exact Hlog]. intros f Hf. cbn beta.
  right. right. right. apply in_or_app. now left.
Qed.

End LogWriter.
(** ** Triples for the runtime *)

Section RuntimeFacts.
Context {RT : PyRuntime}.

Lemma hoare_pure_pre {S A} (phi : Prop) (P : S -> Prop) (m : St S A)
    (Q : A -> S -> Prop) :
  (phi -> hoare P m Q) -> hoare (fun s => phi /\ P s) m Q.
Proof. intros H s [Hphi Hs]. now apply H. Qed.

Lemma hoare_random_seed (P : Ent -> Prop) z :
  hoare P (random_seed z) (fun _ e => e_rng e = rng_seed z).
Proof. intros e _ a _. reflexivity. Qed.

(** [randint] returns the lower bound plus one draw below the width of
    the inclusive range. *)
Lemma hoare_randint r a b :
  hoare (fun e => e_rng e = r) (randint (PInt a) (PInt b))
    (fun n _ => n = a + fst (rng_randbelow (b - a + 1) r) /\ a <= n <= b).
Proof.
  intros e He n Hn. unfold randint, result, bind, lift_outcome in Hn.
  cbn [as_int fst snd] in Hn.
  destruct (b <? a) eqn:Hab; [discriminate |].
  apply Z.ltb_ge in Hab.
  unfold with_rng, ret in Hn. rewrite He in Hn.
  pose proof (rng_randbelow_range (b - a + 1) r ltac:(lia)) as Hrange.
  destruct (rng_randbelow (b - a + 1) r) as [x r'].
  cbn [fst snd] in *. injection Hn as <-. lia.
Qed.

Lemma hoare_randint_range (P : Ent -> Prop) a b :
  hoare P (randint (PInt a) (PInt b)) (fun n _ => a <= n <= b).
Proof.
  intros e _ n Hn.
  now destruct (hoare_randint (e_rng e) a b e eq_refl n Hn).
Qed.

(** [random.sample] returns as many items as asked for. *)
Lemma hoare_sample_length (P : Ent -> Prop) population k :
  hoare P (sample population k)
    (fun sel _ => List.length sel = Z.to_nat k).
Proof.
  intros e _ sel Hsel. unfold sample in Hsel.
  assert (Hcore :
    forall n, py_len population = Ok n ->
      result
        (if (k <? 0) || (n <? k) then raise ValueError
         else bind (with_rng (rng_sample n k))
                (fun picked =>
                   mapM (fun i => lift_outcome (getitem_int population i))
                     picked)) e = Ok sel ->
      List.length sel = Z.to_nat k).
  { intros n Hlen Hrun.
    destruct ((k <? 0) || (n <? k)) eqn:Hk; [discriminate |].
    apply orb_false_iff in Hk as [Hk0 Hkn].
    apply Z.ltb_ge in Hk0, Hkn.
    apply bind_ok_inv in Hrun as [picked [Hp [Hrun _]]].
    unfold result, with_rng in Hp.
    pose proof (rng_sample_spec n k (e_rng e) ltac:(lia)) as [Hl _].
    destruct (rng_sample n k (e_rng e)) as [idx r'].
    cbn [fst] in *. injection Hp as <-.
    rewrite <- Hl. exact (mapM_length _ idx _ I sel Hrun). }
  destruct population; try discriminate.
  - apply bind_ok_inv in Hsel as [n [Hn [Hrun _]]].
    cbn in Hn. injection Hn as <-. now apply (Hcore _ eq_refl).
  - apply bind_ok_inv in Hsel as [n [Hn [Hrun _]]].
    cbn in Hn. injection Hn as <-. now apply (Hcore _ eq_refl).
Qed.

End RuntimeFacts.
(** ** Record counts *)

Section Counts.
Context {RT : PyRuntime}.
Variable configs : gmap string pyval.

Lemma stateless_get_sites persona :
  stateless (S := Ent) (_get_sites_for_persona configs persona).
Proof.
  unfold _get_sites_for_persona.
  repeat (apply stateless_bind; [apply stateless_get_s | intros ?]).
  apply stateless_lift_outcome.
Qed.

(** The number of password records is the configured lower bound plus the
    first draw after seeding. *)
Lemma password_records_count persona a b :
  cfg_value configs "main" ["generator_settings"; "min_passwords"] PNone
  = PInt a ->
  cfg_value configs "main" ["generator_settings"; "max_passwords"] PNone
  = PInt b ->
  hoare (fun _ => True) (password_records configs persona)
    (fun records _ =>
       exists n,
         n = a + fst (rng_randbelow (b - a + 1)
                        (rng_seed (get_persona_seed (persona_id persona)
                                     "passwords")))
         /\ a <= n <= b
         /\ List.length records = Z.to_nat n).
Proof.
  intros Hmin Hmax. unfold password_records.
  eapply hoare_bind; [apply hoare_random_seed | intros ?; cbv beta].
  eapply hoare_bind; [apply hoare_stateless, stateless_get_sites |].
  intros all_sites; cbv beta.
  eapply hoare_bind; [apply hoare_stateless, stateless_get_s |].
  intros available; cbv beta.
  eapply hoare_bind; [apply hoare_get_s | intros lo; cbv beta].
  apply hoare_pure_pre. intros Hlo. rewrite Hlo, Hmin. clear Hlo.
  eapply hoare_bind; [apply hoare_get_s | intros hi; cbv beta].
  apply hoare_pure_pre. intros Hhi. rewrite Hhi, Hmax. clear Hhi.
  eapply hoare_bind; [apply hoare_randint | intros n; cbv beta].
  intros e [Hn Hrange] records Hrecords.
  exists n. split; [exact Hn |]. split; [exact Hrange |].
  pose proof (repeatM_hoare (fun _ => True) (password_record configs persona
                all_sites available) (fun _ => True) (Z.to_nat n)) as Hrep.
  destruct (Hrep (hoare_conseq _ _ _ _ _ (fun _ H => H)
                    (hoare_true _ _) (fun _ _ _ => conj I I))
              e I records Hrecords) as [_ [Hlen _]].
  exact Hlen.
Qed.

(** The number of cookie lines for a browser is the configured lower
    bound plus the next draw. *)
Lemma cookies_count r a b :
  cfg_value configs "main" ["generator_settings"; "min_cookies"] (PInt 5)
  = PInt a ->
  cfg_value configs "main" ["generator_settings"; "max_cookies"] (PInt 12)
  = PInt b ->
  hoare (fun e => e_rng e = r) (_generate_cookies_for_browser configs)
    (fun cookies _ =>
       exists n,
         n = a + fst (rng_randbelow (b - a + 1) r)
         /\ a <= n <= b
         /\ List.length cookies = Z.to_nat n).
Proof.
  intros Hmin Hmax. unfold _generate_cookies_for_browser.
  eapply hoare_bind; [apply hoare_get_s | intros lo; cbv beta].
  apply hoare_pure_pre. intros Hlo. rewrite Hlo, Hmin. clear Hlo.
  eapply hoare_bind; [apply hoare_get_s | intros hi; cbv beta].
  apply hoare_pure_pre. intros Hhi. rewrite Hhi, Hmax. clear Hhi.
  eapply hoare_bind; [apply hoare_randint | intros n; cbv beta].
  eapply hoare_bind; [apply hoare_stateless, stateless_get_s |].
  intros domains; cbv beta.
  eapply hoare_bind; [apply hoare_stateless, stateless_get_s |].
  intros names; cbv beta.
  intros e [Hn Hrange] cookies Hcookies.
  exists n. split; [exact Hn |]. split; [exact Hrange |].
  pose proof (repeatM_hoare (fun _ => True) (cookie_line configs domains names)
                (fun _ => True) (Z.to_nat n)) as Hrep.
  destruct (Hrep (hoare_conseq _ _ _ _ _ (fun _ H => H)
                    (hoare_true _ _) (fun _ _ _ => conj I I))
              e I cookies Hcookies) as [_ [Hlen _]].
  exact Hlen.
Qed.

(** The number of Google tokens is the configured lower bound plus the
    first draw after seeding. *)
Lemma google_tokens_count persona a b :
  cfg_value configs "main" ["generator_settings"; "min_google_tokens"] PNone
  = PInt a ->
  cfg_value configs "main" ["generator_settings"; "max_google_tokens"] PNone
  = PInt b ->
  hoare (fun _ => True) (google_tokens configs persona)
    (fun tokens _ =>
       exists n,
         n = a + fst (rng_randbelow (b - a + 1)
                        (rng_seed (get_persona_seed (persona_id persona)
                                     "tokens")))
         /\ a <= n <= b
         /\ List.length tokens = Z.to_nat n).
Proof.
  intros Hmin Hmax. unfold google_tokens.
  eapply hoare_bind; [apply hoare_random_seed | intros ?; cbv beta].
  eapply hoare_bind; [apply hoare_get_s | intros lo; cbv beta].
  apply hoare_pure_pre. intros Hlo. rewrite Hlo, Hmin. clear Hlo.
  eapply hoare_bind; [apply hoare_get_s | intros hi; cbv beta].
  apply hoare_pure_pre. intros Hhi. rewrite Hhi, Hmax. clear Hhi.
  eapply hoare_bind; [apply hoare_randint | intros n; cbv beta].
  eapply hoare_bind; [apply hoare_stateless, stateless_get_s |].
  intros token_config; cbv beta.
  intros e [Hn Hrange] tokens Htokens.
  exists n. split; [exact Hn |]. split; [exact Hrange |].
  match type of Htokens with
  | result (repeatM _ ?body) _ = _ =>
      pose proof (repeatM_hoare (fun _ => True) body (fun _ => True)
                    (Z.to_nat n)) as Hrep
  end.
  destruct (Hrep (hoare_conseq _ _ _ _ _ (fun _ H => H)
                    (hoare_true _ _) (fun _ _ _ => conj I I))
              e I tokens Htokens) as [_ [Hlen _]].
  exact Hlen.
Qed.

Lemma foldM_grows {A B} (f : B -> A -> G B) (size : B -> nat) xs :
  (forall acc x,
     hoare (fun _ => True) (f acc x) (fun acc' _ => size acc' = S (size acc))) ->
  forall acc,
    hoare (fun _ => True) (foldM f acc xs)
      (fun r _ => size r = (size acc + List.length xs)%nat).
Proof.
  intros Hf. induction xs as [| x xs IH]; intros acc.
  - apply hoare_ret. intros _ _. cbn [List.length]. lia.
  - cbn [foldM]. intros e _ r Hr.
    apply bind_ok_inv in Hr as [acc' [Hacc [Hr _]]].
    pose proof (Hf acc x e I acc' Hacc) as Hsize.
    pose proof (IH acc' _ I r Hr) as Hrest.
    cbn beta in *. cbn [List.length]. lia.
Qed.

(** The keychain holds the macOS password and one entry per selected
    service: as many as drawn from the configured range, but no more than
    there are services. *)
Lemma keychain_count persona a b services n :
  cfg_value configs "main" ["generator_settings"; "min_keychain_entries"]
    PNone = PInt a ->
  cfg_value configs "main" ["generator_settings"; "max_keychain_entries"]
    PNone = PInt b ->
  cfg_value configs "keychain" ["services"] PNone = services ->
  py_len services = Ok n ->
  hoare (fun _ => True) (keychain_trace configs persona)
    (fun r _ =>
       exists num,
         a <= num <= b
         /\ List.length (snd r) = S (Z.to_nat (Z.min num n))).
Proof.
  intros Hmin Hmax Hservices Hlen. unfold keychain_trace.
  eapply hoare_bind; [apply hoare_true | intros ?; cbv beta].
  eapply hoare_bind; [apply hoare_true | intros passwords; cbv beta].
  eapply hoare_bind; [apply hoare_true | intros macos; cbv beta].
  cbv zeta.
  eapply hoare_bind; [apply hoare_get_s | intros lo; cbv beta].
  apply hoare_pure_pre. intros Hlo. rewrite Hlo, Hmin. clear Hlo.
  eapply hoare_bind; [apply hoare_get_s | intros hi; cbv beta].
  apply hoare_pure_pre. intros Hhi. rewrite Hhi, Hmax. clear Hhi.
  eapply hoare_bind; [apply hoare_randint_range | intros num; cbv beta].
  eapply hoare_bind; [apply hoare_get_s | intros sv; cbv beta].
  apply hoare_pure_pre. intros Hsv. rewrite Hsv, Hservices. clear Hsv.
  eapply hoare_bind.
  { apply (hoare_lift_outcome _ _ (fun m _ => m = n /\ a <= num <= b)).
    intros m _ Hm Hnum. split; [congruence | exact Hnum]. }
  intros m; cbv beta. intros e [-> Hnum] r Hr.
  apply bind_ok_inv in Hr as [sel [Hsel [Hr _]]].
  pose proof (hoare_sample_length (fun _ => True) services (Z.min num n)
                e I sel Hsel) as Hsel_len.
  exists num. split; [exact Hnum |].
  pose proof (foldM_grows
                (fun acc service =>
                   bind (_generate_keychain_entry configs persona service)
                     (fun ep =>
                        match fst ep with
                        | PStr entry =>
                            ret (fst acc +:+ entry, snd acc ++ [snd ep])
                        | _ => raise TypeError
                        end))
                (fun acc => List.length (snd acc)) sel) as Hgrow.
  cbv beta in Hgrow.
  assert (Hstep : forall acc x,
            hoare (fun _ : Ent => True)
              (bind (_generate_keychain_entry configs persona x)
                 (fun ep =>
                    match fst ep with
                    | PStr entry =>
                        ret (fst acc +:+ entry, snd acc ++ [snd ep])
                    | _ => raise TypeError
                    end))
              (fun acc' _ =>
                 List.length (snd acc') = S (List.length (snd acc)))).
  { intros acc x e' _ acc' Hacc'.
    apply bind_ok_inv in Hacc' as [ep [_ [Hacc' _]]].
    destruct (fst ep); try discriminate.
    injection Hacc' as <-. cbn [snd]. rewrite length_app. cbn. lia. }
  rewrite (Hgrow Hstep _ _ I r Hr). cbv beta in Hsel_len.
  cbn [snd List.length]. lia.
Qed.

End Counts.
(** ** Computations that never read the clock *)

Section ClockBlind.
Context {RT : PyRuntime}.

Lemma blind_ret {A} (a : A) : clock_blind (ret a).
Proof. intros e1 e2 H. repeat split; exact H. Qed.

Lemma blind_raise {A} e : clock_blind (A := A) (raise e).
Proof. intros e1 e2 H. repeat split; exact H. Qed.

Lemma blind_lift_outcome {A} (o : outcome A) : clock_blind (lift_outcome o).
Proof. intros e1 e2 H. repeat split; exact H. Qed.

Lemma blind_logger lvl msg : clock_blind (logger lvl msg).
Proof. intros e1 e2 H. repeat split; exact H. Qed.

Lemma blind_get configs config_name keys dflt :
  clock_blind (get configs config_name keys dflt).
Proof.
  intros e1 e2 H. unfold result, logs, final.
  rewrite (get_uniform configs config_name keys dflt e1),
    (get_uniform configs config_name keys dflt e2).
  repeat split; exact H.
Qed.

Lemma blind_get_s configs config_name keys dflt :
  clock_blind (get_s configs config_name keys dflt).
Proof. apply blind_get. Qed.

Lemma blind_with_rng {A} (f : rng -> A * rng) : clock_blind (with_rng f).
Proof.
  intros e1 e2 H. unfold result, logs, final, with_rng. rewrite H.
  destruct (f (e_rng e2)) as [a r]. repeat split.
Qed.

Lemma blind_random_seed z : clock_blind (random_seed z).
Proof. intros e1 e2 H. repeat split. Qed.

Lemma blind_bind {A B} (m : G A) (k : A -> G B) :
  clock_blind m -> (forall a, clock_blind (k a)) -> clock_blind (bind m k).
Proof.
  intros Hm Hk e1 e2 H. destruct (Hm e1 e2 H) as [Hr [Hl Hf]].
  unfold result, logs, final, bind in *.
  destruct (m e1) as [[r1 s1] l1], (m e2) as [[r2 s2] l2].
  cbn [fst snd] in *. subst r2 l2.
  destruct r1 as [a | e]; [| repeat split; assumption].
  destruct (Hk a s1 s2 Hf) as [Hr' [Hl' Hf']].
  unfold result, logs, final in *.
  destruct (k a s1) as [[r1' s1'] l1'], (k a s2) as [[r2' s2'] l2'].
  cbn [fst snd] in *. subst. repeat split; assumption.
Qed.

Lemma blind_repeatM {A} n (body : G A) :
  clock_blind body -> clock_blind (repeatM n body).
Proof.
  intros Hbody. induction n as [| n IH]; cbn [repeatM].
  - apply blind_ret.
  - apply blind_bind; [exact Hbody | intros a].
    apply blind_bind; [exact IH | intros l]. apply blind_ret.
Qed.

Lemma blind_mapM {A B} (f : A -> G B) xs :
  (forall x, clock_blind (f x)) -> clock_blind (mapM f xs).
Proof.
  intros Hf. induction xs as [| x xs IH]; cbn [mapM].
  - apply blind_ret.
  - apply blind_bind; [apply Hf | intros a].
    apply blind_bind; [exact IH | intros l]. apply blind_ret.
Qed.

Lemma blind_foldM {A B} (f : B -> A -> G B) xs :
  (forall acc x, clock_blind (f acc x)) ->
  forall acc, clock_blind (foldM f acc xs).
Proof.
  intros Hf. induction xs as [| x xs IH]; intros acc; cbn [foldM].
  - apply blind_ret.
  - apply blind_bind; [apply Hf | intros acc']. apply IH.
Qed.

End ClockBlind.

Create HintDb blind.

#[local] Hint Resolve blind_ret blind_raise blind_lift_outcome blind_logger
  blind_get blind_get_s blind_with_rng blind_random_seed : blind.

(** Walks a computation by its syntax. *)
Ltac blind :=
  lazymatch goal with
  | |- clock_blind (bind _ _) => apply blind_bind; [blind | intros ?; blind]
  | |- clock_blind (repeatM _ _) => apply blind_repeatM; blind
  | |- clock_blind (mapM _ _) => apply blind_mapM; intros ?; blind
  | |- clock_blind (foldM _ _ _) => apply blind_foldM; intros ? ?; blind
  | |- clock_blind (match ?x with _ => _ end) => destruct x; blind
  | |- _ => solve [auto with blind]
  end.

Section ClockBlindGenerators.
Context {RT : PyRuntime}.
Variable configs : gmap string pyval.

Lemma blind_randint a b : clock_blind (randint a b).
Proof. unfold randint. blind. Qed.

Lemma blind_choice seq : clock_blind (choice seq).
Proof. unfold choice. blind. Qed.

Lemma blind_choices population k : clock_blind (choices population k).
Proof. unfold choices. blind. Qed.

Lemma blind_choices_weighted1 population weights :
  clock_blind (choices_weighted1 population weights).
Proof. unfold choices_weighted1. cbv zeta. blind. Qed.

Lemma blind_render template_name kwargs :
  clock_blind (render configs template_name kwargs).
Proof. unfold render, render_step. blind. Qed.

End ClockBlindGenerators.

#[local] Hint Resolve blind_randint blind_choice blind_choices
  blind_choices_weighted1 blind_render : blind.

Section ClockBlindAtomic.
Context {RT : PyRuntime}.
Variable configs : gmap string pyval.

Lemma blind_password_records persona :
  clock_blind (password_records configs persona).
Proof.
  unfold password_records, password_record, _get_sites_for_persona,
    _get_passwords_for_habit, _generate_login, _select_password.
  blind.
Qed.

Lemma blind_google_tokens persona :
  clock_blind (google_tokens configs persona).
Proof. unfold google_tokens, join_values, item. blind. Qed.

Lemma blind_hardware persona :
  clock_blind (HardwareGenerator_generate configs persona).
Proof.
  unfold HardwareGenerator_generate, _generate_serial_number,
    _generate_hardware_uuid, join_values, item.
  blind.
Qed.

#[local] Hint Resolve blind_hardware : blind.

Lemma blind_user_info persona :
  clock_blind (UserInfoGenerator_generate configs persona).
Proof.
  unfold UserInfoGenerator_generate, _generate_ip_address, _get_os_info, item.
  blind.
Qed.

Lemma blind_autofill persona :
  clock_blind (AutofillGenerator_generate configs persona).
Proof.
  unfold AutofillGenerator_generate, _get_field_value, _generate_phone_number,
    _generate_address, join_values, item.
  cbv zeta. blind.
Qed.

End ClockBlindAtomic.
(** ** What the generated content depends on *)

Section Purity.
Context {RT : PyRuntime}.
Variable configs : gmap string pyval.

(** After [random.seed], only the clock of the prior state matters. *)
Lemma seeded_run_same {A} z (k : unit -> G A) (e1 e2 : Ent) :
  same_clock e1 e2 ->
  bind (random_seed z) k e1 = bind (random_seed z) k e2.
Proof.
  intros [Hclock Hticks]. unfold bind, random_seed.
  now rewrite Hclock, Hticks.
Qed.

Lemma bind_same {A B} (m : G A) (k : A -> G B) (e1 e2 : Ent) :
  m e1 = m e2 -> bind m k e1 = bind m k e2.
Proof. intros Hm. unfold bind. now rewrite Hm. Qed.

(** A generator that seeds first and never reads the clock gives the same
    result and log records from any two states. *)
Lemma reseed_invariant {A} (g : G A) z (e1 e2 : Ent) :
  (forall e, g e = g (mkEnt (rng_seed z) (e_clock e) (e_ticks e))) ->
  clock_blind g ->
  result g e1 = result g e2 /\ logs g e1 = logs g e2.
Proof.
  intros Hseed Hblind. unfold result, logs.
  rewrite (Hseed e1), (Hseed e2).
  destruct (Hblind (mkEnt (rng_seed z) (e_clock e1) (e_ticks e1))
              (mkEnt (rng_seed z) (e_clock e2) (e_ticks e2)) eq_refl)
    as [Hr [Hl _]].
  split; assumption.
Qed.

Lemma blind_password_generator persona :
  clock_blind (PasswordGenerator_generate configs persona).
Proof.
  unfold PasswordGenerator_generate.
  apply blind_bind; [apply blind_password_records | intros ?; apply blind_ret].
Qed.

Lemma blind_token_generator persona :
  clock_blind (GoogleTokenGenerator_generate configs persona).
Proof.
  unfold GoogleTokenGenerator_generate.
  apply blind_bind; [apply blind_google_tokens | intros ?; apply blind_ret].
Qed.

(** C2, as the code has it: every generator of the Atomic log starts by
    seeding from the persona, so two runs with the same persona, the same
    configuration and the same clock produce the same content, the same
    log records and the same final state, whatever the state of the
    random generator was before and whatever ran before.  The user
    information, the passwords, the autofills and the Google tokens never
    read the clock: their content is the same from any two states.  For
    the cookies and the keychain the clock stays an input. *)
Theorem atomic_content_determined_by_persona_config_clock
    (persona : Persona) (e1 e2 : Ent) :
  (same_clock e1 e2 ->
   UserInfoGenerator_generate configs persona e1
   = UserInfoGenerator_generate configs persona e2
   /\ PasswordGenerator_generate configs persona e1
      = PasswordGenerator_generate configs persona e2
   /\ CookieGenerator_generate configs persona e1
      = CookieGenerator_generate configs persona e2
   /\ AutofillGenerator_generate configs persona e1
      = AutofillGenerator_generate configs persona e2
   /\ KeychainGenerator_generate configs persona e1
      = KeychainGenerator_generate configs persona e2
   /\ GoogleTokenGenerator_generate configs persona e1
      = GoogleTokenGenerator_generate configs persona e2)
  /\ result (UserInfoGenerator_generate configs persona) e1
     = result (UserInfoGenerator_generate configs persona) e2
  /\ result (PasswordGenerator_generate configs persona) e1
     = result (PasswordGenerator_generate configs persona) e2
  /\ result (AutofillGenerator_generate configs persona) e1
     = result (AutofillGenerator_generate configs persona) e2
  /\ result (GoogleTokenGenerator_generate configs persona) e1
     = result (GoogleTokenGenerator_generate configs persona) e2.
Proof.
  split; [intros Hclock; repeat split | repeat split].
  - now apply seeded_run_same.
  - apply bind_same. now apply seeded_run_same.
  - now apply seeded_run_same.
  - now apply seeded_run_same.
  - apply bind_same. now apply seeded_run_same.
  - apply bind_same. now apply seeded_run_same.
  - apply (reseed_invariant _
             (get_persona_seed (persona_id persona) "userinfo"));
      [reflexivity | apply blind_user_info].
  - apply (reseed_invariant _
             (get_persona_seed (persona_id persona) "passwords"));
      [reflexivity | apply blind_password_generator].
  - apply (reseed_invariant _
             (get_persona_seed (persona_id persona) "autofills"));
      [reflexivity | apply blind_autofill].
  - apply (reseed_invariant _
             (get_persona_seed (persona_id persona) "tokens"));
      [reflexivity | apply blind_token_generator].
Qed.

End Purity.

Lemma atomic_content_determined_by_persona_config_clock_witness :
  same_clock (ent_rng 7) (ent_rng 12345)
  /\ result (CookieGenerator_generate (RT := Lcg.runtime) atomic_store alice)
       (ent_rng 7)
     = result (CookieGenerator_generate (RT := Lcg.runtime) atomic_store alice)
         (ent_rng 12345).
Proof.
  assert (Hclock : same_clock (ent_rng 7) (ent_rng 12345))
    by (split; reflexivity).
  split; [exact Hclock |].
  destruct (atomic_content_determined_by_persona_config_clock
              (RT := Lcg.runtime) atomic_store alice (ent_rng 7)
              (ent_rng 12345)) as [Hsame _].
  destruct (Hsame Hclock) as [_ [_ [Hcookies _]]].
  unfold result. now rewrite Hcookies.
Defined.

(** C2 as stated fails: with persona and configuration fixed, the cookie
    file follows the clock, and Lumma's [Debug.txt] follows the state the
    random generator was left in. *)
Lemma content_depends_on_clock_and_prior_state :
  result (CookieGenerator_generate (RT := Lcg.runtime) atomic_store alice)
    (ent_clock 1700000000000000)
  <> result (CookieGenerator_generate (RT := Lcg.runtime) atomic_store alice)
       (ent_clock 1800000000000000)
  /\ result (Lumma.generate_debug_txt (RT := Lcg.runtime) atomic_store)
       (ent_rng 7)
     <> result (Lumma.generate_debug_txt (RT := Lcg.runtime) atomic_store)
          (ent_rng 8).
Proof. split; vm_compute; congruence. Qed.
(** ** The reuse habit *)

Section ReuseHabit.
Context {RT : PyRuntime}.
Variable configs : gmap string pyval.

(** With the reuse habit, a password record carries item 0 of the pool. *)
Lemma password_record_reuse persona all_sites available :
  password_habits persona = "Reuses_Passwords" ->
  hoare (fun _ => True) (password_record configs persona all_sites available)
    (fun r _ => getitem_int available 0 = Ok (snd r) /\ True).
Proof.
  intros Hhabit. unfold password_record.
  eapply hoare_bind; [apply hoare_true | intros site; cbv beta].
  eapply hoare_bind; [apply hoare_true | intros login; cbv beta].
  unfold _select_password. rewrite Hhabit. cbn [String.eqb Ascii.eqb].
  change (String.eqb "Reuses_Passwords" "Reuses_Passwords") with true.
  cbv iota.
  eapply hoare_bind.
  - apply (hoare_lift_outcome _ _
             (fun pw _ => getitem_int available 0 = Ok pw)).
    intros pw _ Hpw _. exact Hpw.
  - intros pw. cbv beta. apply hoare_ret. intros _ Hpw. now split.
Qed.

Lemma password_records_reuse persona :
  password_habits persona = "Reuses_Passwords" ->
  hoare (fun _ => True) (password_records configs persona)
    (fun records _ =>
       Forall
         (fun r =>
            getitem_int
              (cfg_value configs "passwords" ["Reuses_Passwords"]
                 (PList [PStr "DefaultPass123!"])) 0 = Ok (snd r))
         records).
Proof.
  intros Hhabit. unfold password_records.
  eapply hoare_bind; [apply hoare_true | intros ?; cbv beta].
  eapply hoare_bind; [apply hoare_true | intros all_sites; cbv beta].
  eapply hoare_bind.
  { unfold _get_passwords_for_habit. rewrite Hhabit. apply hoare_get_s. }
  intros available. cbv beta. apply hoare_pure_pre. intros Hpool.
  rewrite Hpool. clear Hpool available.
  eapply hoare_bind; [apply hoare_true | intros lo; cbv beta].
  eapply hoare_bind; [apply hoare_true | intros hi; cbv beta].
  eapply hoare_bind; [apply hoare_true | intros n; cbv beta].
  eapply hoare_conseq;
    [ | apply (repeatM_hoare (fun _ => True)),
          (password_record_reuse persona all_sites _ Hhabit) | ].
  - intros s _. exact I.
  - intros l s [H _]. exact H.
Qed.

(** C3, as the code has it: for a persona with the reuse habit, every
    record of [Passwords.txt] carries one and the same password, item 0 of
    the pool configured for the habit. *)
Theorem reuse_habit_first_password (persona : Persona) (e : Ent)
    (records : list (pyval * string * pyval)) :
  password_habits persona = "Reuses_Passwords" ->
  result (password_records configs persona) e = Ok records ->
  let pool :=
    cfg_value configs "passwords" ["Reuses_Passwords"]
      (PList [PStr "DefaultPass123!"]) in
  Forall (fun r => getitem_int pool 0 = Ok (snd r)) records
  /\ (forall r1 r2, In r1 records -> In r2 records -> snd r1 = snd r2)
  /\ result (PasswordGenerator_generate configs persona) e
     = Ok (join newline (map password_entry records)).
Proof.
  intros Hhabit Hrun pool.
  pose proof (password_records_reuse persona Hhabit e I records Hrun) as Hall.
  cbv beta in Hall. fold pool in Hall.
  split; [exact Hall |]. split.
  - intros r1 r2 H1 H2. rewrite List.Forall_forall in Hall.
    pose proof (Hall r1 H1) as E1. pose proof (Hall r2 H2) as E2.
    congruence.
  - unfold PasswordGenerator_generate. unfold result, bind in *.
    destruct (password_records configs persona e) as [[r s1] l1].
    cbn [fst] in Hrun. subst r. reflexivity.
Qed.

End ReuseHabit.

Lemma reuse_habit_first_password_witness :
  (password_habits alice = "Reuses_Passwords"
   /\ result (password_records (RT := Lcg.runtime) atomic_store alice) ent0
      = Ok [(PStr "https://a.example", "alice105", PStr "Secret1!");
            (PStr "https://a.example", "alice@example.fake", PStr "Secret1!")])
  /\ Forall (fun r => getitem_int (PList [PStr "Secret1!"; PStr "Secret2!"]) 0
                      = Ok (snd r))
       [(PStr "https://a.example", "alice105", PStr "Secret1!");
        (PStr "https://a.example", "alice@example.fake", PStr "Secret1!")].
Proof.
  assert (Hrun :
    result (password_records (RT := Lcg.runtime) atomic_store alice) ent0
    = Ok [(PStr "https://a.example", "alice105", PStr "Secret1!");
          (PStr "https://a.example", "alice@example.fake", PStr "Secret1!")])
    by (vm_compute; reflexivity).
  split; [split; [reflexivity | exact Hrun] |].
  exact (proj1 (reuse_habit_first_password (RT := Lcg.runtime) atomic_store
                  alice ent0 _ eq_refl Hrun)).
Defined.

(** C3 as stated fails: the keychain of the same persona holds a password
    that is not the first element of the pool, the one its entry draws
    from a character set. *)
Lemma keychain_password_not_from_pool :
  password_habits alice = "Reuses_Passwords"
  /\ cfg_value atomic_store "passwords" ["Reuses_Passwords"]
       (PList [PStr "DefaultPass123!"])
     = PList [PStr "Secret1!"; PStr "Secret2!"]
  /\ exists content,
       result (keychain_trace (RT := Lcg.runtime) atomic_store alice) ent0
       = Ok (content, [PStr "Secret1!"; PStr "xxx"])
       /\ PStr "xxx" <> PStr "Secret1!".
Proof.
  split; [reflexivity |]. split; [vm_compute; reflexivity |].
  eexists. split; [vm_compute; reflexivity | congruence].
Qed.
(** ** Record counts against the configured ranges *)

Section CountRanges.
Context {RT : PyRuntime}.
Variable configs : gmap string pyval.

Lemma keychain_entries_length (r : string * list pyval) k :
  List.length (snd r) = S k -> List.length (keychain_entry_passwords r) = k.
Proof.
  unfold keychain_entry_passwords. destruct (snd r); cbn; congruence.
Qed.

(** C6, as the code has it: with the range [{min: a, max: b}] configured
    and [0 <= a], the number of password records and the number of cookie
    lines of a browser file are [a] plus one draw below [b - a + 1]: always
    within [[a, b]], and equal to [a] or to [b] exactly when the draw is
    [0] or [b - a]; the number of Google tokens likewise.  The number of
    keychain entries is that of the range
    cut down to the number of configured services. *)
Theorem record_counts_follow_ranges (persona : Persona) (e : Ent) (a b : Z) :
  0 <= a ->
  (forall records,
     cfg_value configs "main" ["generator_settings"; "min_passwords"] PNone
     = PInt a ->
     cfg_value configs "main" ["generator_settings"; "max_passwords"] PNone
     = PInt b ->
     result (password_records configs persona) e = Ok records ->
     let n := a + fst (rng_randbelow (b - a + 1)
                         (rng_seed (get_persona_seed (persona_id persona)
                                      "passwords"))) in
     Z.of_nat (List.length records) = n /\ a <= n <= b)
  /\ (forall cookies,
        cfg_value configs "main" ["generator_settings"; "min_cookies"]
          (PInt 5) = PInt a ->
        cfg_value configs "main" ["generator_settings"; "max_cookies"]
          (PInt 12) = PInt b ->
        result (_generate_cookies_for_browser configs) e = Ok cookies ->
        let n := a + fst (rng_randbelow (b - a + 1) (e_rng e)) in
        Z.of_nat (List.length cookies) = n /\ a <= n <= b)
  /\ (forall tokens,
        cfg_value configs "main" ["generator_settings"; "min_google_tokens"]
          PNone = PInt a ->
        cfg_value configs "main" ["generator_settings"; "max_google_tokens"]
          PNone = PInt b ->
        result (google_tokens configs persona) e = Ok tokens ->
        let n := a + fst (rng_randbelow (b - a + 1)
                            (rng_seed (get_persona_seed (persona_id persona)
                                         "tokens"))) in
        Z.of_nat (List.length tokens) = n /\ a <= n <= b)
  /\ (forall services len r,
        cfg_value configs "main"
          ["generator_settings"; "min_keychain_entries"] PNone = PInt a ->
        cfg_value configs "main"
          ["generator_settings"; "max_keychain_entries"] PNone = PInt b ->
        cfg_value configs "keychain" ["services"] PNone = services ->
        py_len services = Ok len ->
        result (keychain_trace configs persona) e = Ok r ->
        exists n,
          a <= n <= b
          /\ Z.of_nat (List.length (keychain_entry_passwords r))
             = Z.min n len).
Proof.
  intros Ha. split; [| split; [| split]].
  - intros records Hmin Hmax Hrun n.
    destruct (password_records_count configs persona a b Hmin Hmax e I
                records Hrun) as [n' [Hn [Hrange Hlen]]].
    fold n in Hn. subst n'. rewrite Hlen. split; [lia | exact Hrange].
  - intros cookies Hmin Hmax Hrun n.
    destruct (cookies_count configs (e_rng e) a b Hmin Hmax e eq_refl
                cookies Hrun) as [n' [Hn [Hrange Hlen]]].
    fold n in Hn. subst n'. rewrite Hlen. split; [lia | exact Hrange].
  - intros tokens Hmin Hmax Hrun n.
    destruct (google_tokens_count configs persona a b Hmin Hmax e I
                tokens Hrun) as [n' [Hn [Hrange Hlen]]].
    fold n in Hn. subst n'. rewrite Hlen. split; [lia | exact Hrange].
  - intros services len r Hmin Hmax Hservices Hlen Hrun.
    destruct (keychain_count configs persona a b services len Hmin Hmax
                Hservices Hlen e I r Hrun) as [n [Hrange Hcount]].
    exists n. split; [exact Hrange |].
    rewrite (keychain_entries_length r _ Hcount).
    assert (0 <= len).
    { destruct services; try discriminate; cbn in Hlen;
        injection Hlen as <-; lia. }
    lia.
Qed.

End CountRanges.

Lemma record_counts_follow_ranges_witness :
  (0 <= 2
   /\ cfg_value atomic_store "main" ["generator_settings"; "min_passwords"]
        PNone = PInt 2
   /\ cfg_value atomic_store "main" ["generator_settings"; "max_passwords"]
        PNone = PInt 3
   /\ result (password_records (RT := Lcg.runtime) atomic_store alice) ent0
      = Ok [(PStr "https://a.example", "alice105", PStr "Secret1!");
            (PStr "https://a.example", "alice@example.fake",
             PStr "Secret1!")])
  /\ 2 <= 2 + fst (Lcg.randbelow (3 - 2 + 1) (get_persona_seed "P1" "passwords"))
     <= 3.
Proof.
  assert (Hrun :
    result (password_records (RT := Lcg.runtime) atomic_store alice) ent0
    = Ok [(PStr "https://a.example", "alice105", PStr "Secret1!");
          (PStr "https://a.example", "alice@example.fake", PStr "Secret1!")])
    by (vm_compute; reflexivity).
  assert (Hmin :
    cfg_value atomic_store "main" ["generator_settings"; "min_passwords"]
      PNone = PInt 2) by (vm_compute; reflexivity).
  assert (Hmax :
    cfg_value atomic_store "main" ["generator_settings"; "max_passwords"]
      PNone = PInt 3) by (vm_compute; reflexivity).
  split; [repeat split; try assumption; lia |].
  destruct (record_counts_follow_ranges (RT := Lcg.runtime) atomic_store
              alice ent0 2 3 ltac:(lia)) as [Hpasswords _].
  exact (proj2 (Hpasswords _ Hmin Hmax Hrun)).
Defined.

(** C6 as stated fails: with two to three keychain entries configured and
    one service, the keychain holds one entry. *)
Lemma keychain_count_below_range :
  cfg_value atomic_store "main" ["generator_settings"; "min_keychain_entries"]
    PNone = PInt 2
  /\ cfg_value atomic_store "main"
       ["generator_settings"; "max_keychain_entries"] PNone = PInt 3
  /\ exists r,
       result (keychain_trace (RT := Lcg.runtime) atomic_store alice) ent0
       = Ok r
       /\ Z.of_nat (List.length (keychain_entry_passwords r)) = 1
       /\ ~ (2 <= Z.of_nat (List.length (keychain_entry_passwords r)) <= 3).
Proof.
  split; [vm_compute; reflexivity |]. split; [vm_compute; reflexivity |].
  eexists. split; [vm_compute; reflexivity |].
  split; [reflexivity | cbn; lia].
Qed.

(** Both ends of the configured range of two to three password records
    occur among the personas. *)
Example password_counts_reach_both_ends :
  (exists records,
     result (password_records (RT := Lcg.runtime) atomic_store alice) ent0
     = Ok records /\ List.length records = 2%nat)
  /\ (exists records,
        result (password_records (RT := Lcg.runtime) atomic_store mallory) ent0
        = Ok records /\ List.length records = 3%nat).
Proof. split; eexists; split; vm_compute; reflexivity. Qed.
(** ** Re-running the generation *)

Section Rerun.
Context {RT : PyRuntime}.
Variable configs : gmap string pyval.

(** A write replaces what the path held. *)
Lemma write_file_overwrites directory name content (w : World) :
  result (_write_file directory (PStr name) (PStr content)) w = Ok tt ->
  fs_files (w_fs (final (_write_file directory (PStr name) (PStr content)) w))
    !! path_join directory name = Some content.
Proof.
  unfold _write_file. cbv zeta. intros Hrun.
  apply bind_ok_inv in Hrun as [u [_ [_ Hfinal]]]. rewrite Hfinal.
  apply lookup_insert_eq.
Qed.

(** Lumma's lookup leaves the state alone and does not look at it. *)
Lemma lumma_get_loop_uniform {S} keys :
  forall value dflt (s : S),
    Lumma.get_loop value keys dflt s
    = (result (Lumma.get_loop (S := unit) value keys dflt) tt, s,
       logs (Lumma.get_loop (S := unit) value keys dflt) tt).
Proof.
  induction keys as [| key rest IH]; intros value dflt s; [reflexivity |].
  destruct value; try reflexivity.
  cbn [Lumma.get_loop]. unfold result, logs, bind, lift_outcome.
  destruct (dict_get d key) as [value' | e]; [| reflexivity].
  destruct (is_none value'); [reflexivity |].
  rewrite (IH value' dflt s). unfold result, logs.
  destruct (Lumma.get_loop value' rest dflt tt) as [[r u] l]. reflexivity.
Qed.

Lemma lumma_get_uniform {S} config_name keys dflt (s : S) :
  Lumma.get configs config_name keys dflt s
  = (result (Lumma.get (S := unit) configs config_name keys dflt) tt, s,
     logs (Lumma.get (S := unit) configs config_name keys dflt) tt).
Proof.
  unfold Lumma.get, result, logs, try_except.
  destruct (is_none (default PNone (configs !! config_name))); [reflexivity |].
  rewrite (lumma_get_loop_uniform _ _ _ s). unfold result, logs.
  destruct (Lumma.get_loop _ keys dflt tt) as [[[v | e] u] l]; reflexivity.
Qed.

Lemma blind_lumma_get_s config_name keys dflt :
  clock_blind (Lumma.get_s configs config_name keys dflt).
Proof.
  intros e1 e2 H. unfold Lumma.get_s, result, logs, final.
  rewrite (lumma_get_uniform config_name _ dflt e1),
    (lumma_get_uniform config_name _ dflt e2).
  repeat split; exact H.
Qed.

#[local] Hint Resolve blind_lumma_get_s : blind.

(** The root directory of a Lumma log depends on the state of the random
    generator, not on the clock. *)
Lemma blind_lumma_log_dir persona :
  clock_blind (Lumma.lumma_log_dir configs persona).
Proof. unfold Lumma.lumma_log_dir, Lumma.generate_hwid. blind. Qed.

(** C8, as the code has it: the root directory of a persona's Atomic log
    is named after the persona alone, so every run for the persona returns
    the same directory, whatever the clock, the random generator and the
    file system hold; and a file written there replaces the content the
    path had before.  The root directory of a Lumma log carries an
    identifier drawn from the random generator as it stands: two runs
    from the same generator state name the same directory. *)
Theorem generate_atomic_log_reuses_directory (persona : Persona)
    (w1 w2 : World) (d1 d2 : string) :
  result (generate_atomic_log configs persona) w1 = Ok d1 ->
  result (generate_atomic_log configs persona) w2 = Ok d2 ->
  d1 = atomic_log_dir persona
  /\ d2 = d1
  /\ (forall directory name content w,
        result (_write_file directory (PStr name) (PStr content)) w = Ok tt ->
        fs_files
          (w_fs (final (_write_file directory (PStr name) (PStr content)) w))
          !! path_join directory name = Some content)
  /\ (forall e1 e2,
        e_rng e1 = e_rng e2 ->
        result (Lumma.lumma_log_dir configs persona) e1
        = result (Lumma.lumma_log_dir configs persona) e2).
Proof.
  intros H1 H2.
  pose proof (generate_atomic_log_returns_dir configs persona w1 I d1 H1)
    as E1.
  pose proof (generate_atomic_log_returns_dir configs persona w2 I d2 H2)
    as E2.
  cbv beta in E1, E2. split; [exact E1 |]. split; [congruence |].
  split; [apply write_file_overwrites |].
  intros e1 e2 Hrng. now apply blind_lumma_log_dir.
Qed.

End Rerun.

Lemma generate_atomic_log_reuses_directory_witness :
  (result (generate_atomic_log (RT := Lcg.runtime) atomic_store alice) world0
   = Ok "Atomic_P1_Alice_Doe"
   /\ result (generate_atomic_log (RT := Lcg.runtime) atomic_store alice)
        (final (generate_atomic_log (RT := Lcg.runtime) atomic_store alice)
           world0)
      = Ok "Atomic_P1_Alice_Doe")
  /\ "Atomic_P1_Alice_Doe" = atomic_log_dir alice.
Proof.
  assert (H1 :
    result (generate_atomic_log (RT := Lcg.runtime) atomic_store alice) world0
    = Ok "Atomic_P1_Alice_Doe") by (vm_compute; reflexivity).
  assert (H2 :
    result (generate_atomic_log (RT := Lcg.runtime) atomic_store alice)
      (final (generate_atomic_log (RT := Lcg.runtime) atomic_store alice)
         world0)
    = Ok "Atomic_P1_Alice_Doe") by (vm_compute; reflexivity).
  split; [split; assumption |].
  exact (proj1 (generate_atomic_log_reuses_directory (RT := Lcg.runtime)
                  atomic_store alice _ _ _ _ H1 H2)).
Defined.

(** C8 as stated fails: a second run for the same persona returns the
    directory of the first, creates no directory, and leaves the cookie
    file of the first run with other content. *)
Lemma rerun_overwrites_prior_log :
  let run := generate_atomic_log (RT := Lcg.runtime) atomic_store alice in
  let after_first := final run world0 in
  let after_second := final run after_first in
  let cookie_file := "Atomic_P1_Alice_Doe/Cookies/Chrome_Default.txt" in
  result run world0 = Ok "Atomic_P1_Alice_Doe"
  /\ result run after_first = Ok "Atomic_P1_Alice_Doe"
  /\ fs_dirs (w_fs after_second) = fs_dirs (w_fs after_first)
  /\ is_Some (fs_files (w_fs after_first) !! cookie_file)
  /\ fs_files (w_fs after_second) !! cookie_file
     <> fs_files (w_fs after_first) !! cookie_file.
Proof.
  cbv zeta.
  split; [vm_compute; reflexivity |].
  split; [vm_compute; reflexivity |].
  split; [vm_compute; reflexivity |].
  split; [vm_compute; eexists; reflexivity |].
  vm_compute. congruence.
Qed.

Example lumma_directory_follows_generator_state :
  result (Lumma.lumma_log_dir (RT := Lcg.runtime) atomic_store alice)
    (ent_rng 7) = Ok "lumma_logs/Lumma_P1_AV8PYZ41AJGXQ3CT"
  /\ result (Lumma.lumma_log_dir (RT := Lcg.runtime) atomic_store alice)
       (ent_rng 8) = Ok "lumma_logs/Lumma_P1_Z8PYVWHU301QRSPI".
Proof. split; vm_compute; reflexivity. Qed.

(** ** The batch loop on a roster with a failing persona *)

Example batch_skips_failing_persona :
  result (generate_all_atomic_logs (RT := Lcg.runtime) atomic_store
            [alice; mallory; carol]) world0
  = Ok ["Atomic_P1_Alice_Doe"; "Atomic_P3_Carol_Poe"]
  /\ In (failure_record ("P2", KeyError))
       (logs (generate_all_atomic_logs (RT := Lcg.runtime) atomic_store
                [alice; mallory; carol]) world0).
Proof.
  split; [vm_compute; reflexivity |].
  vm_compute. repeat (first [left; reflexivity | right]).
Qed.
(** * Further properties of the generators *)

(** ** Lookups that hit and lookups that miss *)

Section Lookup.
Context {S : Type}.
Variable configs : gmap string pyval.

Lemma path_value_not_none keys value v :
  path_value value keys = Some v -> is_none value = false.
Proof. destruct keys; cbn [path_value]; destruct (is_none value); congruence. Qed.

Lemma keys_upto_strs key all_keys :
  exists ss, strs_of (keys_upto key (map PStr all_keys)) = Ok ss.
Proof.
  induction all_keys as [| a rest [ss IH]]; cbn [map keys_upto].
  - eexists; reflexivity.
  - destruct (scalar_eq key (PStr a)); cbn [strs_of].
    + eexists; reflexivity.
    + rewrite IH. eexists; reflexivity.
Qed.

Lemma get_loop_hit config_name all_keys keys :
  forall value v dflt (s : S),
    path_value value keys = Some v ->
    get_loop config_name all_keys value (map PStr keys) dflt s = (Ok v, s, []).
Proof.
  induction keys as [| k rest IH]; intros value v dflt s Hv.
  - cbn [path_value] in Hv. destruct (is_none value); [discriminate |].
    injection Hv as <-. reflexivity.
  - cbn [path_value] in Hv. destruct (is_none value); [discriminate |].
    destruct value; try discriminate.
    destruct (dict_lookup d k) as [x |] eqn:Hk; [| discriminate].
    cbn [map get_loop]. unfold bind, lift_outcome. cbn [dict_get].
    rewrite Hk. change (default PNone (Some x)) with x.
    rewrite (path_value_not_none _ _ _ Hv), (IH x v dflt s Hv). reflexivity.
Qed.

Lemma get_loop_miss config_name all_keys keys :
  forall value dflt (s : S),
    is_none value = false ->
    path_value value keys = None ->
    exists msg,
      get_loop config_name (map PStr all_keys) value (map PStr keys) dflt s
      = (Ok dflt, s, [(WARNING, msg)]).
Proof.
  induction keys as [| k rest IH]; intros value dflt s Hnone Hv.
  - cbn [path_value] in Hv. rewrite Hnone in Hv. discriminate.
  - cbn [path_value] in Hv. rewrite Hnone in Hv.
    assert (Hjoin : exists msg,
              bind (lift_outcome
                      (py_join "." (keys_upto (PStr k) (map PStr all_keys))))
                (fun path =>
                   bind (logger WARNING
                           ("Key path '" +:+ config_name +:+ "." +:+ path
                            +:+ "' not found"))
                     (fun _ => ret dflt)) s
              = (Ok dflt, s, [(WARNING, msg)])).
    { destruct (keys_upto_strs (PStr k) all_keys) as [ss Hss].
      unfold bind, lift_outcome, py_join. rewrite Hss.
      eexists. reflexivity. }
    destruct value; cbn [map get_loop];
      try (eexists; reflexivity); try discriminate.
    unfold bind at 1. unfold lift_outcome at 1. cbn [dict_get].
    destruct (dict_lookup d k) as [x |] eqn:Hk.
    + change (default PNone (Some x)) with x.
      destruct (is_none x) eqn:Hx.
      * destruct Hjoin as [msg Hmsg]. exists msg.
        cbv beta iota. rewrite Hmsg. reflexivity.
      * destruct (IH x dflt s Hx Hv) as [msg Hmsg]. exists msg.
        cbv beta iota. rewrite Hmsg. reflexivity.
    + change (default PNone None) with PNone. cbn [is_none].
      destruct Hjoin as [msg Hmsg]. exists msg.
      cbv beta iota. rewrite Hmsg. reflexivity.
Qed.

(** X1: a lookup whose path leads through mappings to a value that is not
    null returns that value, whatever the default; it writes no log record
    and leaves the state alone. *)
Theorem get_returns_stored_value (config_name : string) (keys : list string)
    (value v D : pyval) (s : S) :
  configs !! config_name = Some value ->
  path_value value keys = Some v ->
  get_s configs config_name keys D s = (Ok v, s, []).
Proof.
  intros Hload Hv. unfold get_s, get, try_except. rewrite Hload.
  change (default PNone (Some value)) with value.
  rewrite (path_value_not_none _ _ _ Hv).
  now rewrite (get_loop_hit config_name (map PStr keys) keys value v D s Hv).
Qed.

(** X2: a lookup along string keys that does not reach a value (the
    document is not loaded, a key is absent, a value on the way is not a
    mapping, or a value on the way is null) returns the default and reports
    the miss by exactly one warning; it does not reach the error handler. *)
Theorem get_miss_warns_once (config_name : string) (keys : list string)
    (D : pyval) (s : S) :
  match configs !! config_name with
  | Some value => path_value value keys
  | None => None
  end = None ->
  exists msg,
    get_s configs config_name keys D s = (Ok D, s, [(WARNING, msg)]).
Proof.
  intros Hmiss. unfold get_s, get, try_except.
  destruct (configs !! config_name) as [value |].
  - change (default PNone (Some value)) with value.
    destruct (is_none value) eqn:Hnone; [eexists; reflexivity |].
    destruct (get_loop_miss config_name keys keys value D s Hnone Hmiss)
      as [msg Hmsg].
    exists msg. now rewrite Hmsg.
  - eexists. reflexivity.
Qed.

End Lookup.

Lemma get_returns_stored_value_witness :
  get_s (S := unit) store_x "x" ["present"; "leaf"] (PStr "D") tt
  = (Ok (PInt 1), tt, []).
Proof.
  apply (get_returns_stored_value store_x "x" ["present"; "leaf"]
           (PDict [("present", PDict [("leaf", PInt 1)])]));
    reflexivity.
Defined.

Lemma get_miss_warns_once_witness :
  exists msg,
    get_s (S := unit) store_x "x" ["present"; "leaf"; "deeper"] (PStr "D") tt
    = (Ok (PStr "D"), tt, [(WARNING, msg)]).
Proof.
  apply (get_miss_warns_once store_x "x" ["present"; "leaf"; "deeper"]).
  reflexivity.
Defined.

(** ** The lookup of the Lumma generator *)

Section LummaLookup.
Context {S : Type}.
Variable configs : gmap string pyval.

Lemma lumma_get_loop_agrees config_name all_keys keys :
  forall value dflt (s : S),
    (result (Lumma.get_loop value keys dflt) s
     = result (get_loop config_name all_keys value keys dflt) s
     \/ (exists e,
           result (get_loop config_name all_keys value keys dflt) s = Raise e)
        /\ result (Lumma.get_loop value keys dflt) s = Ok dflt)
    /\ (List.length (logs (Lumma.get_loop value keys dflt) s)
        <= List.length (logs (get_loop config_name all_keys value keys dflt) s))%nat.
Proof.
  induction keys as [| key rest IH]; intros value dflt s.
  - split; [left; reflexivity | reflexivity].
  - destruct value; try (split; [left; reflexivity | reflexivity]).
    cbn [get_loop Lumma.get_loop]. unfold result, logs, bind, lift_outcome.
    destruct (dict_get d key) as [value' | e];
      [| split; [left; reflexivity | reflexivity]].
    destruct (is_none value').
    + destruct (py_join "." (keys_upto key all_keys)); cbn [fst snd].
      * split; [left; reflexivity | cbn; lia].
      * split; [right; split; [eexists |]; reflexivity | reflexivity].
    + specialize (IH value' dflt s). unfold result, logs in IH.
      destruct (Lumma.get_loop value' rest dflt s) as [[rb sb] lb].
      destruct (get_loop config_name all_keys value' rest dflt s)
        as [[ra sa] la].
      exact IH.
Qed.

Lemma lumma_get_agrees_loop config_name keys dflt (s : S) :
  result (Lumma.get configs config_name keys dflt) s
  = result (get configs config_name keys dflt) s
  /\ final (Lumma.get configs config_name keys dflt) s = s.
Proof.
  split.
  - unfold Lumma.get, get, result, try_except.
    destruct (is_none (default PNone (configs !! config_name)));
      [reflexivity |].
    destruct (lumma_get_loop_agrees config_name keys keys
                (default PNone (configs !! config_name)) dflt s) as [Hres _].
    unfold result in Hres.
    destruct (Lumma.get_loop _ keys dflt s) as [[rb sb] lb].
    destruct (get_loop config_name keys _ keys dflt s) as [[ra sa] la].
    cbn [fst snd] in Hres.
    destruct Hres as [-> | [[e ->] ->]]; [destruct ra |]; reflexivity.
  - unfold final. now rewrite lumma_get_uniform.
Qed.

(** X3: the lookup of the Lumma generator returns what the lookup of the
    Atomic generator returns, for every store, key path and default, and
    leaves the state alone; it never writes more log records (a missing key
    is not reported there). *)
Theorem lumma_get_agrees_with_atomic_get (config_name : string)
    (keys : list pyval) (D : pyval) (s : S) :
  result (Lumma.get configs config_name keys D) s
  = result (get configs config_name keys D) s
  /\ final (Lumma.get configs config_name keys D) s = s
  /\ (List.length (logs (Lumma.get configs config_name keys D) s)
      <= List.length (logs (get configs config_name keys D) s))%nat.
Proof.
  split; [| split].
  - apply lumma_get_agrees_loop.
  - apply lumma_get_agrees_loop.
  - unfold Lumma.get, get, logs, try_except.
    destruct (is_none (default PNone (configs !! config_name)));
      [reflexivity |].
    destruct (lumma_get_loop_agrees config_name keys keys
                (default PNone (configs !! config_name)) D s) as [Hres Hlen].
    unfold result, logs in Hres, Hlen.
    destruct (Lumma.get_loop _ keys D s) as [[rb sb] lb].
    destruct (get_loop config_name keys _ keys D s) as [[ra sa] la].
    cbn [fst snd] in Hres, Hlen.
    destruct Hres as [-> | [[e ->] ->]]; [destruct ra |];
      unfold bind, logger, ret; cbn [fst snd]; rewrite ?length_app;
      cbn [List.length]; lia.
Qed.

End LummaLookup.

(** ** Templates that are missing or are not text *)

Section RenderEdges.
Context {S : Type}.
Variable configs : gmap string pyval.

Lemma get_s_triple config_name keys dflt (s : S) :
  get_s configs config_name keys dflt s
  = (Ok (cfg_value configs config_name keys dflt), s,
     logs (get_s configs config_name keys dflt) s).
Proof.
  rewrite (run_eta (get_s configs config_name keys dflt) s) at 1.
  now rewrite get_s_run, stateless_get_s.
Qed.

(** X4: when the store holds no usable template under the name (the
    entry is absent, empty, or another falsy value), [render] returns the
    empty text, whatever the variables, after the warning that names the
    template; the state is left alone. *)
Theorem render_missing_template_gives_empty_text (template_name : string)
    (kwargs : list (string * pyval)) (s : S) :
  py_truthy (cfg_value configs "templates" [template_name] (PStr "")) = false ->
  render configs template_name kwargs s
  = (Ok (PStr ""), s,
     logs (get_s configs "templates" [template_name] (PStr "")) s
     ++ [(WARNING, "Template '" +:+ template_name +:+ "' not found")]).
Proof.
  intros Hfalsy. unfold render, bind. rewrite get_s_triple, Hfalsy.
  reflexivity.
Qed.

Lemma render_loop_not_text kwargs :
  forall template (s : S),
    (forall t, template <> PStr t) -> kwargs <> [] ->
    foldM render_step template kwargs s = (Raise AttributeError, s, []).
Proof.
  destruct kwargs as [| kv rest]; intros template s Htext Hne;
    [congruence |].
  cbn [foldM]. unfold bind.
  destruct template; try reflexivity. now destruct (Htext s0).
Qed.

(** X5: a template entry that is truthy but not text (say a list or a
    number in the JSON file) makes [render] raise [AttributeError] as soon
    as there is a variable to substitute; with no variable the entry comes
    back as it is, not as text. *)
Theorem render_template_not_text (template_name : string)
    (kwargs : list (string * pyval)) (s : S) :
  py_truthy (cfg_value configs "templates" [template_name] (PStr "")) = true ->
  (forall t,
     cfg_value configs "templates" [template_name] (PStr "") <> PStr t) ->
  result (render configs template_name kwargs) s
  = match kwargs with
    | [] => Ok (cfg_value configs "templates" [template_name] (PStr ""))
    | _ :: _ => Raise AttributeError
    end.
Proof.
  intros Htruthy Htext. unfold render, result, bind.
  rewrite get_s_triple, Htruthy. cbn [negb].
  destruct kwargs as [| kv rest]; [reflexivity |].
  now rewrite render_loop_not_text.
Qed.

End RenderEdges.

Lemma render_missing_template_gives_empty_text_witness :
  py_truthy (cfg_value greeting_store "templates" ["farewell"] (PStr "")) = false
  /\ result (render (S := unit) greeting_store "farewell"
               [("name", PStr "Ann")]) tt = Ok (PStr "").
Proof.
  split; [reflexivity |].
  unfold result.
  now rewrite (render_missing_template_gives_empty_text greeting_store
                 "farewell" [("name", PStr "Ann")] tt eq_refl).
Defined.

Lemma render_template_not_text_witness :
  (py_truthy (cfg_value list_template_store "templates" ["banner"] (PStr ""))
   = true
   /\ forall t,
        cfg_value list_template_store "templates" ["banner"] (PStr "")
        <> PStr t)
  /\ result (render (S := unit) list_template_store "banner"
               [("name", PStr "Ann")]) tt = Raise AttributeError.
Proof.
  assert (H1 : py_truthy
                 (cfg_value list_template_store "templates" ["banner"]
                    (PStr "")) = true) by reflexivity.
  assert (H2 : forall t,
             cfg_value list_template_store "templates" ["banner"] (PStr "")
             <> PStr t) by (intros t; vm_compute; discriminate).
  split; [split; assumption |].
  exact (render_template_not_text list_template_store "banner"
           [("name", PStr "Ann")] tt H1 H2).
Defined.

(** ** Draws from a pool *)

Section Draws.
Context {RT : PyRuntime}.

Lemma getitem_int_in_range (items : list pyval) i :
  0 <= i < Z.of_nat (List.length items) ->
  exists x, In x items /\ getitem_int (PList items) i = Ok x.
Proof.
  intros Hi. unfold getitem_int.
  destruct (i <? 0) eqn:Hneg; [apply Z.ltb_lt in Hneg; lia |].
  assert (Hin : (0 <=? i) && (i <? Z.of_nat (List.length items)) = true).
  { apply andb_true_iff. split; [apply Z.leb_le | apply Z.ltb_lt]; lia. }
  rewrite Hin.
  destruct (nth_error items (Z.to_nat i)) as [x |] eqn:Hnth.
  - exists x. split; [eapply nth_error_In; eassumption | reflexivity].
  - apply nth_error_None in Hnth. lia.
Qed.

(** [random.choice] on a list that is not empty returns one of its items
    and moves the generator on by one draw. *)
Lemma choice_list_run (l : list pyval) (e : Ent) :
  l <> [] ->
  exists x,
    In x l
    /\ choice (PList l) e
       = (Ok x,
          mkEnt (snd (rng_randbelow (Z.of_nat (List.length l)) (e_rng e)))
            (e_clock e) (e_ticks e),
          []).
Proof.
  intros Hne. unfold choice, bind, lift_outcome, with_rng. cbn [py_len].
  assert (Hpos : 0 < Z.of_nat (List.length l)) by (destruct l; [congruence | cbn; lia]).
  destruct (Z.of_nat (List.length l) =? 0) eqn:Hz;
    [apply Z.eqb_eq in Hz; lia |].
  pose proof (rng_randbelow_range _ (e_rng e) Hpos) as Hrange.
  destruct (rng_randbelow (Z.of_nat (List.length l)) (e_rng e)) as [i r'].
  cbn [fst snd] in *.
  destruct (getitem_int_in_range l i Hrange) as [x [Hx Hget]].
  exists x. split; [exact Hx |]. now rewrite Hget.
Qed.



(** X6: [_select_password] returns an item of the pool it is given, for
    either habit, and raises [IndexError] on an empty pool, for either
    habit. *)
Theorem select_password_draws_from_pool (habit : string)
    (pool : list pyval) (e : Ent) :
  match pool with
  | [] => result (_select_password habit (PList pool)) e = Raise IndexError
  | _ :: _ =>
      exists p, In p pool
                /\ result (_select_password habit (PList pool)) e = Ok p
  end.
Proof.
  unfold _select_password. destruct pool as [| p0 rest].
  - now destruct (String.eqb habit "Reuses_Passwords").
  - destruct (String.eqb habit "Reuses_Passwords").
    + exists p0. split; [now left | reflexivity].
    + destruct (choice_list_run (p0 :: rest) e ltac:(congruence))
        as [x [Hin Hrun]].
      exists x. split; [exact Hin |]. unfold result. now rewrite Hrun.
Qed.

End Draws.

(** ** What a password record is made of *)

Section PasswordRecords.
Context {RT : PyRuntime}.
Variable configs : gmap string pyval.



End PasswordRecords.

Section PasswordContent.
Context {RT : PyRuntime}.
Variable configs : gmap string pyval.



End PasswordContent.


(** ** Brute.txt against Passwords.txt *)














(** ** Texts drawn character by character *)

Section CharStrings.
Context {RT : PyRuntime}.

Lemma length_chars_of s : List.length (chars_of s) = String.length s.
Proof.
  unfold chars_of. rewrite length_map.
  induction s as [| c s IH]; cbn; [reflexivity | now rewrite IH].
Qed.

Lemma in_chars_of x s :
  In x (chars_of s) ->
  exists c, x = PStr (String c "") /\ In c (list_ascii_of_string s).
Proof.
  unfold chars_of. intros H. apply in_map_iff in H as [c [Hc Hin]].
  exists c. now split.
Qed.

Lemma draw_char_run cs (e : Ent) :
  cs <> "" ->
  exists p r,
    bind (with_rng (rng_randfloor (Z.of_nat (String.length cs))))
      (fun i => lift_outcome (getitem_int (PStr cs) i)) e
    = (Ok p, mkEnt r (e_clock e) (e_ticks e), [])
    /\ chars_from cs [p].
Proof.
  intros Hne. unfold bind, with_rng, lift_outcome.
  assert (Hpos : 0 < Z.of_nat (String.length cs))
    by (destruct cs; [congruence | cbn; lia]).
  pose proof (rng_randfloor_range _ (e_rng e) Hpos) as Hrange.
  destruct (rng_randfloor (Z.of_nat (String.length cs)) (e_rng e)) as [i r].
  cbn [fst snd] in *. rewrite <- length_chars_of in Hrange.
  destruct (getitem_int_in_range (chars_of cs) i Hrange) as [x [Hx Hget]].
  change (getitem_int (PStr cs) i) with (getitem_int (PList (chars_of cs)) i).
  rewrite Hget. exists x, r. split; [reflexivity |].
  constructor; [now apply in_chars_of | constructor].
Qed.

Lemma draw_chars_run cs n :
  cs <> "" ->
  forall e : Ent,
    exists picked r,
      repeatM n
        (bind (with_rng (rng_randfloor (Z.of_nat (String.length cs))))
           (fun i => lift_outcome (getitem_int (PStr cs) i))) e
      = (Ok picked, mkEnt r (e_clock e) (e_ticks e), [])
      /\ List.length picked = n
      /\ chars_from cs picked.
Proof.
  intros Hne. induction n as [| n IH]; intros e.
  - exists [], (e_rng e). destruct e. repeat split. constructor.
  - destruct (draw_char_run cs e Hne) as [p [r [Hp Hchar]]].
    destruct (IH (mkEnt r (e_clock e) (e_ticks e)))
      as [picked [r' [Hrest [Hlen Hchars]]]].
    exists (p :: picked), r'. cbn [repeatM]. unfold bind at 1.
    rewrite Hp. unfold bind at 1. rewrite Hrest. cbn [e_clock e_ticks].
    split; [reflexivity |]. split; [cbn; now rewrite Hlen |].
    inversion Hchar; subst. now constructor.
Qed.

(** [random.choices(cs, k=k)] on a text that is not empty *)
Lemma choices_chars_run cs k (e : Ent) :
  cs <> "" ->
  exists picked r,
    choices (PStr cs) (PInt k) e
    = (Ok picked, mkEnt r (e_clock e) (e_ticks e), [])
    /\ List.length picked = Z.to_nat k
    /\ chars_from cs picked.
Proof.
  intros Hne. unfold choices. unfold bind at 1. unfold lift_outcome at 1.
  cbn [py_len]. unfold bind at 1. unfold lift_outcome at 1.
  cbn [count_of as_int].
  destruct (draw_chars_run cs (Z.to_nat k) Hne e)
    as [picked [r [Hrun [Hlen Hchars]]]].
  exists picked, r. rewrite Hrun. now repeat split.
Qed.

Lemma join_empty_cons p rest : join "" (p :: rest) = p +:+ join "" rest.
Proof.
  destruct rest; cbn [join]; [| reflexivity].
  induction p as [| c p IH]; cbn; [reflexivity | now rewrite <- IH].
Qed.

Lemma length_append a b :
  String.length (a +:+ b) = (String.length a + String.length b)%nat.
Proof. induction a as [| c a IH]; cbn; [reflexivity | now rewrite IH]. Qed.

(** [''.join(picked)] of one-character texts *)
Lemma join_chars cs picked :
  chars_from cs picked ->
  exists text,
    py_join "" picked = Ok text
    /\ String.length text = List.length picked
    /\ Forall (fun c => In c (list_ascii_of_string cs))
         (list_ascii_of_string text).
Proof.
  unfold py_join. induction 1 as [| p rest [c [-> Hc]] Hrest IH].
  - exists "". repeat split. constructor.
  - destruct IH as [text [Hjoin [Hlen Hall]]].
    cbn [strs_of]. destruct (strs_of rest) as [ss | e]; [| discriminate].
    injection Hjoin as <-. exists (String c (join "" ss)).
    rewrite join_empty_cons. split; [reflexivity |].
    split; [cbn; now rewrite Hlen |].
    cbn [list_ascii_of_string]. now constructor.
Qed.

(** The idiom [''.join(random.choices(cs, k=k))]: a text of [k] characters,
    each a character of [cs]; the clock is not read. *)
Lemma char_string_run cs k (e : Ent) :
  cs <> "" ->
  exists text r,
    bind (choices (PStr cs) (PInt k))
      (fun picked => lift_outcome (py_join "" picked)) e
    = (Ok text, mkEnt r (e_clock e) (e_ticks e), [])
    /\ String.length text = Z.to_nat k
    /\ Forall (fun c => In c (list_ascii_of_string cs))
         (list_ascii_of_string text).
Proof.
  intros Hne.
  destruct (choices_chars_run cs k e Hne) as [picked [r [Hrun [Hlen Hchars]]]].
  destruct (join_chars cs picked Hchars) as [text [Hjoin [Htext Hall]]].
  exists text, r. unfold bind, lift_outcome. rewrite Hrun, Hjoin.
  split; [reflexivity |]. split; [now rewrite Htext | exact Hall].
Qed.

End CharStrings.

Section CharStringGenerators.
Context {RT : PyRuntime}.
Variable configs : gmap string pyval.

Lemma bind_get_s_run {A} config_name keys dflt (k : pyval -> G A) (e : Ent) :
  result (bind (get_s configs config_name keys dflt) k) e
  = result (k (cfg_value configs config_name keys dflt)) e.
Proof.
  apply (result_bind_ok _ _ _ _ _ _ (get_s_triple configs config_name keys dflt e)).
Qed.



Lemma lumma_get_s_value config_name keys dflt (e : Ent) :
  Lumma.get_s configs config_name keys dflt e
  = (Ok (cfg_value configs config_name keys dflt), e,
     logs (Lumma.get_s configs config_name keys dflt) e).
Proof.
  rewrite (run_eta (Lumma.get_s configs config_name keys dflt) e) at 1.
  unfold Lumma.get_s.
  destruct (lumma_get_agrees_loop configs config_name (map PStr keys) dflt e)
    as [Hres Hfin].
  rewrite Hres, Hfin.
  change (get configs config_name (map PStr keys) dflt)
    with (get_s (S := Ent) configs config_name keys dflt).
  now rewrite get_s_run.
Qed.


(** Groups of characters drawn one after the other *)
Lemma char_groups_run cs (g : Z -> Z) lens :
  cs <> "" ->
  forall e : Ent,
    exists parts r,
      mapM (fun i =>
              bind (choices (PStr cs) (PInt (g i)))
                (fun picked => lift_outcome (py_join "" picked)))
        lens e
      = (Ok parts, mkEnt r (e_clock e) (e_ticks e), [])
      /\ Forall2 (fun i part => char_text cs (Z.to_nat (g i)) part) lens parts.
Proof.
  intros Hne. induction lens as [| i lens IH]; intros e.
  - exists [], (e_rng e). destruct e. split; [reflexivity | constructor].
  - destruct (char_string_run cs (g i) e Hne) as [part [r [Hpart Hshape]]].
    destruct (IH (mkEnt r (e_clock e) (e_ticks e)))
      as [parts [r' [Hparts Hshapes]]].
    exists (part :: parts), r'. cbn [mapM]. unfold bind at 1.
    rewrite Hpart. unfold bind at 1. rewrite Hparts.
    split; [reflexivity | now constructor].
Qed.

Lemma length_join_cons sep p q rest :
  String.length (join sep (p :: q :: rest))
  = (String.length p + String.length sep
     + String.length (join sep (q :: rest)))%nat.
Proof.
  change (join sep (p :: q :: rest))
    with (p +:+ sep +:+ join sep (q :: rest)).
  rewrite !length_append. lia.
Qed.

(** X12: the machine GUID of a Lumma log always has the five groups of a
    GUID, of 8, 4, 4, 4 and 12 lower-case hexadecimal digits, joined by
    hyphens: 36 characters.  The generation never fails and does not read
    the clock. *)
Theorem machine_id_is_guid_shaped (e : Ent) :
  exists parts r,
    Lumma.generate_machine_id e
    = (Ok (join "-" parts), mkEnt r (e_clock e) (e_ticks e), [])
    /\ Forall2 (char_text "0123456789abcdef") [8; 4; 4; 4; 12]%nat parts
    /\ String.length (join "-" parts) = 36%nat.
Proof.
  destruct (char_groups_run "0123456789abcdef"
              (fun i => if i =? 0 then 8 else if i <? 4 then 4 else 12)
              [0; 1; 2; 3; 4] ltac:(discriminate) e)
    as [parts [r [Hrun Hshape]]].
  exists parts, r. unfold Lumma.generate_machine_id.
  cbv zeta. unfold bind at 1. cbv beta in Hrun. rewrite Hrun.
  split; [reflexivity |].
  inversion Hshape as [| ? a ? l1 Ha H1]; subst.
  inversion H1 as [| ? b ? l2 Hb H2]; subst.
  inversion H2 as [| ? c ? l3 Hc H3]; subst.
  inversion H3 as [| ? d ? l4 Hd H4]; subst.
  inversion H4 as [| ? f ? l5 Hf H5]; subst.
  inversion H5; subst.
  change (char_text "0123456789abcdef" 8%nat a) in Ha.
  change (char_text "0123456789abcdef" 4%nat b) in Hb.
  change (char_text "0123456789abcdef" 4%nat c) in Hc.
  change (char_text "0123456789abcdef" 4%nat d) in Hd.
  change (char_text "0123456789abcdef" 12%nat f) in Hf.
  split;
    [repeat (apply List.Forall2_cons; [assumption |]); apply List.Forall2_nil |].
  rewrite !length_join_cons. cbn [join String.length].
  destruct Ha as [-> _], Hb as [-> _], Hc as [-> _], Hd as [-> _],
    Hf as [-> _].
  reflexivity.
Qed.

(** X13: the UUID-like text of Lumma's browser data has four groups, of 8,
    4, 4 and 12 lower-case hexadecimal digits: 31 characters, one group
    short of a UUID. *)
Theorem uuid_like_has_four_groups (e : Ent) :
  exists parts r,
    Lumma._generate_uuid e
    = (Ok (join "-" parts), mkEnt r (e_clock e) (e_ticks e), [])
    /\ Forall2 (char_text "0123456789abcdef") [8; 4; 4; 12]%nat parts
    /\ String.length (join "-" parts) = 31%nat.
Proof.
  destruct (char_groups_run "0123456789abcdef" (fun i => i)
              [8; 4; 4; 12] ltac:(discriminate) e)
    as [parts [r [Hrun Hshape]]].
  exists parts, r. unfold Lumma._generate_uuid.
  unfold bind at 1. cbv beta in Hrun. rewrite Hrun.
  split; [reflexivity |].
  inversion Hshape as [| ? a ? l1 Ha H1]; subst.
  inversion H1 as [| ? b ? l2 Hb H2]; subst.
  inversion H2 as [| ? c ? l3 Hc H3]; subst.
  inversion H3 as [| ? d ? l4 Hd H4]; subst.
  inversion H4; subst.
  change (char_text "0123456789abcdef" 8%nat a) in Ha.
  change (char_text "0123456789abcdef" 4%nat b) in Hb.
  change (char_text "0123456789abcdef" 4%nat c) in Hc.
  change (char_text "0123456789abcdef" 12%nat d) in Hd.
  split;
    [repeat (apply List.Forall2_cons; [assumption |]); apply List.Forall2_nil |].
  rewrite !length_join_cons. cbn [join String.length].
  destruct Ha as [-> _], Hb as [-> _], Hc as [-> _], Hd as [-> _].
  reflexivity.
Qed.

End CharStringGenerators.




(** ** Cookie files *)

Section CookieFiles.
Context {RT : PyRuntime}.
Variable configs : gmap string pyval.

Lemma dict_set_keys {A} (d : list (string * A)) k v :
  map fst (dict_set d k v)
  = if existsb (String.eqb k) (map fst d) then map fst d
    else map fst d ++ [k].
Proof.
  induction d as [| [k' v'] d IH]; [reflexivity |].
  cbn [dict_set map fst existsb].
  destruct (String.eqb k k') eqn:Hk; cbn [orb map fst].
  - apply String.eqb_eq in Hk. now subst.
  - rewrite IH. now destruct (existsb (String.eqb k) (map fst d)).
Qed.

Lemma existsb_eqb_false k (keys : list string) :
  existsb (String.eqb k) keys = false -> ~ In k keys.
Proof.
  intros H Hin. assert (Ht : existsb (String.eqb k) keys = true).
  { apply existsb_exists. exists k. split; [exact Hin | apply String.eqb_refl]. }
  congruence.
Qed.

Lemma dict_set_nodup {A} (d : list (string * A)) k v :
  NoDup (map fst d) -> NoDup (map fst (dict_set d k v)).
Proof.
  intros Hd. rewrite dict_set_keys.
  destruct (existsb (String.eqb k) (map fst d)) eqn:Hk; [exact Hd |].
  apply NoDup_app. split; [exact Hd |]. split.
  - intros x Hx Hin. apply list_elem_of_singleton in Hin. subst.
    apply (existsb_eqb_false _ _ Hk). now apply list_elem_of_In.
  - apply NoDup_singleton.
Qed.

Lemma dict_set_length {A} (d : list (string * A)) k v :
  (List.length (dict_set d k v) <= S (List.length d))%nat.
Proof.
  induction d as [| [k' v'] d IH]; cbn [dict_set List.length]; [lia |].
  destruct (String.eqb k k'); cbn [List.length]; lia.
Qed.

Lemma dict_set_names {A} (P : string -> Prop) (d : list (string * A)) k v :
  P k -> Forall (fun kv => P (fst kv)) d ->
  Forall (fun kv => P (fst kv)) (dict_set d k v).
Proof.
  intros Hk. induction 1 as [| [k' v'] d Hkv Hd IH]; cbn [dict_set].
  - now repeat constructor.
  - destruct (String.eqb k k'); constructor; auto.
Qed.

(** At most two browsers are selected: one for the primary and one for
    the secondary browser of the persona. *)
Lemma browsers_at_most_two persona (e : Ent) browsers :
  result (_get_browsers_for_persona configs persona) e = Ok browsers ->
  (List.length browsers <= 2)%nat.
Proof.
  unfold _get_browsers_for_persona. intros Hrun.
  apply bind_ok_inv in Hrun as [profiles [_ [Hrun _]]].
  apply bind_ok_inv in Hrun as [has_primary [_ [Hrun _]]].
  apply bind_ok_inv in Hrun as [browsers1 [H1 [Hrun _]]].
  assert (Hlen1 : (List.length browsers1 <= 1)%nat).
  { destruct has_primary.
    - apply bind_ok_inv in H1 as [profile [_ [H1 _]]].
      apply bind_ok_inv in H1 as [b [_ [H1 _]]].
      injection H1 as <-. cbn. lia.
    - injection H1 as <-. cbn. lia. }
  apply bind_ok_inv in Hrun as [has_secondary [_ [Hrun _]]].
  destruct has_secondary.
  - apply bind_ok_inv in Hrun as [profile [_ [Hrun _]]].
    apply bind_ok_inv in Hrun as [b [_ [Hrun _]]].
    injection Hrun as <-. rewrite length_app. cbn. lia.
  - injection Hrun as <-. lia.
Qed.

Lemma cookie_files_fold browsers :
  forall (acc : list (string * string)) (e : Ent) files,
    result
      (foldM (fun cookie_files browser =>
                bind (_generate_cookies_for_browser configs)
                  (fun cookies =>
                     ret (dict_set cookie_files (py_str browser +:+ ".txt")
                            (join newline cookies))))
         acc browsers) e = Ok files ->
    NoDup (map fst acc) ->
    Forall (fun kv => exists b, fst kv = b +:+ ".txt") acc ->
    NoDup (map fst files)
    /\ (List.length files <= List.length acc + List.length browsers)%nat
    /\ Forall (fun kv => exists b, fst kv = b +:+ ".txt") files.
Proof.
  induction browsers as [| browser rest IH]; intros acc e files Hrun Hnd Htxt.
  - injection Hrun as <-. repeat split; [exact Hnd | cbn; lia | exact Htxt].
  - cbn [foldM] in Hrun.
    apply bind_ok_inv in Hrun as [acc' [Hacc [Hrun _]]].
    apply bind_ok_inv in Hacc as [cookies [_ [Hacc _]]].
    injection Hacc as <-.
    destruct (IH _ _ _ Hrun) as [Hnd' [Hlen' Htxt']].
    + now apply dict_set_nodup.
    + apply (dict_set_names (fun k => exists b, k = b +:+ ".txt"));
        [eexists; reflexivity | exact Htxt].
    + split; [exact Hnd' |]. split; [| exact Htxt'].
      pose proof (dict_set_length acc (py_str browser +:+ ".txt")
                    (join newline cookies)).
      cbn [List.length]. lia.
Qed.

(** X14: the cookie generator produces at most two files, one per browser
    selected for the persona; their names are distinct and each is the
    name of a browser followed by [.txt]. *)
Theorem cookie_files_are_distinct_browser_files (persona : Persona)
    (e : Ent) (files : list (string * string)) :
  result (CookieGenerator_generate configs persona) e = Ok files ->
  NoDup (map fst files)
  /\ (List.length files <= 2)%nat
  /\ Forall (fun kv => exists browser, fst kv = browser +:+ ".txt") files.
Proof.
  unfold CookieGenerator_generate. intros Hrun.
  apply bind_ok_inv in Hrun as [u [_ [Hrun _]]].
  apply bind_ok_inv in Hrun as [browsers [Hb [Hrun _]]].
  apply browsers_at_most_two in Hb.
  destruct (cookie_files_fold browsers [] _ files Hrun)
    as [Hnd [Hlen Htxt]]; [constructor | constructor |].
  cbn [List.length] in Hlen. split; [exact Hnd |]. split; [lia | exact Htxt].
Qed.

End CookieFiles.

Lemma cookie_files_are_distinct_browser_files_witness :
  exists files,
    result (CookieGenerator_generate (RT := Lcg.runtime) atomic_store carol)
      ent0 = Ok files
    /\ NoDup (map fst files)
    /\ (List.length files <= 2)%nat.
Proof.
  destruct (result (CookieGenerator_generate (RT := Lcg.runtime) atomic_store
                      carol) ent0) as [files | err] eqn:Hrun.
  - exists files. split; [reflexivity |].
    destruct (cookie_files_are_distinct_browser_files (RT := Lcg.runtime)
                atomic_store carol ent0 files Hrun) as [Hnd [Hlen _]].
    now split.
  - vm_compute in Hrun. discriminate.
Defined.

(** ** The hardware profile *)

Section HardwareFallback.
Context {RT : PyRuntime}.
Variable configs : gmap string pyval.

Lemma bind_ret_run {S A B} (a : A) (k : A -> St S B) (s : S) :
  bind (ret a) k s = k a s.
Proof.
  unfold bind, ret. destruct (k a s) as [[r s1] l1]. reflexivity.
Qed.

Lemma bind_get_s_final {A} config_name keys dflt (k : pyval -> G A) (e : Ent) :
  final (bind (get_s configs config_name keys dflt) k) e
  = final (k (cfg_value configs config_name keys dflt)) e.
Proof.
  apply (final_bind_ok _ _ _ _ _ _ (get_s_triple configs config_name keys dflt e)).
Qed.

(** X15: a persona whose device type and income level have no hardware
    profile gets the hardware of a [Personal_Laptop] of [Medium] income:
    the same values and the same generator state as a persona with the same
    identifier and that device type and income level. *)
Theorem hardware_falls_back_to_default_profile (persona persona' : Persona)
    (e : Ent) :
  py_truthy
    (cfg_value configs "hardware" [device_type persona; income_level persona]
       PNone) = false ->
  persona_id persona' = persona_id persona ->
  device_type persona' = "Personal_Laptop" ->
  income_level persona' = "Medium" ->
  result (HardwareGenerator_generate configs persona) e
  = result (HardwareGenerator_generate configs persona') e
  /\ final (HardwareGenerator_generate configs persona) e
     = final (HardwareGenerator_generate configs persona') e.
Proof.
  intros Hfalsy Hid Hdev Hinc. unfold HardwareGenerator_generate.
  rewrite Hid, Hdev, Hinc.
  assert (Hseed :
    random_seed (get_persona_seed (persona_id persona) "hardware") e
    = (Ok tt,
       mkEnt (rng_seed (get_persona_seed (persona_id persona) "hardware"))
         (e_clock e) (e_ticks e), [])) by reflexivity.
  rewrite !(result_bind_ok _ _ _ _ _ _ Hseed),
    !(final_bind_ok _ _ _ _ _ _ Hseed).
  rewrite !bind_get_s_run, !bind_get_s_final, Hfalsy. cbn [negb].
  destruct (py_truthy
              (cfg_value configs "hardware" ["Personal_Laptop"; "Medium"]
                 PNone)); cbn [negb].
  - rewrite bind_get_s_run, bind_get_s_final.
    unfold result, final. now rewrite bind_ret_run.
  - now rewrite !bind_get_s_run, !bind_get_s_final.
Qed.

End HardwareFallback.

Lemma hardware_falls_back_to_default_profile_witness :
  (py_truthy
     (cfg_value atomic_store "hardware"
        [device_type gamer; income_level gamer] PNone) = false
   /\ persona_id alice = persona_id gamer
   /\ device_type alice = "Personal_Laptop"
   /\ income_level alice = "Medium")
  /\ result (HardwareGenerator_generate (RT := Lcg.runtime) atomic_store gamer)
       ent0
     = result (HardwareGenerator_generate (RT := Lcg.runtime) atomic_store
                 alice) ent0.
Proof.
  split; [repeat split; reflexivity |].
  exact (proj1 (hardware_falls_back_to_default_profile (RT := Lcg.runtime)
                  atomic_store gamer alice ent0 eq_refl eq_refl eq_refl
                  eq_refl)).
Defined.

(** ** What the log writer does to the file system *)

Section KeepsPaths.
Context {RT : PyRuntime}.

Lemma fs_extends_refl f : fs_extends f f.
Proof. split; [auto | set_solver]. Qed.

Lemma fs_extends_trans f1 f2 f3 :
  fs_extends f1 f2 -> fs_extends f2 f3 -> fs_extends f1 f3.
Proof. intros [H1 D1] [H2 D2]. split; [auto | set_solver]. Qed.

Lemma keeps_stateless {A} (m : M A) : stateless m -> keeps_paths m.
Proof. intros Hm w. rewrite Hm. apply fs_extends_refl. Qed.

Lemma keeps_ret {A} (a : A) : keeps_paths (ret a).
Proof. apply keeps_stateless, stateless_ret. Qed.

Lemma keeps_raise {A} e : keeps_paths (A := A) (raise e).
Proof. apply keeps_stateless, stateless_raise. Qed.

Lemma keeps_logger lvl msg : keeps_paths (logger lvl msg).
Proof. apply keeps_stateless, stateless_logger. Qed.

Lemma keeps_lift_outcome {A} (o : outcome A) : keeps_paths (lift_outcome o).
Proof. apply keeps_stateless, stateless_lift_outcome. Qed.

Lemma keeps_get_s configs config_name keys dflt :
  keeps_paths (get_s configs config_name keys dflt).
Proof. apply keeps_stateless, stateless_get_s. Qed.

Lemma keeps_liftG {A} (g : G A) : keeps_paths (liftG g).
Proof.
  intros w. unfold final, liftG.
  destruct (g (w_ent w)) as [[r e] l]. apply fs_extends_refl.
Qed.

Lemma keeps_bind {A B} (m : M A) (k : A -> M B) :
  keeps_paths m -> (forall a, keeps_paths (k a)) -> keeps_paths (bind m k).
Proof.
  intros Hm Hk w. specialize (Hm w). unfold final, bind in *.
  destruct (m w) as [[[a | e] w1] l1]; cbn [fst snd] in *; [| exact Hm].
  specialize (Hk a w1). unfold final in Hk.
  destruct (k a w1) as [[r w2] l2]. cbn [fst snd] in *.
  eapply fs_extends_trans; eassumption.
Qed.

Lemma keeps_try_except {A} (m : M A) (h : exn -> M A) :
  keeps_paths m -> (forall e, keeps_paths (h e)) ->
  keeps_paths (try_except m h).
Proof.
  intros Hm Hh w. specialize (Hm w). unfold final, try_except in *.
  destruct (m w) as [[[a | e] w1] l1]; cbn [fst snd] in *; [exact Hm |].
  specialize (Hh e w1). unfold final in Hh.
  destruct (h e w1) as [[r w2] l2]. cbn [fst snd] in *.
  eapply fs_extends_trans; eassumption.
Qed.

Lemma keeps_foldM {A B} (f : B -> A -> M B) xs :
  (forall acc x, keeps_paths (f acc x)) ->
  forall acc, keeps_paths (foldM f acc xs).
Proof.
  intros Hf. induction xs as [| x xs IH]; intros acc; cbn [foldM].
  - apply keeps_ret.
  - apply keeps_bind; [apply Hf | intros acc'; apply IH].
Qed.

Lemma keeps_makedirs name : keeps_paths (makedirs name).
Proof.
  unfold makedirs. destruct (String.eqb name ""); [apply keeps_raise |].
  apply keeps_foldM. intros [] q w. unfold final, bind, get_state.
  destruct (bool_decide (is_Some (fs_files (w_fs w) !! q)));
    cbn [fst snd raise put_state w_fs fs_files fs_dirs];
    [apply fs_extends_refl |].
  split; [auto | cbn; set_solver].
Qed.

Lemma keeps_open_w filepath : keeps_paths (open_w filepath).
Proof.
  intros w. unfold final, open_w, bind, get_state.
  match goal with
  | |- context [if ?c then _ else _] => destruct c
  end; cbn [fst snd raise put_state w_fs fs_files fs_dirs];
    [apply fs_extends_refl |].
  split; [| cbn; set_solver].
  intros p Hp. cbn. destruct (decide (filepath = p)) as [-> | Hne].
  - rewrite lookup_insert_eq. eauto.
  - now rewrite lookup_insert_ne.
Qed.

Lemma keeps_file_write filepath content : keeps_paths (file_write filepath content).
Proof.
  destruct content; try apply keeps_raise.
  intros w. unfold final, file_write, bind, get_state.
  cbn [fst snd put_state w_fs fs_files fs_dirs].
  split; [| cbn; set_solver].
  intros p Hp. cbn. destruct (decide (filepath = p)) as [-> | Hne].
  - rewrite lookup_insert_eq. eauto.
  - now rewrite lookup_insert_ne.
Qed.

Lemma keeps_write_file directory filename content :
  keeps_paths (_write_file directory filename content).
Proof.
  unfold _write_file. destruct filename; try apply keeps_raise.
  apply keeps_bind; [apply keeps_open_w | intros ?; apply keeps_file_write].
Qed.

End KeepsPaths.

Ltac keeps :=
  repeat first
    [ apply keeps_ret | apply keeps_raise | apply keeps_logger
    | apply keeps_lift_outcome | apply keeps_get_s | apply keeps_liftG
    | apply keeps_makedirs | apply keeps_write_file
    | apply keeps_bind; [| intros ?]
    | apply keeps_try_except; [| intros ?]
    | apply keeps_foldM; intros ? ?
    | match goal with
      | |- keeps_paths (match ?x with _ => _ end) => destruct x
      end ].

Section LogWriterFiles.
Context {RT : PyRuntime}.
Variable configs : gmap string pyval.

Lemma keeps_generate_atomic_log persona :
  keeps_paths (generate_atomic_log configs persona).
Proof. unfold generate_atomic_log. cbv zeta. keeps. Qed.

Lemma keeps_generate_one acc persona :
  keeps_paths (generate_one configs acc persona).
Proof.
  unfold generate_one. apply keeps_try_except.
  - apply keeps_bind; [apply keeps_generate_atomic_log | intros ?; keeps].
  - intros e. keeps.
Qed.

(** X16: the log writer only adds to the file system.  Whatever the
    roster and whichever personas fail, every path that held a file before
    the batch holds a file after it, and every directory is still there:
    nothing is removed, though a file may be written anew. *)
Theorem batch_never_removes_a_path (personas : list Persona) (w : World) :
  fs_extends (w_fs w)
    (w_fs (final (generate_all_atomic_logs configs personas) w)).
Proof.
  revert w. change (keeps_paths (generate_all_atomic_logs configs personas)).
  unfold generate_all_atomic_logs.
  do 3 (apply keeps_bind; [apply keeps_logger | intros ?]).
  apply keeps_bind; [| intros ?; keeps].
  apply keeps_foldM. intros acc x. apply keeps_generate_one.
Qed.

(** The files named by the entries [keys] of the file structure exist. *)
Lemma hoare_keeps {A} file_structure directory keys (m : M A) :
  keeps_paths m ->
  hoare (fun w => Forall (fun key => written file_structure directory key w) keys)
    m
    (fun _ w => Forall (fun key => written file_structure directory key w) keys).
Proof.
  intros Hm w Hw a _. eapply List.Forall_impl; [| exact Hw].
  intros key [name [Hname Hfile]]. exists name. split; [exact Hname |].
  now apply (Hm w).
Qed.

Lemma hoare_name file_structure directory keys key :
  hoare (fun w => Forall (fun key => written file_structure directory key w) keys)
    (lift_outcome (getitem file_structure key))
    (fun name w =>
       getitem file_structure key = Ok name
       /\ Forall (fun key => written file_structure directory key w) keys).
Proof. apply hoare_lift_outcome. intros name w Hname Hw. now split. Qed.

Lemma hoare_write file_structure directory keys key name content :
  getitem file_structure key = Ok name ->
  hoare (fun w => Forall (fun key => written file_structure directory key w) keys)
    (_write_file directory name content)
    (fun _ w =>
       Forall (fun key => written file_structure directory key w)
         (keys ++ [key])).
Proof.
  intros Hname w Hw u Hrun. apply Forall_app. split.
  - exact (hoare_keeps file_structure directory keys _
             (keeps_write_file directory name content) w Hw u Hrun).
  - constructor; [| constructor].
    unfold _write_file in Hrun. destruct name; try discriminate.
    exists s. split; [exact Hname |].
    unfold _write_file.
    apply bind_ok_inv in Hrun as [u' [_ [Hwrite Hfin]]]. rewrite Hfin.
    destruct content; try discriminate.
    unfold final, file_write, bind, get_state, put_state.
    cbn [fst snd w_fs fs_files]. rewrite lookup_insert_eq. eauto.
Qed.

Lemma generate_atomic_log_files persona :
  hoare (fun _ => True) (generate_atomic_log configs persona)
    (fun _ w =>
       Forall
         (fun key =>
            written (cfg_value configs "main" ["file_structure"] PNone)
              (atomic_log_dir persona) key w)
         ["user_info_filename"; "passwords_filename"; "brute_filename";
          "autofills_filename"; "google_tokens_filename";
          "keychain_filename"]).
Proof.
  unfold generate_atomic_log. cbv zeta.
  eapply hoare_bind; [apply hoare_true | intros ?; cbv beta].
  eapply hoare_bind; [apply hoare_true | intros ?; cbv beta].
  eapply hoare_bind; [apply hoare_get_s | intros fsv; cbv beta].
  apply hoare_pure_pre. intros ->.
  apply hoare_try_except; [| intros e; apply diverts_log_raise].
  set (fsv := cfg_value configs "main" ["file_structure"] PNone).
  set (d := atomic_log_dir persona).
  apply (hoare_conseq _
           (fun w => Forall (fun key => written fsv d key w) []) _ _
           (fun _ w =>
              Forall (fun key => written fsv d key w)
                ["user_info_filename"; "passwords_filename"; "brute_filename";
                 "autofills_filename"; "google_tokens_filename";
                 "keychain_filename"]));
    [intros; constructor | | auto].
  (* UserInformation.txt *)
  eapply hoare_bind; [apply hoare_name | intros n1; cbv beta].
  apply hoare_pure_pre. intros H1.
  eapply hoare_bind; [apply hoare_keeps, keeps_liftG | intros ?; cbv beta].
  eapply hoare_bind; [apply (hoare_write _ _ _ _ _ _ H1) | intros ?; cbv beta].
  (* Passwords.txt *)
  eapply hoare_bind; [apply hoare_keeps, keeps_liftG | intros ?; cbv beta].
  eapply hoare_bind; [apply hoare_name | intros n2; cbv beta].
  apply hoare_pure_pre. intros H2.
  eapply hoare_bind; [apply (hoare_write _ _ _ _ _ _ H2) | intros ?; cbv beta].
  (* Brute.txt *)
  eapply hoare_bind; [apply hoare_name | intros n3; cbv beta].
  apply hoare_pure_pre. intros H3.
  eapply hoare_bind; [apply (hoare_write _ _ _ _ _ _ H3) | intros ?; cbv beta].
  (* Autofills.txt *)
  eapply hoare_bind; [apply hoare_name | intros n4; cbv beta].
  apply hoare_pure_pre. intros H4.
  eapply hoare_bind; [apply hoare_keeps, keeps_liftG | intros ?; cbv beta].
  eapply hoare_bind; [apply (hoare_write _ _ _ _ _ _ H4) | intros ?; cbv beta].
  (* GoogleTokens.txt *)
  eapply hoare_bind; [apply hoare_name | intros n5; cbv beta].
  apply hoare_pure_pre. intros H5.
  eapply hoare_bind; [apply hoare_keeps, keeps_liftG | intros ?; cbv beta].
  eapply hoare_bind; [apply (hoare_write _ _ _ _ _ _ H5) | intros ?; cbv beta].
  (* keychain.txt *)
  eapply hoare_bind; [apply hoare_name | intros n6; cbv beta].
  apply hoare_pure_pre. intros H6.
  eapply hoare_bind; [apply hoare_keeps, keeps_liftG | intros ?; cbv beta].
  eapply hoare_bind; [apply (hoare_write _ _ _ _ _ _ H6) | intros ?; cbv beta].
  (* the cookie files *)
  cbn [app].
  repeat (eapply hoare_bind; [apply hoare_keeps; keeps | intros ?; cbv beta]).
  apply hoare_ret. auto.
Qed.

(** X17: a generation that returns has written its six files: each of the
    six file-name entries of the file structure names a text, and the file
    of that name exists in the directory of the persona when the run
    ends. *)
Theorem successful_log_has_its_six_files (persona : Persona) (w : World)
    (d : string) :
  result (generate_atomic_log configs persona) w = Ok d ->
  Forall
    (fun key =>
       exists name,
         getitem (cfg_value configs "main" ["file_structure"] PNone) key
         = Ok (PStr name)
         /\ is_Some
              (fs_files (w_fs (final (generate_atomic_log configs persona) w))
               !! path_join (atomic_log_dir persona) name))
    ["user_info_filename"; "passwords_filename"; "brute_filename";
     "autofills_filename"; "google_tokens_filename"; "keychain_filename"].
Proof.
  intros Hrun. exact (generate_atomic_log_files persona w I d Hrun).
Qed.

End LogWriterFiles.

Lemma successful_log_has_its_six_files_witness :
  result (generate_atomic_log (RT := Lcg.runtime) atomic_store alice) world0
  = Ok "Atomic_P1_Alice_Doe"
  /\ is_Some
       (fs_files
          (w_fs (final (generate_atomic_log (RT := Lcg.runtime) atomic_store
                          alice) world0))
        !! "Atomic_P1_Alice_Doe/Brute.txt").
Proof.
  assert (Hrun :
    result (generate_atomic_log (RT := Lcg.runtime) atomic_store alice) world0
    = Ok "Atomic_P1_Alice_Doe") by (vm_compute; reflexivity).
  split; [exact Hrun |].
  pose proof (successful_log_has_its_six_files (RT := Lcg.runtime)
                atomic_store alice world0 _ Hrun) as Hall.
  apply List.Forall_forall with (x := "brute_filename") in Hall;
    [| cbn; tauto].
  destruct Hall as [name [Hname Hfile]].
  vm_compute in Hname. injection Hname as <-. exact Hfile.
Defined.

(** ** Loading the roster *)

Section RosterFacts.
Context {RT : PyRuntime}.







End RosterFacts.


Section RosterEdges.
Context {RT : PyRuntime}.

(** X19: a header with none of the columns [Infection], [Stealer],
    [InfectedBy] and [Malware] makes the load raise [ValueError], whatever
    the rows; the failure is logged as an error after the warning about
    the missing column, and the file system is left as it was (the file of
    selected personas is not written). *)
Theorem roster_without_infection_column_is_refused (names : list pyval)
    (rows : list csv_row) (w : World) :
  existsb (scalar_eq (PStr "Infection")) names = false ->
  existsb (scalar_eq (PStr "Stealer")) names = false ->
  existsb (scalar_eq (PStr "InfectedBy")) names = false ->
  existsb (scalar_eq (PStr "Malware")) names = false ->
  load_atomic_personas (PList names) rows w
  = (Raise ValueError, w,
     [(WARNING,
       "No 'Infection' column found in CSV. "
       +:+ "Looking for 'Stealer' or 'InfectedBy' column.");
      (ERROR, "Error loading personas: ValueError")]).
Proof.
  intros H1 H2 H3 H4.
  unfold load_atomic_personas, try_except, infection_column.
  unfold bind at 2. unfold bind at 2. unfold lift_outcome at 1.
  cbn [py_in]. rewrite H1. cbn [negb].
  unfold bind at 2. unfold logger at 1. unfold bind at 2.
  cbn [foldM]. unfold bind, lift_outcome, ret, raise, logger.
  cbn [py_in]. rewrite H2, H3, H4. reflexivity.
Qed.

End RosterEdges.

Lemma roster_without_infection_column_is_refused_witness :
  load_atomic_personas (RT := Lcg.runtime)
    (PList [PStr "PersonaID"; PStr "OS"])
    [[("PersonaID", "P1"); ("OS", "macOS 14")]] world0
  = (Raise ValueError, world0,
     [(WARNING,
       "No 'Infection' column found in CSV. "
       +:+ "Looking for 'Stealer' or 'InfectedBy' column.");
      (ERROR, "Error loading personas: ValueError")]).
Proof.
  apply (roster_without_infection_column_is_refused (RT := Lcg.runtime)
           [PStr "PersonaID"; PStr "OS"]); reflexivity.
Defined.

(** ** Seeds *)

(** X20: the seed of a persona and a purpose is a number of 32 bits, in the
    Atomic generator and in the Vidar generator alike: whatever the
    identifier and the purpose, it lies between 0 and 2^32 - 1. *)
Theorem persona_seeds_are_32_bit (persona_id suffix : string) :
  0 <= get_persona_seed persona_id suffix < 2 ^ 32
  /\ 0 <= Vidar.get_persona_seed persona_id suffix < 2 ^ 32.
Proof.
  split; [apply get_persona_seed_range | apply vidar_get_persona_seed_range].
Qed.

(** X21: the underscore the Atomic generator puts between identifier and
    purpose does not keep the pairs apart: an underscore at the end of the
    identifier and one at the start of the purpose give the same seed, and
    so do any two pairs whose texts joined by an underscore are equal. *)
Theorem atomic_seed_ignores_where_the_underscore_is
    (persona_id suffix : string) :
  get_persona_seed (persona_id +:+ "_") suffix
  = get_persona_seed persona_id ("_" +:+ suffix)
  /\ forall p1 s1 p2 s2,
       p1 +:+ "_" +:+ s1 = p2 +:+ "_" +:+ s2 ->
       get_persona_seed p1 s1 = get_persona_seed p2 s2.
Proof.
  split.
  - unfold get_persona_seed. now rewrite append_assoc3.
  - intros p1 s1 p2 s2 H. unfold get_persona_seed. now rewrite H.
Qed.

(** ** Debug.txt of the Lumma log *)

Section DebugTxt.
Context {RT : PyRuntime}.
Variable configs : gmap string pyval.

Lemma strs_of_app a b ss :
  strs_of (a ++ b) = Ok ss ->
  exists sa sb, strs_of a = Ok sa /\ strs_of b = Ok sb /\ ss = sa ++ sb.
Proof.
  revert ss. induction a as [| x a IH]; intros ss H.
  - exists [], ss. now repeat split.
  - cbn [app strs_of] in *. destruct x; try discriminate.
    destruct (strs_of (a ++ b)) as [ss' |] eqn:Hab; [| discriminate].
    injection H as <-. destruct (IH _ eq_refl) as [sa [sb [Ha [Hb ->]]]].
    rewrite Ha. exists (s :: sa), sb. now repeat split.
Qed.

Lemma join_framed (lines : list pyval) first_v last_v middle text :
  lines = first_v :: middle ++ [last_v] ->
  py_join newline lines = Ok text ->
  exists first last between,
    first_v = PStr first /\ last_v = PStr last
    /\ text = join newline (first :: between ++ [last]).
Proof.
  intros -> Hjoin. unfold py_join in Hjoin.
  destruct (strs_of (first_v :: middle ++ [last_v])) as [ss |] eqn:Hss;
    [| discriminate].
  injection Hjoin as <-.
  change (first_v :: middle ++ [last_v])
    with ([first_v] ++ (middle ++ [last_v])) in Hss.
  apply strs_of_app in Hss as [sa [sb [Ha [Hb ->]]]].
  apply strs_of_app in Hb as [sm [sl [Hm [Hl ->]]]].
  cbn [strs_of] in Ha, Hl.
  destruct first_v; try discriminate. destruct last_v; try discriminate.
  injection Ha as <-. injection Hl as <-.
  exists s, s0, sm. now repeat split.
Qed.

(** X22: [Debug.txt] is framed by the first and the last of the configured
    codes: whenever the generation returns, its first line is the first
    code and its last line is the last code (by default [reg] and [fin]),
    whatever the random generator decides about the optional codes and the
    repetition. *)
Theorem debug_txt_is_framed_by_first_and_last_code (e : Ent) (text : string) :
  result (Lumma.generate_debug_txt configs) e = Ok text ->
  exists first last between,
    getitem_int
      (cfg_value configs "main" ["debug_codes"]
         (PList [PStr "reg"; PStr "fin"])) 0 = Ok (PStr first)
    /\ getitem_int
         (cfg_value configs "main" ["debug_codes"]
            (PList [PStr "reg"; PStr "fin"])) (-1) = Ok (PStr last)
    /\ text = join newline (first :: between ++ [last]).
Proof.
  unfold Lumma.generate_debug_txt. intros Hrun.
  apply bind_ok_inv in Hrun as [x [_ [Hrun _]]].
  apply bind_ok_inv in Hrun as [u [_ [Hrun _]]].
  rewrite (result_bind_ok _ _ _ _ _ _ (lumma_get_s_value configs _ _ _ _))
    in Hrun.
  rewrite (result_bind_ok _ _ _ _ _ _ (lumma_get_s_value configs _ _ _ _))
    in Hrun.
  set (codes := cfg_value configs "main" ["debug_codes"]
                  (PList [PStr "reg"; PStr "fin"])) in *.
  apply bind_ok_inv in Hrun as [first_v [Hfirst [Hrun _]]].
  apply bind_ok_inv in Hrun as [lines1 [H1 [Hrun _]]].
  assert (E1 : exists m1, lines1 = first_v :: m1).
  { destruct (py_truthy _); [| injection H1 as <-; now exists []].
    apply bind_ok_inv in H1 as [above [_ [H1 _]]].
    destruct above; [| injection H1 as <-; now exists []].
    unfold Lumma.extend in H1.
    apply bind_ok_inv in H1 as [items [_ [H1 _]]].
    injection H1 as <-. now exists items. }
  destruct E1 as [m1 ->].
  apply bind_ok_inv in Hrun as [inner [_ [Hrun _]]].
  apply bind_ok_inv in Hrun as [lines2 [H2 [Hrun _]]].
  unfold Lumma.extend in H2.
  apply bind_ok_inv in H2 as [items2 [_ [H2 _]]]. injection H2 as <-.
  apply bind_ok_inv in Hrun as [res [_ [Hrun _]]].
  apply bind_ok_inv in Hrun as [dat [_ [Hrun _]]].
  apply bind_ok_inv in Hrun as [last_v [Hlast [Hrun _]]].
  apply bind_ok_inv in Hrun as [again [_ [Hrun _]]].
  apply bind_ok_inv in Hrun as [lines3 [H3 [Hrun _]]].
  assert (E3 : exists m3, lines3 = first_v :: m3 ++ [last_v]).
  { destruct again.
    - apply bind_ok_inv in H3 as [last2 [Hlast2 [H3 _]]].
      assert (last2 = last_v).
      { unfold result, lift_outcome in Hlast, Hlast2.
        cbn [fst] in Hlast, Hlast2. congruence. }
      subst last2. injection H3 as <-. cbn [app].
      eexists. reflexivity.
    - injection H3 as <-. cbn [app]. eexists. reflexivity. }
  destruct E3 as [m3 E3].
  destruct (join_framed lines3 first_v last_v m3 text E3 Hrun)
    as [first [last [between [-> [-> ->]]]]].
  exists first, last, between. repeat split; [exact Hfirst | exact Hlast].
Qed.

End DebugTxt.

Lemma debug_txt_is_framed_by_first_and_last_code_witness :
  exists text between,
    result (Lumma.generate_debug_txt (RT := Lcg.runtime) atomic_store) ent0
    = Ok text
    /\ text = join newline ("reg" :: between ++ ["fin"]).
Proof.
  destruct (result (Lumma.generate_debug_txt (RT := Lcg.runtime) atomic_store)
              ent0) as [text | err] eqn:Hrun.
  - destruct (debug_txt_is_framed_by_first_and_last_code (RT := Lcg.runtime)
                atomic_store ent0 text Hrun)
      as [first [last [between [Hf [Hl Htext]]]]].
    vm_compute in Hf. vm_compute in Hl.
    injection Hf as <-. injection Hl as <-.
    exists text, between. split; [reflexivity | exact Htext].
  - vm_compute in Hrun. discriminate.
Defined.

(** ** The address and the tokens *)

Section AddressAndTokens.
Context {RT : PyRuntime}.
Variable configs : gmap string pyval.

Lemma randint_run a b (e : Ent) :
  a <= b ->
  exists n r,
    randint (PInt a) (PInt b) e = (Ok n, mkEnt r (e_clock e) (e_ticks e), [])
    /\ a <= n <= b.
Proof.
  intros Hab. unfold randint, bind, lift_outcome. cbn [as_int].
  destruct (b <? a) eqn:Hlt; [apply Z.ltb_lt in Hlt; lia |].
  unfold with_rng, ret.
  pose proof (rng_randbelow_range (b - a + 1) (e_rng e) ltac:(lia)) as Hr.
  destruct (rng_randbelow (b - a + 1) (e_rng e)) as [x r]. cbn [fst] in Hr.
  exists (a + x), r. split; [reflexivity | lia].
Qed.

(** X23: the IP address of [UserInformation.txt] is the prefix configured
    for the persona's country, or else the prefix configured as [default],
    followed by a dot and a number from 1 to 254; the generation does not
    fail when the ranges are a mapping.  With neither entry configured the
    prefix is the text [None]. *)
Theorem ip_address_uses_country_prefix_or_default (country : string)
    (ranges : list (string * pyval)) (e : Ent) :
  cfg_value configs "network" ["country_ip_ranges"] PNone = PDict ranges ->
  exists n,
    1 <= n <= 254
    /\ result (_generate_ip_address configs country) e
       = Ok (py_str
               (default (default PNone (dict_lookup ranges "default"))
                  (dict_lookup ranges country))
             +:+ "." +:+ string_of_Z n).
Proof.
  intros Hranges. unfold _generate_ip_address.
  rewrite bind_get_s_run, Hranges.
  destruct (randint_run 1 254 e ltac:(lia)) as [n [r [Hrun Hn]]].
  exists n. split; [exact Hn |].
  unfold result, bind, lift_outcome. cbn [py_get]. rewrite Hrun.
  reflexivity.
Qed.

End AddressAndTokens.

Lemma ip_address_uses_country_prefix_or_default_witness :
  cfg_value atomic_store "network" ["country_ip_ranges"] PNone
  = PDict [("default", PStr "10.0.0")]
  /\ exists n,
       1 <= n <= 254
       /\ result (_generate_ip_address (RT := Lcg.runtime) atomic_store "US")
            ent0 = Ok ("10.0.0" +:+ "." +:+ string_of_Z n).
Proof.
  split; [reflexivity |].
  exact (ip_address_uses_country_prefix_or_default (RT := Lcg.runtime)
           atomic_store "US" [("default", PStr "10.0.0")] ent0 eq_refl).
Defined.

Section TokenShape.
Context {RT : PyRuntime}.
Variable configs : gmap string pyval.



End TokenShape.

